(** * VibeResearch: the citation resolver and the style-profile merge

    A shallow embedding of [src/services/geminiService.ts] and of the two
    handlers of [src/App.tsx] that drive it, [handleFindCitations] and
    [handleCalibrateFromEditor].

    The service talks to a generative model through
    [ai.models.generateContent]; what comes back is handed to [JSON.parse]
    and used without validation.  The embedding therefore keeps JavaScript's
    dynamic typing: data are [value]s, property reads and method calls on
    the wrong kind of value raise [TypeError], and the remote model, the
    clock and the random generator are parameters of the development. *)

From Stdlib Require Import ZArith Ascii String.
From stdpp Require Import gmap strings list fin_maps pretty.

Local Open Scope string_scope.
Local Open Scope list_scope.
Local Open Scope nat_scope.

(** ** Strings

    A JavaScript string is a sequence of UTF-16 code units.  The model keeps
    the code units below 256 (Latin-1), one [ascii] each, so [String.length]
    is [.length]. *)

(** [String.prototype.toLowerCase] on one code unit: [A]-[Z] and the
    Latin-1 capitals (U+00C0-U+00DE without the multiplication sign U+00D7)
    move up by 32, everything else stays. *)
Definition lower_unit (c : ascii) : ascii :=
  let n := nat_of_ascii c in
  if (((65 <=? n) && (n <=? 90)) ||
      ((192 <=? n) && (n <=? 222) && negb (n =? 215)))%nat
  then ascii_of_nat (n + 32)
  else c.

Fixpoint toLowerCase (s : string) : string :=
  match s with
  | EmptyString => EmptyString
  | String c s' => String (lower_unit c) (toLowerCase s')
  end.

(** [hay.includes(needle)]. *)
Fixpoint includes (hay needle : string) : bool :=
  String.prefix needle hay ||
  match hay with
  | EmptyString => false
  | String _ hay' => includes hay' needle
  end.

(** [s.slice(0, n)]. *)
Definition slice_to (n : nat) (s : string) : string := String.substring 0 n s.

(** [s.slice(-n)]: the last [n] code units. *)
Definition slice_last (n : nat) (s : string) : string :=
  String.substring (String.length s - n) n s.

(** [s.substr(start, len)]. *)
Definition substr (start len : nat) (s : string) : string :=
  String.substring start len s.

(** [s.split(' ')]. *)
Fixpoint split_space_go (cur : string) (s : string) : list string :=
  match s with
  | EmptyString => [String.rev cur]
  | String c s' =>
      if Ascii.eqb c " "%char then String.rev cur :: split_space_go EmptyString s'
      else split_space_go (String c cur) s'
  end.
Definition split_space (s : string) : list string := split_space_go EmptyString s.

(** [xs.join(sep)] on strings. *)
Fixpoint join (sep : string) (xs : list string) : string :=
  match xs with
  | [] => EmptyString
  | [x] => x
  | x :: xs' => x +:+ sep +:+ join sep xs'
  end.

(** [xs.slice(-n)] on arrays. *)
Definition last_n {A} (n : nat) (xs : list A) : list A := drop (length xs - n) xs.

(** ** Values and exceptions *)

(** What [JSON.parse] builds, plus [undefined] for a property that is not
    there.  Numbers are the integers of the prompts' schemas (a year, a
    percentage).  An object is a finite map from property names to values. *)
#[warnings="-register-all"]
Inductive value : Type :=
  | VUndefined
  | VNull
  | VBool (b : bool)
  | VNum (n : Z)
  | VStr (s : string)
  | VArr (xs : list value)
  | VObj (props : gmap string value).

Inductive exn : Type :=
  | Error (msg : string)   (* [new Error(msg)] *)
  | TypeError              (* a read or a call on the wrong kind of value *)
  | SyntaxError            (* [JSON.parse] on text that is not JSON *)
  | Rejection.             (* the remote call rejected *)

(** The outcome of an expression that may throw. *)
Inductive result (A : Type) : Type :=
  | Ok (a : A)
  | Throw (e : exn).
Arguments Ok {A} a.
Arguments Throw {A} e.

#[global] Instance result_ret : MRet result := @Ok.
#[global] Instance result_bind : MBind result := λ A B f r,
  match r with
  | Ok a => f a
  | Throw e => Throw e
  end.

(** JavaScript's ToBoolean. *)
Definition truthy (v : value) : bool :=
  match v with
  | VUndefined | VNull => false
  | VBool b => b
  | VNum n => negb (n =? 0)%Z
  | VStr s => negb (String.eqb s EmptyString)
  | VArr _ | VObj _ => true
  end.

Definition nullish (v : value) : bool :=
  match v with
  | VUndefined | VNull => true
  | _ => false
  end.

(** [a || b] and [a ?? b] when [b] is a constant. *)
Definition or_else (a b : value) : value := if truthy a then a else b.
Definition nullish_else (a b : value) : value := if nullish a then b else a.

(** [v.k] for the property names the program reads ([content], [tags],
    [id], the fields of a style profile): none of them is a built-in of
    strings, arrays or [Object.prototype], so only an object can have one. *)
Definition get_prop (v : value) (k : string) : result value :=
  match v with
  | VUndefined | VNull => Throw TypeError
  | VObj props => Ok (default VUndefined (props !! k))
  | _ => Ok VUndefined
  end.

Definition string_units (s : string) : list ascii := list_ascii_of_string s.

(** The own enumerable properties that [{...v}] copies: those of an object,
    the indices of an array or of a string, nothing for the rest. *)
Definition spread (v : value) : gmap string value :=
  match v with
  | VObj props => props
  | VArr xs => list_to_map (imap (λ i x, (pretty i, x)) xs)
  | VStr s => list_to_map (imap (λ i c, (pretty i, VStr (String c EmptyString))) (string_units s))
  | _ => ∅
  end.

(** [v.toLowerCase()]: only a string has the method. *)
Definition toLowerCase_of (v : value) : result string :=
  match v with
  | VStr s => Ok (toLowerCase s)
  | _ => Throw TypeError
  end.

(** The receiver of [.some], [.map] or [.join] has to be an array. *)
Definition as_array (v : value) : result (list value) :=
  match v with
  | VArr xs => Ok xs
  | _ => Throw TypeError
  end.

(** [String(v)], the conversion that a template literal, [+] next to a
    string and [join] apply to a value, throws a [TypeError] on a value
    that cannot be converted.  An object parsed from JSON cannot when it
    has a property [toString] of its own: no JSON value can be called, and
    the inherited [valueOf] returns the object.  An array is converted by
    joining its elements, [undefined] and [null] counting as the empty
    string, so it cannot when one of the others cannot. *)
Fixpoint convertible (v : value) : bool :=
  match v with
  | VObj props =>
      match props !! "toString" with
      | Some _ => false
      | None => true
      end
  | VArr xs => forallb (λ x, nullish x || convertible x) xs
  | _ => true
  end.

(** The value that is converted, once it is known to convert: the text it
    becomes is a function of the value. *)
Definition to_text (v : value) : result value :=
  if convertible v then Ok v else Throw TypeError.

(** [`${o.k}`]. *)
Definition interpolated (o : value) (k : string) : result value :=
  v ← get_prop o k;
  to_text v.

(** What [join] does with one element. *)
Definition join_element (x : value) : result value :=
  if nullish x then Ok x else to_text x.

(** [xs.some(cb)]: stops at the first element [cb] accepts, and at the first
    exception. *)
Fixpoint some_of {A} (cb : A → result bool) (xs : list A) : result bool :=
  match xs with
  | [] => Ok false
  | x :: xs' => b ← cb x; if b : bool then Ok true else some_of cb xs'
  end.

(** [xs.filter(cb)]. *)
Fixpoint filter_of {A} (cb : A → result bool) (xs : list A) : result (list A) :=
  match xs with
  | [] => Ok []
  | x :: xs' =>
      b ← cb x;
      rest ← filter_of cb xs';
      Ok (if b : bool then x :: rest else rest)
  end.

(** [a === b].  Primitives compare by value.  Two objects or two arrays are
    equal only when they are one and the same allocation, which a [value]
    does not record: the comparison is used on ids, which are strings. *)
Definition strict_eq (a b : value) : bool :=
  match a, b with
  | VUndefined, VUndefined | VNull, VNull => true
  | VBool x, VBool y => Bool.eqb x y
  | VNum x, VNum y => (x =? y)%Z
  | VStr x, VStr y => String.eqb x y
  | _, _ => false
  end.

(** ** The remote model, the clock and the random generator *)

Inductive EditorMode : Type := markdown | latex | docx.

(** The template literals of the service are kept as the name of the
    template and the values interpolated into it, in the order they appear:
    the text sent is a function of these. *)
Inductive prompt : Type :=
  | StyleAnalysisPrompt (sample : string)
  | GhostWritePrompt (recentContext : string)
  | RewritePrompt (selection : string)
  | ContinuePrompt (selection : string)
  | CitationPrompt (needed : nat) (context : string)
  | StyleSamplePrompt (fields : list value)
  | KeywordPrompt (text : string).

Inductive task : Type := ContinueDraft | RewriteText | NextSentence.

(** What [constructSystemPrompt] interpolates. *)
Record system_prompt : Type := SystemPrompt {
  sp_mode : EditorMode;
  sp_context : list (list value);
  sp_fields : list value
}.

(** The argument of [ai.models.generateContent]. *)
Record request : Type := Request {
  model : string;
  contents : prompt;
  systemInstruction : option (system_prompt * task);
  responseMimeType : option string;
  responseSchema : bool
}.

(** A resolved call.  [text] is [response.text], empty when the property is
    missing; [parsed] is what [JSON.parse] makes of that text, [None] when it
    raises. *)
Record response : Type := Response {
  text : string;
  parsed : option value
}.

Inductive outcome : Type :=
  | Rejected
  | Resolved (r : response).

(** The configuration and the three sources of non-determinism.  The model
    answers a request knowing the requests made before it; the [n]-th id
    drawn reads the clock ([Date.now()], in milliseconds) and the generator
    ([Math.random().toString(36)]) once each. *)
Record Env : Type := {
  apiKey : string;
  model_answer : list request → request → outcome;
  Date_now : nat → N;
  Math_random_36 : nat → string
}.

(** What a run leaves behind: the requests sent, the lines written with
    [console.error], the [alert]s shown, and how many ids were drawn. *)
Record world : Type := World {
  calls : list request;
  console : list (string * exn);
  alerts : list string;
  draws : nat
}.

Definition M (A : Type) : Type := world → result A * world.

#[global] Instance M_ret : MRet M := λ A a w, (Ok a, w).
#[global] Instance M_bind : MBind M := λ A B f m w,
  match m w with
  | (Ok a, w') => f a w'
  | (Throw e, w') => (Throw e, w')
  end.

Definition throw {A} (e : exn) : M A := λ w, (Throw e, w).

(** An expression that touches neither the model nor the log. *)
Definition pure {A} (r : result A) : M A := λ w, (r, w).

(** [try { body } catch (e) { handler }]. *)
Definition try_catch {A} (body : M A) (handler : exn → M A) : M A := λ w,
  match body w with
  | (Ok a, w') => (Ok a, w')
  | (Throw e, w') => handler e w'
  end.

Definition console_error (label : string) (e : exn) : M unit := λ w,
  (Ok (), World (calls w) (console w ++ [(label, e)]) (alerts w) (draws w)).

Definition alert (msg : string) : M unit := λ w,
  (Ok (), World (calls w) (console w) (alerts w ++ [msg]) (draws w)).

(** [JSON.parse(response.text)]. *)
Definition JSON_parse (r : response) : result value :=
  match parsed r with
  | Some v => Ok v
  | None => Throw SyntaxError
  end.

(** [!s] on a string. *)
Definition empty (s : string) : bool := String.eqb s EmptyString.

(** [if (response.text)]. *)
Definition has_text (r : response) : bool := negb (empty (text r)).

Section Service.

Variable E : Env.

(** [await ai.models.generateContent(r)]. *)
Definition generateContent (r : request) : M response := λ w,
  let w' := World (calls w ++ [r]) (console w) (alerts w) (draws w) in
  match model_answer E (calls w) r with
  | Rejected => (Throw Rejection, w')
  | Resolved resp => (Ok resp, w')
  end.

(** [`gen_${Date.now()}_${Math.random().toString(36).substr(2, 9)}`]. *)
Definition gen_id (now : N) (random36 : string) : string :=
  "gen_" +:+ pretty now +:+ "_" +:+ substr 2 9 random36.

Definition fresh_id : M string := λ w,
  (Ok (gen_id (Date_now E (draws w)) (Math_random_36 E (draws w))),
   World (calls w) (console w) (alerts w) (S (draws w))).

(** *** [extractKeywords] *)

Definition keywordRequest (text : string) : request :=
  Request "gemini-2.5-flash" (KeywordPrompt (slice_last 500 text)) None
          (Some "application/json") false.

Definition extractKeywords (text : string) : M value :=
  if empty (apiKey E) || (String.length text <? 50)%nat then mret (VArr [])
  else
    try_catch
      (response ← generateContent (keywordRequest text);
       pure (if has_text response then JSON_parse response else Ok (VArr [])))
      (λ _, mret (VArr [])).

(** *** [findCitationsForSelection] *)

(** The callback of [keywords.some] for one bibliography item. *)
Definition keywordHits (item k : value) : result bool :=
  content ← get_prop item "content";
  lc ← toLowerCase_of content;
  lk ← toLowerCase_of k;
  if includes lc lk then Ok true
  else
    tags ← get_prop item "tags";
    ts ← as_array tags;
    some_of (λ t, lt ← toLowerCase_of t; lk ← toLowerCase_of k; Ok (includes lt lk)) ts.

(** The callback of [researchDB.filter]. *)
Definition matchesKeywords (keywords item : value) : result bool :=
  ks ← as_array keywords;
  some_of (keywordHits item) ks.

Definition citationRequest (needed : nat) (selection : string) : request :=
  Request "gemini-2.5-flash" (CitationPrompt needed (slice_to 1000 selection)) None
          (Some "application/json") false.

(** [({...g, id: `gen_...`})]. *)
Definition newSnippet (g : value) : M value :=
  id ← fresh_id;
  mret (VObj (<["id" := VStr id]> (spread g))).

Definition findCitationsForSelection (selection : string) (researchDB : list value)
  : M (list value) :=
  if empty (apiKey E) then throw (Error "API Key missing")
  else
    keywords ← extractKeywords selection;
    localMatches ← pure (filter_of (matchesKeywords keywords) researchDB);
    if (3 <=? length localMatches)%nat then mret (take 3 localMatches)
    else
      let needed := (3 - length localMatches)%nat in
      returned ← try_catch
        (response ← generateContent (citationRequest needed selection);
         if has_text response then
           generated ← pure (JSON_parse response);
           gs ← pure (as_array generated);
           newSnippets ← mapM newSnippet gs;
           mret (Some (localMatches ++ newSnippets)%list)
         else mret None)
        (λ e, console_error "Citation generation failed" e;; mret None);
      match returned with
      | Some citations => mret citations
      | None => mret localMatches
      end.

(** *** [analyzeStyle] *)

Inductive coalesce : Type :=
  | OrElse        (* [parsed.k || d] *)
  | NullishElse.  (* [parsed.k ?? d] *)

Definition coalesced (op : coalesce) (v d : value) : value :=
  match op with
  | OrElse => or_else v d
  | NullishElse => nullish_else v d
  end.

(** The properties written after [...parsed], in the order of the literal. *)
Definition fallbacks : list (string * coalesce * value) :=
  [ ("dialect", OrElse, VStr "American");
    ("sentenceStructure", OrElse, VStr "Natural");
    ("sentenceLengthBias", OrElse, VStr "Varied");
    ("vocabularyStyle", OrElse, VStr "Literal");
    ("modifierFrequency", OrElse, VStr "Medium");
    ("connectiveFrequency", OrElse, VStr "Medium");
    ("writingDomain", OrElse, VStr "General");
    ("structuralBias", OrElse, VStr "Default");
    ("useMetaphors", NullishElse, VBool false);
    ("useAnalogies", NullishElse, VBool false);
    ("useAnecdotes", NullishElse, VBool false);
    ("allowContractions", NullishElse, VBool true);
    ("allowSplitInfinitives", NullishElse, VBool true);
    ("allowEndingPrepositions", NullishElse, VBool true);
    ("preferConcreteNouns", NullishElse, VBool true);
    ("allowedPunctuation", OrElse, VArr [VStr ","; VStr "."]);
    ("bannedWords", OrElse, VArr []) ].

(** One property of the literal: read [parsed.k], coalesce, write [k]. *)
Definition with_fallback (parsed : value) (acc : result (gmap string value))
    (f : string * coalesce * value) : result (gmap string value) :=
  let '(k, op, d) := f in
  props ← acc;
  v ← get_prop parsed k;
  Ok (<[k := coalesced op v d]> props).

(** [{ ...parsed, dialect: parsed.dialect || 'American', ... }]. *)
Definition mergeProfile (parsed : value) : result value :=
  props ← foldl (with_fallback parsed) (Ok (spread parsed)) fallbacks;
  Ok (VObj props).

(** The literal returned from the [catch] block. *)
Definition errorProfile : value :=
  VObj (list_to_map
    [ ("tone", VStr "Error");
      ("avgSentenceLength", VStr "Error");
      ("jargonLevel", VStr "Error");
      ("transitionWords", VArr []);
      ("rawSummary", VStr "Failed to analyze style.");
      ("formalityLevel", VNum 50);
      ("sentenceVariance", VNum 50);
      ("activeVoice", VNum 50);
      ("dialect", VStr "American");
      ("sentenceStructure", VStr "Natural");
      ("sentenceLengthBias", VStr "Varied");
      ("vocabularyStyle", VStr "Literal");
      ("modifierFrequency", VStr "Medium");
      ("connectiveFrequency", VStr "Medium");
      ("writingDomain", VStr "General");
      ("structuralBias", VStr "Default");
      ("useMetaphors", VBool false);
      ("useAnalogies", VBool false);
      ("useAnecdotes", VBool false);
      ("allowContractions", VBool true);
      ("allowSplitInfinitives", VBool true);
      ("allowEndingPrepositions", VBool true);
      ("preferConcreteNouns", VBool true);
      ("useIdioms", VBool false);
      ("useRhetoricalDevices", VBool false);
      ("allowedPunctuation", VArr []);
      ("bannedWords", VArr []) ]).

Definition styleRequest (sampleText : string) : request :=
  Request "gemini-2.5-flash" (StyleAnalysisPrompt (slice_to 3000 sampleText)) None
          (Some "application/json") false.

Definition analyzeStyle (sampleText : string) : M value :=
  if empty (apiKey E) then throw (Error "API Key missing")
  else
    try_catch
      (response ← generateContent (styleRequest sampleText);
       if has_text response then
         parsed ← pure (JSON_parse response);
         pure (mergeProfile parsed)
       else throw (Error "No data returned"))
      (λ error, console_error "Style Analysis Failed" error;; mret errorProfile).

(** *** [constructSystemPrompt] and the operations that use it *)

(** [o.k.join(', ')]: the receiver has to be an array, and every element
    has to convert. *)
Definition joined (o : value) (k : string) : result value :=
  v ← get_prop o k;
  xs ← as_array v;
  elements ← mapM join_element xs;
  Ok (VArr elements).

(** The template converts fifteen fields of the profile to text; the three
    rhetorical flags are only tested, and the two lists are joined. *)
Definition constructSystemPrompt (styleProfile : value) (mode : EditorMode)
    (contextString : list (list value)) : result system_prompt :=
  fields ← mapM (interpolated styleProfile)
    [ "writingDomain"; "structuralBias"; "dialect"; "sentenceStructure";
      "sentenceLengthBias"; "sentenceVariance"; "vocabularyStyle";
      "modifierFrequency"; "connectiveFrequency"; "preferConcreteNouns";
      "formalityLevel"; "activeVoice"; "allowContractions";
      "allowSplitInfinitives"; "allowEndingPrepositions" ];
  flags ← mapM (get_prop styleProfile) [ "useMetaphors"; "useAnalogies"; "useAnecdotes" ];
  bannedWords ← joined styleProfile "bannedWords";
  allowedPunctuation ← joined styleProfile "allowedPunctuation";
  Ok (SystemPrompt mode contextString
        (fields ++ flags ++ [bannedWords; allowedPunctuation])%list).

(** [`[Existing Source ID: ${r.id}] ${r.author} (${r.year}): ${r.content}`]. *)
Definition sourceLine (r : value) : result (list value) :=
  mapM (interpolated r) ["id"; "author"; "year"; "content"].

Definition ghostWriteRequest (recentContext : string) (sp : system_prompt) : request :=
  Request "gemini-3-pro-preview" (GhostWritePrompt recentContext)
          (Some (sp, ContinueDraft)) (Some "application/json") true.

Definition ghostWrite (currentText : string) (styleProfile : value)
    (researchContext : list value) (mode : EditorMode) : M value :=
  if empty (apiKey E) then throw (Error "API Key missing")
  else
    let recentContext := join " " (last_n 300 (split_space currentText)) in
    contextString ← pure (mapM sourceLine researchContext);
    sp ← pure (constructSystemPrompt styleProfile mode contextString);
    response ← generateContent (ghostWriteRequest recentContext sp);
    if has_text response then
      data ← pure (JSON_parse response);
      refs ← pure (get_prop data "newReferences" ≫= as_array);
      newReferences ← mapM newSnippet refs;
      mret (VObj (<["newReferences" := VArr newReferences]> (spread data)))
    else throw (Error "Failed to generate content").

Definition rewriteRequest (selection : string) (sp : system_prompt) : request :=
  Request "gemini-3-pro-preview" (RewritePrompt selection) (Some (sp, RewriteText))
          None false.

Definition rewriteSection (selection : string) (styleProfile : value)
    (mode : EditorMode) : M string :=
  if empty (apiKey E) then throw (Error "API Key missing")
  else
    sp ← pure (constructSystemPrompt styleProfile mode []);
    response ← generateContent (rewriteRequest selection sp);
    mret (if has_text response then text response else selection).

Definition continueRequest (selection : string) (sp : system_prompt) : request :=
  Request "gemini-3-pro-preview" (ContinuePrompt selection) (Some (sp, NextSentence))
          None false.

Definition continueSection (selection : string) (styleProfile : value)
    (mode : EditorMode) : M string :=
  if empty (apiKey E) then throw (Error "API Key missing")
  else
    sp ← pure (constructSystemPrompt styleProfile mode []);
    response ← generateContent (continueRequest selection sp);
    mret (if has_text response then text response else EmptyString).

(** *** [generateStyleSample] *)

Definition styleSampleRequest (fields : list value) : request :=
  Request "gemini-2.5-flash" (StyleSamplePrompt fields) None None false.

(** The template is built before the [try], and converts every value it
    interpolates. *)
Definition generateStyleSample (styleProfile : value) : M string :=
  if empty (apiKey E) then throw (Error "API Key missing")
  else
    fields ← pure (mapM (interpolated styleProfile)
      [ "writingDomain"; "structuralBias"; "dialect"; "sentenceStructure";
        "vocabularyStyle"; "modifierFrequency"; "connectiveFrequency";
        "allowContractions"; "allowSplitInfinitives"; "allowEndingPrepositions";
        "useMetaphors"; "useAnalogies" ]);
    bannedWords ← pure (joined styleProfile "bannedWords");
    activeVoice ← pure (interpolated styleProfile "activeVoice");
    allowedPunctuation ← pure (joined styleProfile "allowedPunctuation");
    try_catch
      (response ← generateContent
         (styleSampleRequest (fields ++ [bannedWords; activeVoice; allowedPunctuation])%list);
       mret (if has_text response then text response else "Failed to generate sample."))
      (λ _, mret "Error generating sample.").

End Service.

(** ** The application state and its two handlers *)

(** The [useState] cells of [App]. *)
Record App : Type := mkApp {
  content : string;
  mode : EditorMode;
  researchData : list value;
  liveSuggestions : list value;
  styleProfile : value;
  isGhostWriting : bool;
  isCalibrating : bool
}.

Definition setResearchData (f : list value → list value) (a : App) : App :=
  mkApp (content a) (mode a) (f (researchData a)) (liveSuggestions a)
        (styleProfile a) (isGhostWriting a) (isCalibrating a).

Definition setLiveSuggestions (xs : list value) (a : App) : App :=
  mkApp (content a) (mode a) (researchData a) xs
        (styleProfile a) (isGhostWriting a) (isCalibrating a).

Definition setStyleProfile (p : value) (a : App) : App :=
  mkApp (content a) (mode a) (researchData a) (liveSuggestions a)
        p (isGhostWriting a) (isCalibrating a).

Definition setIsGhostWriting (b : bool) (a : App) : App :=
  mkApp (content a) (mode a) (researchData a) (liveSuggestions a)
        (styleProfile a) b (isCalibrating a).

Definition setIsCalibrating (b : bool) (a : App) : App :=
  mkApp (content a) (mode a) (researchData a) (liveSuggestions a)
        (styleProfile a) (isGhostWriting a) b.

(** [existing.id === c.id]. *)
Definition sameId (c existing : value) : result bool :=
  eid ← get_prop existing "id";
  cid ← get_prop c "id";
  Ok (strict_eq eid cid).

(** [c => !researchData.some(existing => existing.id === c.id)]. *)
Definition notInLibrary (researchData : list value) (c : value) : result bool :=
  known ← some_of (sameId c) researchData;
  Ok (negb known).

Section Handlers.

Variable E : Env.

(** A handler reads the cells of the render that created it and queues
    updates; it yields the composition of the updates it queued, to be
    applied to the state current at that time.  [setResearchData] is the
    only one given a function of the previous value. *)
Definition handleFindCitations (selection : string) (rendered : App) : M (App → App) :=
  queued ← try_catch
    (citations ← findCitationsForSelection E selection (researchData rendered);
     newCitations ← pure (filter_of (notInLibrary (researchData rendered)) citations);
     let merge : App → App :=
       if (0 <? length newCitations)%nat
       then setResearchData (λ prev, newCitations ++ prev)%list
       else λ a, a in
     mret (λ a, setLiveSuggestions citations (merge a)))
    (λ e, console_error EmptyString e;; mret (λ a : App, a));
  mret (λ a, setIsGhostWriting false (queued (setIsGhostWriting true a))).

Definition handleCalibrateFromEditor (rendered : App) : M (App → App) :=
  if (String.length (content rendered) <? 50)%nat then
    alert "Please write at least 50 characters before calibrating.";;
    mret (λ a : App, a)
  else
    queued ← try_catch
      (newProfile ← analyzeStyle E (content rendered);
       mret (setStyleProfile newProfile))
      (λ e, console_error "Calibration failed" e;; mret (λ a : App, a));
    mret (λ a, setIsCalibrating false (queued (setIsCalibrating true a))).

End Handlers.

(** ** Typed bibliographies

    [ResearchSnippet] of [src/types.ts], the object a value of that type is
    at run time, and the keyword match of the resolver written on the typed
    data. *)

Module Snippet.
Record t : Type := make {
  id : string;
  source : string;
  year : Z;
  author : string;
  content : string;
  tags : list string
}.
End Snippet.

Definition snippet_obj (s : Snippet.t) : value :=
  VObj (list_to_map
    [ ("id", VStr (Snippet.id s));
      ("source", VStr (Snippet.source s));
      ("year", VNum (Snippet.year s));
      ("author", VStr (Snippet.author s));
      ("content", VStr (Snippet.content s));
      ("tags", VArr (VStr <$> Snippet.tags s)) ]).

(** A [string[]]. *)
Definition strings (xs : list string) : value := VArr (VStr <$> xs).

(** Keyword [k] is a case-insensitive substring of the content or of a tag. *)
Definition hits (s : Snippet.t) (k : string) : bool :=
  includes (toLowerCase (Snippet.content s)) (toLowerCase k) ||
  existsb (λ t, includes (toLowerCase t) (toLowerCase k)) (Snippet.tags s).

Definition qualifies (keywords : list string) (s : Snippet.t) : bool :=
  existsb (hits s) keywords.

(** ** Vocabulary of the statements *)

Definition is_citation_request (r : request) : bool :=
  match contents r with
  | CitationPrompt _ _ => true
  | _ => false
  end.


(** The analysis call did not deliver a value to merge: it rejected, carried
    no text, carried text that is not JSON, or the JSON [null]. *)
Definition no_profile (o : outcome) : bool :=
  match o with
  | Rejected => true
  | Resolved r =>
      negb (has_text r) ||
      match parsed r with
      | Some v => nullish v
      | None => true
      end
  end.


(** The synthetic entry made from [g] with the [n]-th id drawn. *)
Definition stamp (E : Env) (n : nat) (g : value) : value :=
  VObj (<["id" := VStr (gen_id (Date_now E n) (Math_random_36 E n))]> (spread g)).

(** The entries made from [gs] when [n] ids were drawn before. *)
Definition stamped (E : Env) (n : nat) (gs : list value) : list value :=
  imap (λ i g, stamp E (n + i) g) gs.

(** No code unit of [s] is [c]. *)
Fixpoint free_of (c : ascii) (s : string) : Prop :=
  match s with
  | EmptyString => True
  | String d s' => d ≠ c ∧ free_of c s'
  end.

(** [v.id], [undefined] where the read would throw. *)
Definition id_of (v : value) : value :=
  match get_prop v "id" with
  | Ok x => x
  | Throw _ => VUndefined
  end.

Definition has_string_id (v : value) : bool :=
  match get_prop v "id" with
  | Ok (VStr _) => true
  | _ => false
  end.

(** The world in which nothing has happened yet. *)
Definition quiet : world := World [] [] [] 0.

(** ** Scenarios

    Concrete configurations on which the statements below are run. *)

(** A service whose model gives the same answer to every request of a
    kind, whose clock stands at [now] and whose generator keeps printing
    [random36]. *)
Definition scenario (key : string) (answer : prompt → outcome) (now : N)
    (random36 : string) : Env :=
  {| apiKey := key;
     model_answer := λ _ r, answer (contents r);
     Date_now := λ _, now;
     Math_random_36 := λ _, random36 |}.

(** The double quote, for the JSON texts below. *)
Definition dq : string := String (ascii_of_nat 34) EmptyString.

Definition json (text : string) (v : value) : outcome :=
  Resolved (Response text (Some v)).

(** Three entries on quantum physics and one on interfaces. *)
Definition library : list Snippet.t :=
  [ Snippet.make "1" "Solar Cell Efficiency Limits" 2024 "Smith et al."
      "The Shockley-Queisser limit places a maximum theoretical efficiency."
      ["solar"; "efficiency"; "quantum"; "energy"];
    Snippet.make "2" "Quantum Decoherence in Warm Systems" 2023 "Rodriguez & Chen"
      "Observing quantum effects at room temperature remains a challenge."
      ["quantum"; "decoherence"; "physics"];
    Snippet.make "4" "The Future of Interface Design" 2022 "Nielsen"
      "Split-brain interfaces reduce cognitive load."
      ["ux"; "interface"; "productivity"];
    Snippet.make "5" "Quantum Dots" 2021 "Lee"
      "QUANTUM confinement shifts the emission wavelength."
      ["materials"] ].

(** An excerpt of 56 code units. *)
Definition excerpt : string :=
  "Quantum coherence in warm biological systems is fragile.".

(** The model extracts the keyword [Quantum]; [citations] is its answer to
    a citation request. *)
Definition answers (citations : outcome) (p : prompt) : outcome :=
  match p with
  | KeywordPrompt _ =>
      json ("[" +:+ dq +:+ "Quantum" +:+ dq +:+ "]") (strings ["Quantum"])
  | CitationPrompt _ _ => citations
  | _ => Rejected
  end.

(** Asked for citations, the model returns two records. *)
Definition twoCitations : Env :=
  scenario "key" (answers (json "[{},{}]" (VArr [VObj ∅; VObj ∅])))
    1700000000000 "0.4fzyo82mvyr".

(** The same model with a clock that advances between two ids. *)
Definition ticking : Env :=
  {| apiKey := "key";
     model_answer := λ _ r, answers (json "[{},{}]" (VArr [VObj ∅; VObj ∅])) (contents r);
     Date_now := λ n, (1700000000000 + N.of_nat n)%N;
     Math_random_36 := λ _, "0.4fzyo82mvyr" |}.


(** The generation call rejects. *)
Definition offline : Env :=
  scenario "key" (answers Rejected) 1700000000000 "0.4fzyo82mvyr".

(** A bibliography that holds an entry suggested earlier. *)
Definition generatedBefore : list Snippet.t :=
  [ Snippet.make "gen_1700000000000_4fzyo82mv" "Quantum Sensing" 2024 "A. Writer"
      "Sensors at the quantum limit." ["quantum"] ].

(** [analysis] is the model's answer to a style-analysis request. *)
Definition styleAnswers (analysis : outcome) (p : prompt) : outcome :=
  match p with
  | StyleAnalysisPrompt _ => analysis
  | _ => Rejected
  end.

(** The analysis comes back as the empty object. *)
Definition emptyRecord : Env :=
  scenario "key" (styleAnswers (json "{}" (VObj ∅))) 1700000000000 "0.4fzyo82mvyr".

(** The analysis comes back with an empty dialect. *)
Definition emptyDialect : Env :=
  scenario "key"
    (styleAnswers (json ("{" +:+ dq +:+ "dialect" +:+ dq +:+ ":" +:+ dq +:+ dq +:+ "}")
                        (VObj {["dialect" := VStr EmptyString]})))
    1700000000000 "0.4fzyo82mvyr".

(** The analysis names a dialect and forbids contractions. *)
Definition british : Env :=
  scenario "key"
    (styleAnswers
       (json ("{" +:+ dq +:+ "dialect" +:+ dq +:+ ":" +:+ dq +:+ "British" +:+ dq +:+ ","
              +:+ dq +:+ "allowContractions" +:+ dq +:+ ":false}")
             (VObj (<["dialect" := VStr "British"]> {["allowContractions" := VBool false]}))))
    1700000000000 "0.4fzyo82mvyr".

(** No key is configured; the model would answer every request. *)
Definition noKey : Env :=
  scenario EmptyString (λ _, json "{}" (VObj ∅)) 1700000000000 "0.4fzyo82mvyr".

(** The [StyleProfile] fields for which the merge has no fallback. *)
Definition unfilled : list string :=
  [ "tone"; "avgSentenceLength"; "jargonLevel"; "transitionWords"; "rawSummary";
    "formalityLevel"; "sentenceVariance"; "activeVoice"; "useIdioms";
    "useRhetoricalDevices" ].

(** Ten code units in the editor. *)
Definition tooShort : App :=
  mkApp "Too short." markdown [] [] errorProfile false false.

(** Sixty code units in the editor. *)
Definition sixty : App :=
  mkApp (excerpt +:+ " Ok.") markdown [] [] errorProfile false false.

(** The editor holds the excerpt and the library has one entry. *)
Definition drafting : App :=
  mkApp excerpt markdown (snippet_obj <$> take 1 library) [] errorProfile false false.

(** The world after the keyword request for [excerpt]. *)
Definition asked : world := World [keywordRequest excerpt] [] [] 0.

(** ** The editor: the other handlers of [App] and of [EditorPanel] *)

(** The line feed. *)
Definition nl : string := String (ascii_of_nat 10) EmptyString.

(** White space and line terminators among the code units below 256, which
    is what [trim] removes. *)
Definition is_space (c : ascii) : bool :=
  let n := nat_of_ascii c in
  ((9 <=? n) && (n <=? 13) || (n =? 32) || (n =? 160))%nat.

Fixpoint trimStart (s : string) : string :=
  match s with
  | EmptyString => EmptyString
  | String c s' => if is_space c then trimStart s' else s
  end.

Fixpoint trimEnd (s : string) : string :=
  match s with
  | EmptyString => EmptyString
  | String c s' =>
      match trimEnd s' with
      | EmptyString => if is_space c then EmptyString else String c EmptyString
      | rest => String c rest
      end
  end.

(** [s.trim()]. *)
Definition trim (s : string) : string := trimEnd (trimStart s).

(** [s.split(c)] for a separator of one code unit. *)
Fixpoint split_on (c : ascii) (s : string) : list string :=
  match s with
  | EmptyString => [EmptyString]
  | String x s' =>
      if Ascii.eqb x c then EmptyString :: split_on c s'
      else
        match split_on c s' with
        | [] => [String x EmptyString]
        | first :: others => String x first :: others
        end
  end.

(** [s.endsWith(t)]. *)
Definition endsWith (s t : string) : bool :=
  (String.length t <=? String.length s)%nat
  && String.eqb (slice_last (String.length t) s) t.

(** [s.slice(0, -n)]. *)
Definition slice_off (n : nat) (s : string) : string :=
  String.substring 0 (String.length s - n) s.

(** [s.substring(0, n)] and [s.substring(n)]. *)
Definition substring_to (n : nat) (s : string) : string := String.substring 0 n s.

Definition substring_from (n : nat) (s : string) : string :=
  String.substring n (String.length s - n) s.

(** [s.substring(a, b)]: both ends are clamped to the length, and swapped
    when they come in the wrong order. *)
Definition substring2 (a b : nat) (s : string) : string :=
  let a' := a `min` String.length s in
  let b' := b `min` String.length s in
  String.substring (a' `min` b') (a' `max` b' - a' `min` b') s.

(** [val.substring(0, start) + text + val.substring(end)], the expression
    by which every handler writes into the document. *)
Definition spliced (val : string) (start stop : nat) (text : string) : string :=
  substring_to start val +:+ text +:+ substring_from stop val.

(** What the handlers read of the [HTMLTextAreaElement] behind
    [editorRef]. *)
Module Textarea.
Record t : Type := make {
  value : string;
  selectionStart : nat;
  selectionEnd : nat
}.
End Textarea.

Definition setContent (s : string) (a : App) : App :=
  mkApp s (mode a) (researchData a) (liveSuggestions a)
        (styleProfile a) (isGhostWriting a) (isCalibrating a).

Section Editing.

Variable E : Env.

(** The text that the conversion makes of a value that is not a string
    and can be converted. *)
Variable String_of : value → string.

(** The comparison [v > 0] for a string, or for an array that can be
    converted: either is converted to a number first. *)
Variable exceeds_zero : value → bool.

(** The operand of [+] next to a string. *)
Definition to_string (v : value) : result string :=
  match v with
  | VStr s => Ok s
  | _ => if convertible v then Ok (String_of v) else Throw TypeError
  end.

(** [v > 0].  An object that can be converted is not a number. *)
Definition gt_zero (v : value) : result bool :=
  match v with
  | VNum n => Ok (0 <? n)%Z
  | VBool b => Ok b
  | VUndefined | VNull => Ok false
  | VObj _ => if convertible v then Ok false else Throw TypeError
  | VStr _ | VArr _ => if convertible v then Ok (exceeds_zero v) else Throw TypeError
  end.

(** [v.length]. *)
Definition length_of (v : value) : result value :=
  match v with
  | VUndefined | VNull => Throw TypeError
  | VArr xs => Ok (VNum (Z.of_nat (length xs)))
  | VStr s => Ok (VNum (Z.of_nat (String.length s)))
  | VObj props => Ok (default VUndefined (props !! "length"))
  | _ => Ok VUndefined
  end.

(** The callback of the 30-second timer of the live-context effect.  An
    exception leaves it as the rejection of the callback's promise, which
    nothing handles. *)
Definition liveContext (rendered : App) : M (App → App) :=
  if (20 <? String.length (content rendered))%nat then
    keywords ← extractKeywords E (content rendered);
    n ← pure (length_of keywords);
    positive ← pure (gt_zero n);
    if positive : bool then
      relevant ← pure (filter_of (matchesKeywords keywords) (researchData rendered));
      mret (setLiveSuggestions (take 3 relevant))
    else mret (λ a : App, a)
  else mret (λ a : App, a).

(** [ghostWrite] has assigned an array to [newReferences] when it returns,
    so that [result.newReferences && result.newReferences.length > 0] is a
    test on an array; no update is given here for another value, which
    cannot arrive.  The [catch] of the source is written twice: what is
    thrown while the paragraph is appended, its conversion to a string
    included, is caught once the updates of the library and of the
    suggestions are queued, and leaves them queued.  The scrolling of the
    editor is left out. *)
Definition handleGhostWrite (rendered : App) : M (App → App) :=
  if isGhostWriting rendered then mret (λ a : App, a)
  else
    let cleanContent :=
      if endsWith (content rendered) "+++" then slice_off 3 (content rendered)
      else content rendered in
    queued ← try_catch
      (result ← ghostWrite E cleanContent (styleProfile rendered) (researchData rendered)
                           (mode rendered);
       newReferences ← pure (get_prop result "newReferences");
       let merge : App → App :=
         match newReferences with
         | VArr refs =>
             if (0 <? length refs)%nat
             then λ a, setLiveSuggestions (take 3 (refs ++ liveSuggestions a))
                         (setResearchData (λ prev, refs ++ prev) a)
             else λ a, a
         | _ => λ a, a
         end in
       try_catch
         (paragraph ← pure (get_prop result "paragraph");
          appended ← pure (to_string paragraph);
          mret (λ a, setContent (cleanContent +:+ nl +:+ nl +:+ appended) (merge a)))
         (λ e, console_error "Ghost write failed" e;; mret merge))
      (λ e, console_error "Ghost write failed" e;; mret (λ a : App, a));
    mret (λ a, setIsGhostWriting false (queued (setIsGhostWriting true a))).

(** [editorRef] is what the ref holds once the service has answered. *)
Definition handleRewrite (selection : string) (editorRef : option Textarea.t)
    (rendered : App) : M (App → App) :=
  queued ← try_catch
    (rewritten ← rewriteSection E selection (styleProfile rendered) (mode rendered);
     mret (match editorRef with
           | Some textarea =>
               setContent (spliced (content rendered) (Textarea.selectionStart textarea)
                                   (Textarea.selectionEnd textarea) rewritten)
           | None => λ a : App, a
           end))
    (λ e, console_error EmptyString e;; mret (λ a : App, a));
  mret (λ a, setIsGhostWriting false (queued (setIsGhostWriting true a))).

Definition handleContinue (selection : string) (editorRef : option Textarea.t)
    (rendered : App) : M (App → App) :=
  queued ← try_catch
    (continuation ← continueSection E selection (styleProfile rendered) (mode rendered);
     mret (match editorRef with
           | Some textarea =>
               setContent (spliced (content rendered) (Textarea.selectionEnd textarea)
                                   (Textarea.selectionEnd textarea) (" " +:+ continuation))
           | None => λ a : App, a
           end))
    (λ e, console_error EmptyString e;; mret (λ a : App, a));
  mret (λ a, setIsGhostWriting false (queued (setIsGhostWriting true a))).

(** [handleChange] of [EditorPanel]: [onChange] is [setContent], and
    [onGhostWriteTrigger] the [handleGhostWrite] of the same render. *)
Definition handleChange (val : string) (rendered : App) : M (App → App) :=
  if endsWith val "+++" && negb (isGhostWriting rendered) then
    triggered ← handleGhostWrite rendered;
    mret (λ a, triggered (setContent val a))
  else mret (setContent val).

End Editing.

(** [handleMouseUp] of [EditorPanel]: the selection of the context menu it
    opens, if it opens one.  The coordinates of the menu are left out. *)
Definition handleMouseUp (target : Textarea.t) : option string :=
  if negb (Textarea.selectionStart target =? Textarea.selectionEnd target)%nat then
    let selection :=
      substring2 (Textarea.selectionStart target) (Textarea.selectionEnd target)
                 (Textarea.value target) in
    if (5 <? String.length (trim selection))%nat then Some selection else None
  else None.

(** [handleInsertCitation] of [App], and [insertText] of [EditorPanel],
    whose [onChange] is [setContent]. *)
Definition handleInsertCitation (citation : string) (editorRef : option Textarea.t)
  : App → App :=
  match editorRef with
  | Some textarea =>
      setContent (spliced (Textarea.value textarea) (Textarea.selectionStart textarea)
                          (Textarea.selectionEnd textarea) citation)
  | None => λ a, a
  end.

Definition insertText (text : string) (editorRef : option Textarea.t) : App → App :=
  match editorRef with
  | Some textarea =>
      setContent (spliced (Textarea.value textarea) (Textarea.selectionStart textarea)
                          (Textarea.selectionEnd textarea) text)
  | None => λ a, a
  end.

(** The [Tab] branch of [handleKeyDown] of [EditorPanel]. *)
Definition handleTab (target : Textarea.t) : App → App :=
  setContent (spliced (Textarea.value target) (Textarea.selectionStart target)
                      (Textarea.selectionEnd target) "    ").

Definition addResearchSnippet (snippet : value) : App → App :=
  setResearchData (λ prev, snippet :: prev).

(** ** The settings panel: the handlers of [VibeDeck] *)

(** [bannedWordInput.split(',').map(s => s.trim()).filter(s => s.length > 0)]. *)
Definition bannedArray (bannedWordInput : string) : list string :=
  List.filter (λ s, (0 <? String.length s)%nat) (trim <$> split_on "," bannedWordInput).

(** The [useState] cells of [VibeDeck] that its handlers write. *)
Record Deck : Type := mkDeck {
  editingProfile : value;
  bannedWordInput : string;
  showAdvancedSettings : bool;
  isAnalyzingFile : bool;
  isGeneratingSample : bool;
  showTestSample : bool;
  testSampleText : string
}.

Definition setEditingProfile (p : value) (d : Deck) : Deck :=
  mkDeck p (bannedWordInput d) (showAdvancedSettings d) (isAnalyzingFile d)
         (isGeneratingSample d) (showTestSample d) (testSampleText d).

Definition setBannedWordInput (s : string) (d : Deck) : Deck :=
  mkDeck (editingProfile d) s (showAdvancedSettings d) (isAnalyzingFile d)
         (isGeneratingSample d) (showTestSample d) (testSampleText d).

Definition setShowAdvancedSettings (b : bool) (d : Deck) : Deck :=
  mkDeck (editingProfile d) (bannedWordInput d) b (isAnalyzingFile d)
         (isGeneratingSample d) (showTestSample d) (testSampleText d).

Definition setIsAnalyzingFile (b : bool) (d : Deck) : Deck :=
  mkDeck (editingProfile d) (bannedWordInput d) (showAdvancedSettings d) b
         (isGeneratingSample d) (showTestSample d) (testSampleText d).

Definition setIsGeneratingSample (b : bool) (d : Deck) : Deck :=
  mkDeck (editingProfile d) (bannedWordInput d) (showAdvancedSettings d) (isAnalyzingFile d)
         b (showTestSample d) (testSampleText d).

Definition setShowTestSample (b : bool) (d : Deck) : Deck :=
  mkDeck (editingProfile d) (bannedWordInput d) (showAdvancedSettings d) (isAnalyzingFile d)
         (isGeneratingSample d) b (testSampleText d).

Definition setTestSampleText (s : string) (d : Deck) : Deck :=
  mkDeck (editingProfile d) (bannedWordInput d) (showAdvancedSettings d) (isAnalyzingFile d)
         (isGeneratingSample d) (showTestSample d) s.

(** [{ ...p, k: v }]. *)
Definition with_prop (p : value) (k : string) (v : value) : value :=
  VObj (<[k := v]> (spread p)).

(** [current.includes(mark)] and the list either branch of
    [togglePunctuation] builds.  An array has [includes], [filter] and an
    iterator; a string has [includes] and an iterator but no [filter];
    nothing else has [includes]. *)
Definition toggled (current : value) (mark : string) : result (list value) :=
  match current with
  | VArr xs =>
      Ok (if existsb (λ m, strict_eq m (VStr mark)) xs
          then List.filter (λ m, negb (strict_eq m (VStr mark))) xs
          else xs ++ [VStr mark])
  | VStr s =>
      if includes s mark then Throw TypeError
      else Ok (((λ c, VStr (String c EmptyString)) <$> string_units s) ++ [VStr mark])
  | _ => Throw TypeError
  end.

(** A handler of the panel yields the updates it queued and the exception
    it let out, if any.  [togglePunctuation] reads the profile of the
    render that created it. *)
Definition togglePunctuation (mark : string) (rendered : Deck)
  : (Deck → Deck) * option exn :=
  match current ← get_prop (editingProfile rendered) "allowedPunctuation";
        toggled (or_else current (VArr [])) mark with
  | Ok marks =>
      (setEditingProfile (with_prop (editingProfile rendered) "allowedPunctuation" (VArr marks)),
       None)
  | Throw e => (λ d, d, Some e)
  end.

(** [{ ...editingProfile, bannedWords: bannedArray }] of
    [handleGenerateSample]. *)
Definition tempProfile (rendered : Deck) : value :=
  with_prop (editingProfile rendered) "bannedWords"
            (strings (bannedArray (bannedWordInput rendered))).

(** [saveSettings] writes the profile of [App] and closes the panel. *)
Definition saveSettings (rendered : Deck) : (App → App) * (Deck → Deck) :=
  (setStyleProfile (with_prop (editingProfile rendered) "bannedWords"
                              (strings (bannedArray (bannedWordInput rendered)))),
   setShowAdvancedSettings false).

(** [handleResearchUpload], once the file, if one was chosen, has been
    read: its name and its text, the clock and the year at that time. *)
Definition uploaded (name text : string) (now : N) (fullYear : Z) : value :=
  VObj (list_to_map
    [ ("id", VStr (pretty now));
      ("author", VStr "Uploaded Doc");
      ("year", VNum fullYear);
      ("source", VStr name);
      ("content", VStr (slice_to 200 text +:+ "..."));
      ("tags", VArr [VStr "user-upload"]) ]).

Definition handleResearchUpload (file : option (string * string)) (now : N) (fullYear : Z)
  : App → App :=
  match file with
  | Some (name, text) => addResearchSnippet (uploaded name text now fullYear)
  | None => λ a, a
  end.

Section Panel.

Variable E : Env.

(** The text that the conversion makes of a value that is not a string
    and can be converted. *)
Variable String_of : value → string.

(** The string [join] makes of an element. *)
Definition join_item (v : value) : result string :=
  match v with
  | VStr s => Ok s
  | VUndefined | VNull => Ok EmptyString
  | _ => if convertible v then Ok (String_of v) else Throw TypeError
  end.

Definition openSettings (styleProfile : value) : (Deck → Deck) * option exn :=
  let opened := setEditingProfile (VObj (spread styleProfile)) in
  match bannedWords ← get_prop styleProfile "bannedWords";
        if truthy bannedWords
        then words ← as_array bannedWords;
             items ← mapM join_item words;
             Ok (join ", " items)
        else Ok EmptyString with
  | Ok input =>
      (λ d, setShowAdvancedSettings true (setBannedWordInput input (opened d)), None)
  | Throw e => (opened, Some e)
  end.

(** Nothing catches what [generateStyleSample] throws: the updates behind
    the [await] are not reached then. *)
Definition handleGenerateSample (rendered : Deck) : M ((Deck → Deck) * option exn) := λ w,
  match generateStyleSample E (tempProfile rendered) w with
  | (Ok text, w') =>
      (Ok (λ d, setShowTestSample true
                  (setIsGeneratingSample false
                     (setTestSampleText text (setIsGeneratingSample true d))),
           None), w')
  | (Throw e, w') => (Ok (setIsGeneratingSample true, Some e), w')
  end.

(** [handleFileUpload], once the file, if one was chosen, has been read.
    It writes the profile of [App] and cells of the panel. *)
Definition handleFileUpload (file : option string)
  : M ((App → App) * (Deck → Deck) * option exn) := λ w,
  match file with
  | None => (Ok (λ a, a, λ d, d, None), w)
  | Some text =>
      match analyzeStyle E text w with
      | (Ok newProfile, w') =>
          (Ok (setStyleProfile newProfile,
               λ d, setIsAnalyzingFile false
                      (setEditingProfile newProfile (setIsAnalyzingFile true d)),
               None), w')
      | (Throw e, w') => (Ok (λ a, a, setIsAnalyzingFile true, Some e), w')
      end
  end.

End Panel.

(** ** Vocabulary of the statements on the other operations *)

(** The selection of a text area lies in its range of code units. *)
Definition in_range (start stop : nat) (s : string) : Prop :=
  start ≤ stop ≤ String.length s.

(** [v.join(', ')] returns: [v] is an array, and each of its elements is
    [undefined], [null] or a value that can be converted. *)
Definition joins (v : value) : bool :=
  match v with
  | VArr xs => forallb (λ x, nullish x || convertible x) xs
  | _ => false
  end.

(** Both [p.bannedWords.join(', ')] and [p.allowedPunctuation.join(', ')]
    return. *)
Definition joinable (p : value) : bool :=
  match get_prop p "bannedWords", get_prop p "allowedPunctuation" with
  | Ok b, Ok a => joins b && joins a
  | _, _ => false
  end.

(** [v.k] is truthy and cannot be joined: [v.k || []] keeps it. *)
Definition unjoined (v : value) (k : string) : bool :=
  match get_prop v k with
  | Ok x => truthy x && negb (joins x)
  | Throw _ => false
  end.

(** Each of the properties [ks] of [p] can be read and converted. *)
Definition converts (p : value) (ks : list string) : bool :=
  forallb (λ k, match get_prop p k with
                | Ok v => convertible v
                | Throw _ => false
                end) ks.

(** The properties that the template of [constructSystemPrompt] converts
    to text, and those that the template of [generateStyleSample] does. *)
Definition promptFields : list string :=
  [ "writingDomain"; "structuralBias"; "dialect"; "sentenceStructure";
    "sentenceLengthBias"; "sentenceVariance"; "vocabularyStyle";
    "modifierFrequency"; "connectiveFrequency"; "preferConcreteNouns";
    "formalityLevel"; "activeVoice"; "allowContractions";
    "allowSplitInfinitives"; "allowEndingPrepositions" ].

Definition sampleFields : list string :=
  [ "writingDomain"; "structuralBias"; "dialect"; "sentenceStructure";
    "vocabularyStyle"; "modifierFrequency"; "connectiveFrequency";
    "allowContractions"; "allowSplitInfinitives"; "allowEndingPrepositions";
    "useMetaphors"; "useAnalogies"; "activeVoice" ].

(** A profile of which [constructSystemPrompt] can make a prompt, and one
    of which [generateStyleSample] can: the fields of the template can be
    converted and the two lists joined. *)
Definition promptable (p : value) : bool := converts p promptFields && joinable p.

Definition sampleable (p : value) : bool := converts p sampleFields && joinable p.

(** A banned word that survives the settings panel as it is: not empty,
    without a comma, and without white space at either end. *)
Definition clean_word (w : string) : Prop :=
  w ≠ EmptyString ∧ free_of "," w ∧ trim w = w.

(** [p.k] is defined for the fallback entry [f]: not nullish, and truthy
    where the entry coalesces with [||]. *)
Definition field_defined (p : value) (f : string * coalesce * value) : bool :=
  match get_prop p f.1.1 with
  | Ok v =>
      match f.1.2 with
      | OrElse => truthy v
      | NullishElse => negb (nullish v)
      end
  | Throw _ => false
  end.

(** An object that cannot be converted to a string. *)
Definition noString : value := VObj {["toString" := VNum 1]}.

(** The analysis lists a banned word that cannot be converted. *)
Definition unprintable : Env :=
  scenario "key"
    (styleAnswers
       (json ("{" +:+ dq +:+ "bannedWords" +:+ dq +:+ ":[{" +:+ dq +:+ "toString" +:+ dq
              +:+ ":1}]}")
             (VObj {["bannedWords" := VArr [noString]]})))
    1700000000000 "0.4fzyo82mvyr".

(** The analysis names one banned word instead of a list of them. *)
Definition oneBannedWord : Env :=
  scenario "key"
    (styleAnswers
       (json ("{" +:+ dq +:+ "bannedWords" +:+ dq +:+ ":" +:+ dq +:+ "delve" +:+ dq +:+ "}")
             (VObj {["bannedWords" := VStr "delve"]})))
    1700000000000 "0.4fzyo82mvyr".

(** The words of the draft that [ghostWrite] sends. *)
Definition recent (currentText : string) : string :=
  join " " (last_n 300 (split_space currentText)).

(** The model continues the draft and cites one new source. *)
Definition continuation : value :=
  VObj (<["paragraph" := VStr "Decoherence sets in within femtoseconds."]>
        {["newReferences" := VArr [snippet_obj (Snippet.make "ref1" "Warm Coherence" 2020
                                     "Engel" "Coherence survives in photosynthesis."
                                     ["quantum"])]]}).

(** The first two words of the excerpt are selected. *)
Definition twoWords : Textarea.t := Textarea.make excerpt 0 17.

(** The caret stands behind the first two words. *)
Definition afterTwoWords : Textarea.t := Textarea.make excerpt 17 17.

(** The editor holds the excerpt and two plus signs. *)
Definition twoPlus : App :=
  mkApp (excerpt +:+ "++") markdown [] [] errorProfile false false.

(** Thirty-eight code units in the editor. *)
Definition thirtyEight : App :=
  mkApp "Quantum coherence is fragile in cells." markdown (snippet_obj <$> library) []
        errorProfile false false.

(** No conversion is needed when the operands are strings and numbers. *)
Definition unused : value → string := λ _, EmptyString.

(** A panel that has not been opened yet. *)
Definition closed : Deck :=
  mkDeck errorProfile EmptyString false false false false EmptyString.

(** A profile with two banned words and the default punctuation. *)
Definition twoBanned : gmap string value :=
  <["bannedWords" := strings ["delve"; "tapestry"]]>
    (<["allowedPunctuation" := strings [","; "."]]> ∅).

(** The panel holds a profile with punctuation marks and two banned
    words in the input field. *)
Definition editing : Deck :=
  mkDeck (VObj twoBanned) "delve, tapestry" true false false false EmptyString.

(** The model continues the draft with a paragraph that is an object. *)
Definition noParagraph : Env :=
  scenario "key"
    (λ p, match p with
          | GhostWritePrompt _ =>
              json "{...}" (VObj (<["paragraph" := noString]>
                                  {["newReferences" := VArr [VObj ∅]]}))
          | _ => Rejected
          end)
    1700000000000 "0.4fzyo82mvyr".

Definition writing : Env :=
  scenario "key"
    (λ p, match p with
          | GhostWritePrompt _ => json "{...}" continuation
          | RewritePrompt _ => Resolved (Response "Coherence is fragile." None)
          | ContinuePrompt _ => Resolved (Response EmptyString None)
          | StyleSamplePrompt _ => Resolved (Response "Synthetic biology will matter." None)
          | _ => Rejected
          end)
    1700000000000 "0.4fzyo82mvyr".


(** * Properties *)

(** ** Strings *)

Lemma app_cons (c : ascii) (a b : string) : String c a +:+ b = String c (a +:+ b).
Proof. reflexivity. Qed.

Lemma app_empty (b : string) : EmptyString +:+ b = b.
Proof. reflexivity. Qed.

Lemma string_app_assoc (a b c : string) : (a +:+ b) +:+ c = a +:+ (b +:+ c).
Proof. induction a as [|d a IH]; [done|]. rewrite !app_cons. by rewrite IH. Qed.

Lemma prefix_app (n h : string) :
  String.prefix n h = true ↔ ∃ s, h = n +:+ s.
Proof.
  revert h. induction n as [|c n IH]; intros [|d h]; cbn.
  - split; [intros _; by exists EmptyString | done].
  - split; [intros _; by exists (String d h) | done].
  - split; [done | intros [s Hs]; discriminate].
  - setoid_rewrite app_cons. destruct (ascii_dec c d) as [->|Hcd].
    + rewrite IH. split; intros [s Hs]; exists s; congruence.
    + split; [done | intros [s Hs]; congruence].
Qed.

(** [includes] is the substring test. *)
Lemma includes_substring (h n : string) :
  includes h n = true ↔ ∃ p s, h = p +:+ n +:+ s.
Proof.
  induction h as [|c h IH]; cbn [includes].
  - rewrite orb_false_r, prefix_app. split.
    + intros [s Hs]. by exists EmptyString, s.
    + intros ([|d p] & s & Hs); [by exists s | discriminate].
  - rewrite orb_true_iff, prefix_app, IH. split.
    + intros [[s Hs] | (p & s & Hs)].
      * by exists EmptyString, s.
      * exists (String c p), s. rewrite app_cons. by rewrite Hs.
    + intros ([|d p] & s & Hs).
      * left. by exists s.
      * right. exists p, s. rewrite app_cons in Hs. congruence.
Qed.

Lemma free_of_app (c : ascii) (a b : string) :
  free_of c a → free_of c b → free_of c (a +:+ b).
Proof.
  induction a as [|d a IH]; [done|]. rewrite app_cons. cbn. intros [??] ?. auto.
Qed.

(** A separator that occurs in neither field splits in one way only. *)
Lemma split_at_separator (c : ascii) (a a' b b' : string) :
  free_of c a → free_of c a' →
  a +:+ String c b = a' +:+ String c b' → a = a' ∧ b = b'.
Proof.
  revert a'. induction a as [|d a IH]; intros [|d' a']; rewrite ?app_cons, ?app_empty; cbn.
  - intros _ _ [= ->]. done.
  - intros _ [Hd _] [= <- _]. done.
  - intros [Hd _] _ [= -> _]. done.
  - intros [_ Ha] [_ Ha'] [= -> Heq]. destruct (IH a' Ha Ha' Heq) as [-> ->]. done.
Qed.

(** ** Generated ids *)

Lemma pretty_N_char_not_underscore (x : N) : pretty_N_char x ≠ "_"%char.
Proof. unfold pretty_N_char. by repeat case_match. Qed.

Lemma pretty_N_go_digits (x : N) (s : string) :
  ∃ d, pretty_N_go x s = d +:+ s ∧ free_of "_" d.
Proof.
  revert s. induction (N.lt_wf_0 x) as [x _ IH]; intros s.
  assert (x = 0 ∨ 0 < x)%N as [->|Hx] by lia.
  - exists EmptyString. by rewrite pretty_N_go_0.
  - rewrite pretty_N_go_step by done.
    destruct (IH (x `div` 10)%N (N.div_lt x 10 Hx eq_refl)
                (String (pretty_N_char (x `mod` 10)) s)) as (d & -> & Hd).
    exists (d +:+ String (pretty_N_char (x `mod` 10)) EmptyString).
    split.
    + by rewrite string_app_assoc.
    + apply free_of_app; [done|]. cbn. auto using pretty_N_char_not_underscore.
Qed.

(** The decimal text of a timestamp has no underscore. *)
Lemma pretty_N_digits (x : N) : free_of "_" (pretty x).
Proof.
  unfold pretty, pretty_N. case_decide; [cbn; auto|].
  destruct (pretty_N_go_digits x EmptyString) as (d & -> & Hd).
  apply free_of_app; done.
Qed.

(** Two ids are equal only if they were made at the same millisecond from
    the same nine digits. *)
Lemma gen_id_inj (t t' : N) (r r' : string) :
  gen_id t r = gen_id t' r' → t = t' ∧ substr 2 9 r = substr 2 9 r'.
Proof.
  unfold gen_id. rewrite !app_cons, !app_empty. intros [= H].
  apply split_at_separator in H as [Ht Hr]; [|apply pretty_N_digits..].
  split; [by apply pretty_N_inj | done].
Qed.

Lemma gen_id_prefix (t : N) (r : string) : String.prefix "gen_" (gen_id t r) = true.
Proof. apply prefix_app. eexists. reflexivity. Qed.

(** ** Running the service *)

Lemma empty_spec (s : string) : empty s = true ↔ s = EmptyString.
Proof. unfold empty. apply String.eqb_eq. Qed.

Lemma key_configured (E : Env) : apiKey E ≠ EmptyString → empty (apiKey E) = false.
Proof. intros Hkey. apply not_true_is_false. by rewrite empty_spec. Qed.

Lemma key_missing (E : Env) : apiKey E = EmptyString → empty (apiKey E) = true.
Proof. apply empty_spec. Qed.

(** Run the first bind of the goal. *)
Ltac run_bind := unfold mbind at 1, M_bind.

(** Get past the key check of the operation [op]. *)
Ltac pass_key_check op Hkey := unfold op; rewrite (key_configured _ Hkey).

(** Stop at the key check of the operation [op]. *)
Ltac fail_key_check op Hkey := unfold op; by rewrite (key_missing _ Hkey).

Lemma newSnippet_stamp (E : Env) (g : value) (w : world) :
  newSnippet E g w
  = (Ok (stamp E (draws w) g), World (calls w) (console w) (alerts w) (S (draws w))).
Proof. reflexivity. Qed.

Lemma mapM_newSnippet (E : Env) (gs : list value) (w : world) :
  mapM (newSnippet E) gs w
  = (Ok (stamped E (draws w) gs),
     World (calls w) (console w) (alerts w) (draws w + length gs)).
Proof.
  revert w. induction gs as [|g gs IH]; intros w.
  - destruct w. cbn. by rewrite Nat.add_0_r.
  - cbn [mapM]. run_bind. rewrite newSnippet_stamp.
    run_bind. rewrite IH. cbn.
    unfold stamped. cbn [imap]. rewrite Nat.add_0_r.
    unfold mret, M_ret. f_equal; [f_equal; f_equal | f_equal; lia].
    apply imap_ext. intros i x _. cbn. f_equal. lia.
Qed.

Lemma length_stamped (E : Env) (n : nat) (gs : list value) :
  length (stamped E n gs) = length gs.
Proof. apply length_imap. Qed.

Lemma stamped_lookup (E : Env) (n i : nat) (gs : list value) (c : value) :
  stamped E n gs !! i = Some c → ∃ g, gs !! i = Some g ∧ c = stamp E (n + i) g.
Proof.
  unfold stamped. rewrite list_lookup_imap.
  destruct (gs !! i) as [g|]; [|done]. intros [= <-]. eauto.
Qed.

Lemma id_of_stamp (E : Env) (n : nat) (g : value) :
  id_of (stamp E n g) = VStr (gen_id (Date_now E n) (Math_random_36 E n)).
Proof. unfold id_of, stamp, get_prop. by rewrite lookup_insert_eq. Qed.

Lemma has_string_id_stamp (E : Env) (n : nat) (g : value) :
  has_string_id (stamp E n g) = true.
Proof. unfold has_string_id, stamp, get_prop. by rewrite lookup_insert_eq. Qed.

(** ** The keyword match on a typed bibliography *)

Lemma some_of_existsb {A} (p : A → bool) (xs : list A) :
  some_of (λ x, Ok (p x)) xs = Ok (existsb p xs).
Proof.
  induction xs as [|x xs IH]; [done|]. simpl.
  unfold mbind, result_bind. destruct (p x); [done | apply IH].
Qed.

Lemma some_of_ext {A} (f g : A → result bool) (xs : list A) :
  (∀ x, f x = g x) → some_of f xs = some_of g xs.
Proof. intros Hfg. induction xs as [|x xs IH]; simpl; [done|]. by rewrite Hfg, IH. Qed.

Lemma some_of_fmap {A B} (h : A → B) (f : B → result bool) (xs : list A) :
  some_of f (h <$> xs) = some_of (f ∘ h) xs.
Proof.
  induction xs as [|x xs IH]; [done|].
  rewrite fmap_cons. cbn [some_of]. by rewrite IH.
Qed.

Lemma snippet_content (s : Snippet.t) :
  get_prop (snippet_obj s) "content" = Ok (VStr (Snippet.content s)).
Proof. reflexivity. Qed.

Lemma snippet_tags (s : Snippet.t) :
  get_prop (snippet_obj s) "tags" = Ok (strings (Snippet.tags s)).
Proof. reflexivity. Qed.

Lemma snippet_id (s : Snippet.t) :
  get_prop (snippet_obj s) "id" = Ok (VStr (Snippet.id s)).
Proof. reflexivity. Qed.

(** On the object of a [ResearchSnippet] and a string keyword the callback
    does not throw and computes [hits]. *)
Lemma keywordHits_typed (s : Snippet.t) (k : string) :
  keywordHits (snippet_obj s) (VStr k) = Ok (hits s k).
Proof.
  unfold keywordHits, hits. rewrite snippet_content, snippet_tags.
  cbn [mbind result_bind toLowerCase_of].
  destruct (includes _ _); [done|].
  unfold strings. cbn [as_array orb mbind result_bind]. rewrite some_of_fmap.
  apply (some_of_existsb (λ t, includes (toLowerCase t) (toLowerCase k))).
Qed.

Lemma matchesKeywords_typed (kws : list string) (s : Snippet.t) :
  matchesKeywords (strings kws) (snippet_obj s) = Ok (qualifies kws s).
Proof.
  unfold matchesKeywords, strings, qualifies. cbn [as_array mbind result_bind].
  rewrite some_of_fmap.
  rewrite (some_of_ext _ (λ k, Ok (hits s k))); [apply some_of_existsb|].
  intros k. apply keywordHits_typed.
Qed.

(** The filter of the resolver keeps the qualifying entries, in order. *)
Lemma filter_of_typed (kws : list string) (db : list Snippet.t) :
  filter_of (matchesKeywords (strings kws)) (snippet_obj <$> db)
  = Ok (snippet_obj <$> List.filter (qualifies kws) db).
Proof.
  induction db as [|s db IH]; [done|].
  rewrite fmap_cons. cbn [filter_of List.filter].
  rewrite matchesKeywords_typed, IH. cbn [mbind result_bind].
  by destruct (qualifies kws s).
Qed.

(** [qualifies] in words: some keyword, lowered, occurs inside the lowered
    content or inside a lowered tag. *)
Lemma qualifies_substring (kws : list string) (s : Snippet.t) :
  qualifies kws s = true ↔
  ∃ k, k ∈ kws ∧
    ((∃ p q, toLowerCase (Snippet.content s) = p +:+ toLowerCase k +:+ q)
     ∨ ∃ t, t ∈ Snippet.tags s ∧ ∃ p q, toLowerCase t = p +:+ toLowerCase k +:+ q).
Proof.
  unfold qualifies, hits. rewrite existsb_exists. split.
  - intros (k & Hk & Hhit). exists k. split; [by apply list_elem_of_In|].
    apply orb_true_iff in Hhit as [Hc|Ht].
    + left. by apply includes_substring.
    + right. apply existsb_exists in Ht as (t & Ht & Hin).
      exists t. split; [by apply list_elem_of_In | by apply includes_substring].
  - intros (k & Hk & Hhit). exists k. split; [by apply list_elem_of_In|].
    apply orb_true_iff. destruct Hhit as [Hc|(t & Ht & Hin)].
    + left. by apply includes_substring.
    + right. apply existsb_exists. exists t.
      split; [by apply list_elem_of_In | by apply includes_substring].
Qed.

Lemma strings_nil_inv (kws : list string) : strings kws = VArr [] → kws = [].
Proof. unfold strings. intros [= H]. by apply fmap_nil_inv in H. Qed.

Lemma filter_of_sublist {A} (cb : A → result bool) (xs ys : list A) :
  filter_of cb xs = Ok ys → sublist ys xs.
Proof.
  revert ys. induction xs as [|x xs IH]; intros ys; cbn.
  - intros [= <-]. constructor.
  - destruct (cb x) as [b|]; [|done]. cbn.
    destruct (filter_of cb xs) as [rest|]; [|done]. cbn.
    intros [= <-]. destruct b; [apply sublist_skip | apply sublist_cons]; by apply IH.
Qed.

(** ** [extractKeywords] *)

(** Without a key, or on an excerpt of fewer than 50 code units, nothing is
    sent and no keyword comes back. *)
Lemma extractKeywords_skipped (E : Env) (text : string) (w : world) :
  apiKey E = EmptyString ∨ String.length text < 50 →
  extractKeywords E text w = (Ok (VArr []), w).
Proof.
  intros H. unfold extractKeywords.
  assert (empty (apiKey E) || (String.length text <? 50)%nat = true) as ->; [|done].
  apply orb_true_iff.
  destruct H as [H|H]; [left; by apply empty_spec | right; by apply Nat.ltb_lt].
Qed.

(** [extractKeywords] never throws, writes nothing to the console, draws no
    id and sends at most its own request. *)
Lemma extractKeywords_runs (E : Env) (text : string) (w : world) :
  ∃ v w', extractKeywords E text w = (Ok v, w')
    ∧ console w' = console w ∧ alerts w' = alerts w ∧ draws w' = draws w
    ∧ (calls w' = calls w ∨ calls w' = calls w ++ [keywordRequest text]).
Proof.
  unfold extractKeywords.
  destruct (empty (apiKey E) || (String.length text <? 50)%nat).
  { exists (VArr []), w. repeat split; auto. }
  unfold try_catch, mbind, M_bind, generateContent, pure.
  destruct (model_answer E (calls w) (keywordRequest text)) as [|r]; cbn.
  - eexists _, _. split; [done|]. cbn. repeat split; auto.
  - destruct (has_text r); [destruct (JSON_parse r)|];
      eexists _, _; (split; [done|]); cbn; repeat split; auto.
Qed.

Lemma citation_requests_after_keywords (E : Env) (text : string) (w w' : world) (v : value) :
  extractKeywords E text w = (Ok v, w') →
  List.filter is_citation_request (calls w') = List.filter is_citation_request (calls w).
Proof.
  intros H. destruct (extractKeywords_runs E text w) as (v' & w'' & H' & _ & _ & _ & Hc).
  rewrite H in H'. injection H' as -> ->.
  destruct Hc as [-> | ->]; [done|].
  rewrite List.filter_app. cbn. by rewrite app_nil_r.
Qed.

(** ** The paths through [findCitationsForSelection] *)

Lemma findCitations_no_key (E : Env) (selection : string) (researchDB : list value)
    (w : world) :
  apiKey E = EmptyString →
  findCitationsForSelection E selection researchDB w = (Throw (Error "API Key missing"), w).
Proof. intros Hkey. fail_key_check findCitationsForSelection Hkey. Qed.

(** An exception in the filter is not caught. *)
Lemma findCitations_filter_throws (E : Env) (selection : string) (researchDB : list value)
    (w w1 : world) (keywords : value) (e : exn) :
  apiKey E ≠ EmptyString →
  extractKeywords E selection w = (Ok keywords, w1) →
  filter_of (matchesKeywords keywords) researchDB = Throw e →
  findCitationsForSelection E selection researchDB w = (Throw e, w1).
Proof.
  intros Hkey Hkw Hfilter. pass_key_check findCitationsForSelection Hkey.
  run_bind. rewrite Hkw. run_bind. unfold pure. by rewrite Hfilter.
Qed.

(** Three matches or more: the first three, and the world of the keyword
    step. *)
Lemma findCitations_enough (E : Env) (selection : string) (researchDB : list value)
    (w w1 : world) (keywords : value) (localMatches : list value) :
  apiKey E ≠ EmptyString →
  extractKeywords E selection w = (Ok keywords, w1) →
  filter_of (matchesKeywords keywords) researchDB = Ok localMatches →
  3 ≤ length localMatches →
  findCitationsForSelection E selection researchDB w = (Ok (take 3 localMatches), w1).
Proof.
  intros Hkey Hkw Hfilter Hlen. pass_key_check findCitationsForSelection Hkey.
  run_bind. rewrite Hkw. run_bind. unfold pure. rewrite Hfilter.
  by assert ((3 <=? length localMatches) = true) as -> by by apply Nat.leb_le.
Qed.

(** Fewer than three matches: one citation request, then the matches,
    followed by one stamped entry per element of the array that came back,
    if one did. *)
Lemma findCitations_generation (E : Env) (selection : string) (researchDB : list value)
    (w w1 : world) (keywords : value) (localMatches : list value) :
  apiKey E ≠ EmptyString →
  extractKeywords E selection w = (Ok keywords, w1) →
  filter_of (matchesKeywords keywords) researchDB = Ok localMatches →
  length localMatches < 3 →
  let req := citationRequest (3 - length localMatches) selection in
  let sent := calls w1 ++ [req] in
  let failed e :=
    (Ok localMatches,
     World sent (console w1 ++ [("Citation generation failed", e)]) (alerts w1) (draws w1)) in
  findCitationsForSelection E selection researchDB w =
    match model_answer E (calls w1) req with
    | Rejected => failed Rejection
    | Resolved r =>
        if has_text r then
          match parsed r with
          | Some (VArr gs) =>
              (Ok (localMatches ++ stamped E (draws w1) gs),
               World sent (console w1) (alerts w1) (draws w1 + length gs))
          | Some _ => failed TypeError
          | None => failed SyntaxError
          end
        else (Ok localMatches, World sent (console w1) (alerts w1) (draws w1))
    end.
Proof.
  intros Hkey Hkw Hfilter Hlen req sent failed.
  pass_key_check findCitationsForSelection Hkey.
  run_bind. rewrite Hkw. run_bind. unfold pure. rewrite Hfilter.
  assert ((3 <=? length localMatches) = false) as -> by by apply Nat.leb_gt.
  fold req. run_bind. unfold try_catch. run_bind. unfold generateContent.
  destruct (model_answer E (calls w1) req) as [|r]; [done|].
  destruct (has_text r); [|done].
  run_bind. unfold JSON_parse.
  destruct (parsed r) as [v|]; [|done].
  run_bind. destruct v; try done.
  cbn [as_array]. run_bind. by rewrite mapM_newSnippet.
Qed.

(** What a run that returns has returned: entries of the bibliography, in
    its order, followed by the entries stamped during the run. *)
Lemma findCitations_shape (E : Env) (selection : string) (researchDB : list value)
    (w w' : world) (citations : list value) :
  findCitationsForSelection E selection researchDB w = (Ok citations, w') →
  ∃ localMatches gs,
    citations = localMatches ++ stamped E (draws w) gs
    ∧ sublist localMatches researchDB
    ∧ draws w' = draws w + length gs.
Proof.
  intros Hrun.
  destruct (decide (apiKey E = EmptyString)) as [Hkey|Hkey].
  { by rewrite findCitations_no_key in Hrun. }
  destruct (extractKeywords_runs E selection w) as (kw & w1 & Hkw & _ & _ & Hdraws & _).
  destruct (filter_of (matchesKeywords kw) researchDB) as [locals|e] eqn:Hfilter.
  2:{ by rewrite (findCitations_filter_throws E selection researchDB w w1 kw e) in Hrun. }
  pose proof (filter_of_sublist _ _ _ Hfilter) as Hsub.
  destruct (le_lt_dec 3 (length locals)) as [Hlen|Hlen].
  { rewrite (findCitations_enough E selection researchDB w w1 kw locals) in Hrun by done.
    injection Hrun as <- <-. exists (take 3 locals), [].
    split; [by rewrite app_nil_r|]. split; [|cbn; lia].
    etrans; [apply sublist_take | done]. }
  rewrite (findCitations_generation E selection researchDB w w1 kw locals) in Hrun by done.
  cbn zeta in Hrun.
  assert (∀ w'', (Ok locals, w'') = (Ok citations, w') → draws w'' = draws w1 →
    ∃ localMatches gs, citations = localMatches ++ stamped E (draws w) gs
                       ∧ sublist localMatches researchDB
                       ∧ draws w' = draws w + length gs) as Hnone.
  { intros w'' [= <- <-] Hd. exists locals, []. rewrite app_nil_r.
    split; [done|]. split; [done|]. cbn. lia. }
  destruct (model_answer _ _ _) as [|r]; [by eapply Hnone|].
  destruct (has_text r); [|by eapply Hnone].
  destruct (parsed r) as [v|]; [|by eapply Hnone].
  destruct v; try by eapply Hnone.
  injection Hrun as <- <-. rewrite Hdraws. by eexists _, _.
Qed.

(** What a run returns carries string ids when the bibliography does. *)
Lemma findCitations_string_ids (E : Env) (selection : string) (researchDB : list value)
    (w w' : world) (citations : list value) :
  Forall (λ e, has_string_id e = true) researchDB →
  findCitationsForSelection E selection researchDB w = (Ok citations, w') →
  Forall (λ c, has_string_id c = true) citations.
Proof.
  intros Hdb (locals & gs & -> & Hsub & _)%findCitations_shape.
  apply Forall_app. split.
  - apply Forall_forall. intros c Hc.
    apply (proj1 (Forall_forall _ _) Hdb). by eapply elem_of_sublist.
  - apply Forall_forall. intros c [i Hc]%list_elem_of_lookup.
    apply stamped_lookup in Hc as (g & _ & ->). apply has_string_id_stamp.
Qed.

(** ** The citation resolver *)

(** C1. If at least three entries of a bibliography qualify for the
    extracted keywords (some keyword is a case-insensitive substring of the
    entry's content or of one of its tags), [findCitationsForSelection]
    returns the first three qualifying entries in the order of the
    bibliography, and the only request it may have sent is the keyword
    request: no citation-generation request is made. *)
Theorem findCitations_three_local (E : Env) (selection : string)
    (db : list Snippet.t) (kws : list string) (w w1 : world) :
  extractKeywords E selection w = (Ok (strings kws), w1) →
  3 ≤ length (List.filter (qualifies kws) db) →
  findCitationsForSelection E selection (snippet_obj <$> db) w
    = (Ok (snippet_obj <$> take 3 (List.filter (qualifies kws) db)), w1)
  ∧ List.filter is_citation_request (calls w1)
    = List.filter is_citation_request (calls w).
Proof.
  intros Hkw Hlen. split; [|by eapply citation_requests_after_keywords].
  destruct (decide (apiKey E = EmptyString)) as [Hkey|Hkey].
  { rewrite extractKeywords_skipped in Hkw by auto.
    assert (strings kws = VArr []) as Hk by congruence.
    apply strings_nil_inv in Hk. subst kws.
    assert (List.filter (qualifies []) db = []) as Hnil by (induction db; auto).
    rewrite Hnil in Hlen. cbn in Hlen. lia. }
  rewrite fmap_take.
  apply (findCitations_enough E selection (snippet_obj <$> db) w w1 (strings kws));
    [done | done | apply filter_of_typed | by rewrite length_fmap].
Qed.

Lemma findCitations_three_local_witness :
  findCitationsForSelection twoCitations excerpt (snippet_obj <$> library) quiet
    = (Ok (snippet_obj <$> take 3 (List.filter (qualifies ["Quantum"]) library)), asked)
  ∧ List.filter is_citation_request (calls asked)
    = List.filter is_citation_request (calls quiet).
Proof.
  apply (findCitations_three_local twoCitations excerpt library ["Quantum"] quiet asked).
  - vm_compute. reflexivity.
  - vm_compute. lia.
Defined.

(** The ids returned for [library]: the interface entry is passed over. *)
Example findCitations_library :
  ∃ citations w',
    findCitationsForSelection twoCitations excerpt (snippet_obj <$> library) quiet
      = (Ok citations, w')
    ∧ id_of <$> citations = [VStr "1"; VStr "2"; VStr "5"]
    ∧ calls w' = [keywordRequest excerpt].
Proof. eexists _, _. split; [vm_compute; reflexivity|]. split; reflexivity. Qed.



(** One entry matches and the model returns the two citations it was asked
    for: three entries, the match first. *)
Example findCitations_one_local :
  ∃ citations w',
    findCitationsForSelection ticking excerpt (snippet_obj <$> take 1 library) quiet
      = (Ok citations, w')
    ∧ id_of <$> citations
      = [VStr "1"; VStr "gen_1700000000000_4fzyo82mv"; VStr "gen_1700000000001_4fzyo82mv"]
    ∧ calls w' = [keywordRequest excerpt; citationRequest 2 excerpt].
Proof. eexists _, _. split; [vm_compute; reflexivity|]. split; reflexivity. Qed.





(** C4, as the code has it.  Every synthetic entry in the returned list
    carries the id [gen_<Date.now()>_<nine base-36 digits of Math.random()>]
    made from its own clock reading and random draw.  Two synthetic entries
    of a call share an id only if both the clock reading and the nine digits
    coincide, and a synthetic id can only equal a bibliography id that is
    itself a string starting with [gen_]. *)
Theorem synthetic_ids (E : Env) (selection : string) (researchDB : list value)
    (w w' : world) (citations : list value) :
  findCitationsForSelection E selection researchDB w = (Ok citations, w') →
  ∃ localMatches synthetic,
    citations = localMatches ++ synthetic
    ∧ sublist localMatches researchDB
    ∧ draws w' = draws w + length synthetic
    ∧ (∀ i c, synthetic !! i = Some c →
         id_of c = VStr (gen_id (Date_now E (draws w + i)) (Math_random_36 E (draws w + i))))
    ∧ (∀ i j c d, synthetic !! i = Some c → synthetic !! j = Some d →
         id_of c = id_of d →
         Date_now E (draws w + i) = Date_now E (draws w + j)
         ∧ substr 2 9 (Math_random_36 E (draws w + i))
           = substr 2 9 (Math_random_36 E (draws w + j)))
    ∧ (∀ c e, c ∈ synthetic → e ∈ researchDB → id_of c = id_of e →
         ∃ s, id_of e = VStr s ∧ String.prefix "gen_" s = true).
Proof.
  intros Hrun.
  destruct (findCitations_shape _ _ _ _ _ _ Hrun) as (locals & gs & -> & Hsub & Hdraws).
  exists locals, (stamped E (draws w) gs).
  assert (∀ i c, stamped E (draws w) gs !! i = Some c →
    id_of c = VStr (gen_id (Date_now E (draws w + i)) (Math_random_36 E (draws w + i))))
    as Hid.
  { intros i c Hc. apply stamped_lookup in Hc as (g & _ & ->). apply id_of_stamp. }
  split; [done|]. split; [done|]. split; [by rewrite length_stamped|].
  split; [exact Hid|]. split.
  - intros i j c d Hc Hd Heq.
    rewrite (Hid _ _ Hc), (Hid _ _ Hd) in Heq.
    apply gen_id_inj. congruence.
  - intros c e Hc _ Heq. apply list_elem_of_lookup in Hc as [i Hc].
    rewrite (Hid _ _ Hc) in Heq. eexists. split; [done|]. apply gen_id_prefix.
Qed.

Lemma synthetic_ids_witness :
  ∃ localMatches synthetic,
    (snippet_obj <$> take 1 library) ++ stamped ticking 0 [VObj ∅; VObj ∅]
      = localMatches ++ synthetic
    ∧ sublist localMatches (snippet_obj <$> take 1 library)
    ∧ 2 = draws quiet + length synthetic
    ∧ (∀ i c, synthetic !! i = Some c →
         id_of c = VStr (gen_id (Date_now ticking (draws quiet + i))
                                (Math_random_36 ticking (draws quiet + i))))
    ∧ (∀ i j c d, synthetic !! i = Some c → synthetic !! j = Some d →
         id_of c = id_of d →
         Date_now ticking (draws quiet + i) = Date_now ticking (draws quiet + j)
         ∧ substr 2 9 (Math_random_36 ticking (draws quiet + i))
           = substr 2 9 (Math_random_36 ticking (draws quiet + j)))
    ∧ (∀ c e, c ∈ synthetic → e ∈ snippet_obj <$> take 1 library → id_of c = id_of e →
         ∃ s, id_of e = VStr s ∧ String.prefix "gen_" s = true).
Proof.
  apply (synthetic_ids ticking excerpt (snippet_obj <$> take 1 library) quiet
           (World [keywordRequest excerpt; citationRequest 2 excerpt] [] [] 2)).
  vm_compute. reflexivity.
Defined.

(** C4, as stated, fails when the clock and the generator repeat: the
    bibliography holds an entry suggested earlier, the call makes two
    synthetic entries, and all three carry the same id. *)
Lemma synthetic_ids_collide :
  ∃ c d w',
    findCitationsForSelection twoCitations excerpt (snippet_obj <$> generatedBefore) quiet
      = (Ok ((snippet_obj <$> generatedBefore) ++ [c; d]), w')
    ∧ id_of c = id_of d
    ∧ Forall (λ e, id_of c = id_of e) (snippet_obj <$> generatedBefore).
Proof.
  eexists _, _, _. split; [vm_compute; reflexivity|].
  split; [reflexivity|]. repeat constructor.
Qed.

(** ** Merging the citations into the bibliography *)

Lemma has_string_id_spec (v : value) :
  has_string_id v = true ↔ ∃ s, get_prop v "id" = Ok (VStr s).
Proof.
  unfold has_string_id. split.
  - destruct (get_prop v "id") as [[]|]; try done. eauto.
  - by intros [s ->].
Qed.

(** On entries whose ids are strings, the test of [handleFindCitations]
    decides whether the two ids are equal. *)
Lemma sameId_decides (c existing : value) :
  has_string_id c = true → has_string_id existing = true →
  ∃ b, sameId c existing = Ok b ∧ (b = true ↔ id_of existing = id_of c).
Proof.
  intros [s Hs]%has_string_id_spec [t Ht]%has_string_id_spec.
  unfold sameId, id_of. rewrite Hs, Ht. cbn.
  exists (String.eqb t s). split; [done|].
  rewrite String.eqb_eq. split; congruence.
Qed.

Lemma some_of_decides {A} (cb : A → result bool) (P : A → Prop) (xs : list A) :
  (∀ x, x ∈ xs → ∃ b, cb x = Ok b ∧ (b = true ↔ P x)) →
  ∃ b, some_of cb xs = Ok b ∧ (b = true ↔ ∃ x, x ∈ xs ∧ P x).
Proof.
  induction xs as [|x xs IH]; intros Hcb; cbn.
  - exists false. split; [done|]. split; [done|]. by intros (x & ?%elem_of_nil & _).
  - destruct (Hcb x) as (b & -> & Hb); [left|]. cbn. destruct b.
    + exists true. split; [done|]. split; [|done]. intros _. exists x.
      split; [left | by apply Hb].
    + destruct IH as (b & -> & Hb'). { intros y Hy. apply Hcb. by right. }
      exists b. split; [done|]. rewrite Hb'. split.
      * intros (y & Hy & HP). exists y. split; [by right | done].
      * intros (y & [->|Hy]%elem_of_cons & HP); [|by eauto].
        apply Hb in HP. discriminate.
Qed.

Lemma filter_of_decides {A} (cb : A → result bool) (P : A → Prop) (xs : list A) :
  (∀ x, x ∈ xs → ∃ b, cb x = Ok b ∧ (b = true ↔ P x)) →
  ∃ ys, filter_of cb xs = Ok ys ∧ ∀ y, y ∈ ys ↔ y ∈ xs ∧ P y.
Proof.
  induction xs as [|x xs IH]; intros Hcb; cbn.
  - exists []. split; [done|]. intros y. rewrite elem_of_nil. tauto.
  - destruct (Hcb x) as (b & -> & Hb); [left|]. cbn.
    destruct IH as (ys & -> & Hys). { intros y Hy. apply Hcb. by right. }
    cbn. eexists. split; [done|]. intros y.
    destruct b.
    + rewrite !elem_of_cons, Hys. split.
      * intros [->|[??]]; [split; [by left | by apply Hb] | by auto].
      * intros [[->|?] ?]; auto.
    + rewrite elem_of_cons, Hys. split.
      * intros [??]; auto.
      * intros [[->|?] HP]; [|done]. apply Hb in HP. discriminate.
Qed.

Lemma notInLibrary_decides (researchData : list value) (c : value) :
  Forall (λ e, has_string_id e = true) researchData →
  has_string_id c = true →
  ∃ b, notInLibrary researchData c = Ok b
       ∧ (b = true ↔ ∀ e, e ∈ researchData → id_of e ≠ id_of c).
Proof.
  intros Hdb Hc. unfold notInLibrary.
  destruct (some_of_decides (sameId c) (λ e, id_of e = id_of c) researchData)
    as (known & -> & Hknown).
  { intros e He. apply sameId_decides; [done|].
    by apply (proj1 (Forall_forall _ _) Hdb). }
  cbn. exists (negb known). split; [done|].
  rewrite negb_true_iff, <-not_true_iff_false, Hknown. split.
  - intros Hno e He Heq. apply Hno. eauto.
  - intros Hno (e & He & Heq). by apply (Hno e).
Qed.

(** C5. When the bibliography of the render carries string ids, the update
    that [handleFindCitations] queues puts new entries in front of the
    bibliography it is applied to and leaves every entry of that
    bibliography in place; the new entries are exactly the returned
    citations whose id equals the id of no entry of the rendered
    bibliography.  In particular every synthetic citation with an id that is
    not in the bibliography is added.  When the resolver throws, nothing is
    added. *)
Theorem handleFindCitations_merges (E : Env) (selection : string) (rendered : App)
    (w : world) :
  Forall (λ e, has_string_id e = true) (researchData rendered) →
  ∃ update w' added,
    handleFindCitations E selection rendered w = (Ok update, w')
    ∧ (∀ a, researchData (update a) = added ++ researchData a)
    ∧ (∀ citations w1,
         findCitationsForSelection E selection (researchData rendered) w
           = (Ok citations, w1) →
         ∀ c, c ∈ added ↔
              c ∈ citations ∧ ∀ e, e ∈ researchData rendered → id_of e ≠ id_of c)
    ∧ (∀ e w1,
         findCitationsForSelection E selection (researchData rendered) w
           = (Throw e, w1) →
         added = []).
Proof.
  intros Hdb. unfold handleFindCitations.
  run_bind. unfold try_catch. run_bind.
  destruct (findCitationsForSelection E selection (researchData rendered) w)
    as [[citations|e] w1] eqn:Hrun.
  - pose proof (findCitations_string_ids _ _ _ _ _ _ Hdb Hrun) as Hids.
    destruct (filter_of_decides (notInLibrary (researchData rendered))
                (λ c, ∀ e, e ∈ researchData rendered → id_of e ≠ id_of c) citations)
      as (news & Hnews & Hmem).
    { intros c Hc. apply notInLibrary_decides; [done|].
      by apply (proj1 (Forall_forall _ _) Hids). }
    run_bind. unfold pure. rewrite Hnews.
    eexists _, _, news. split; [reflexivity|]. split; [|split].
    + intros a. destruct news; reflexivity.
    + intros ? ? [= <- <-]. exact Hmem.
    + intros ? ? ?. discriminate.
  - eexists _, _, []. split; [reflexivity|]. split; [|split].
    + done.
    + intros ? ? ?. discriminate.
    + done.
Qed.

Lemma handleFindCitations_merges_witness :
  ∃ update w' added,
    handleFindCitations ticking excerpt drafting quiet = (Ok update, w')
    ∧ (∀ a, researchData (update a) = added ++ researchData a)
    ∧ (∀ citations w1,
         findCitationsForSelection ticking excerpt (researchData drafting) quiet
           = (Ok citations, w1) →
         ∀ c, c ∈ added ↔
              c ∈ citations ∧ ∀ e, e ∈ researchData drafting → id_of e ≠ id_of c)
    ∧ (∀ e w1,
         findCitationsForSelection ticking excerpt (researchData drafting) quiet
           = (Throw e, w1) →
         added = []).
Proof.
  apply (handleFindCitations_merges ticking excerpt drafting quiet).
  repeat constructor.
Defined.

(** The ids in the bibliography after the handler ran on [drafting]. *)
Example handleFindCitations_drafting :
  ∃ update w',
    handleFindCitations ticking excerpt drafting quiet = (Ok update, w')
    ∧ id_of <$> researchData (update drafting)
      = [VStr "gen_1700000000000_4fzyo82mv"; VStr "gen_1700000000001_4fzyo82mv"; VStr "1"].
Proof. eexists _, _. split; [reflexivity|]. vm_compute. reflexivity. Qed.

(** ** The profile merge *)

Lemma fallbacks_distinct : NoDup (fallbacks.*1.*1).
Proof. apply (bool_decide_unpack _). vm_compute. reflexivity. Qed.

Lemma unfilled_no_fallback : Forall (λ k, k ∉ fallbacks.*1.*1) unfilled.
Proof. apply (bool_decide_unpack _). vm_compute. reflexivity. Qed.

(** Folding the fallbacks over an accumulator: a property that has a
    fallback holds the coalesced value, any other is left as it was. *)
Lemma fold_fallbacks (parsed : value) (fs : list (string * coalesce * value))
    (acc : gmap string value) :
  nullish parsed = false →
  ∃ props, foldl (with_fallback parsed) (Ok acc) fs = Ok props
    ∧ (∀ k, k ∉ fs.*1.*1 → props !! k = acc !! k)
    ∧ (NoDup (fs.*1.*1) →
       ∀ k op d, (k, op, d) ∈ fs →
         ∃ v, get_prop parsed k = Ok v ∧ props !! k = Some (coalesced op v d)).
Proof.
  intros Hparsed. revert acc.
  induction fs as [|[[k op] d] fs IH]; intros acc.
  - exists acc. split; [done|]. split; [done|]. by intros _ ??? ?%elem_of_nil.
  - cbn [foldl]. unfold with_fallback at 2. cbn [mbind result_bind].
    assert (∃ v, get_prop parsed k = Ok v) as [v Hv].
    { destruct parsed; try discriminate; cbn; eauto. }
    rewrite Hv. cbn [mbind result_bind].
    destruct (IH (<[k := coalesced op v d]> acc)) as (props & Hfold & Hother & Hset).
    exists props. split; [done|]. split.
    + intros k' Hk'. rewrite !fmap_cons, not_elem_of_cons in Hk'. cbn in Hk'.
      destruct Hk' as [Hne Hk']. rewrite Hother by done. by rewrite lookup_insert_ne.
    + rewrite !fmap_cons. cbn [fst]. intros [Hk Hdup]%NoDup_cons k' op' d'.
      intros [[= -> -> ->]|Hin]%elem_of_cons.
      * exists v. split; [done|]. rewrite Hother by done. apply lookup_insert_eq.
      * by apply Hset.
Qed.

(** [mergeProfile] on anything but [null]. *)
Lemma mergeProfile_fields (parsed : value) :
  nullish parsed = false →
  ∃ props, mergeProfile parsed = Ok (VObj props)
    ∧ (∀ k, k ∉ fallbacks.*1.*1 → props !! k = spread parsed !! k)
    ∧ (∀ k op d, (k, op, d) ∈ fallbacks →
         ∃ v, get_prop parsed k = Ok v ∧ props !! k = Some (coalesced op v d)).
Proof.
  intros Hparsed. unfold mergeProfile.
  destruct (fold_fallbacks parsed fallbacks (spread parsed) Hparsed)
    as (props & -> & Hother & Hset).
  exists props. split; [done|]. split; [done|]. apply Hset, fallbacks_distinct.
Qed.

Lemma mergeProfile_null (parsed : value) :
  nullish parsed = true → mergeProfile parsed = Throw TypeError.
Proof. by destruct parsed. Qed.

(** ** [analyzeStyle] *)

Lemma analyzeStyle_no_key (E : Env) (sampleText : string) (w : world) :
  apiKey E = EmptyString →
  analyzeStyle E sampleText w = (Throw (Error "API Key missing"), w).
Proof.
  intros Hkey. fail_key_check analyzeStyle Hkey.
Qed.

(** With a key: one request, then the merged profile, or the error profile
    and a line on the console. *)
Lemma analyzeStyle_run (E : Env) (sampleText : string) (w : world) :
  apiKey E ≠ EmptyString →
  let req := styleRequest sampleText in
  let sent := calls w ++ [req] in
  let failed e :=
    (Ok errorProfile,
     World sent (console w ++ [("Style Analysis Failed", e)]) (alerts w) (draws w)) in
  analyzeStyle E sampleText w =
    match model_answer E (calls w) req with
    | Rejected => failed Rejection
    | Resolved r =>
        if has_text r then
          match parsed r with
          | Some v =>
              match mergeProfile v with
              | Ok profile => (Ok profile, World sent (console w) (alerts w) (draws w))
              | Throw e => failed e
              end
          | None => failed SyntaxError
          end
        else failed (Error "No data returned")
    end.
Proof.
  intros Hkey req sent failed. pass_key_check analyzeStyle Hkey.
  fold req. unfold try_catch. run_bind. unfold generateContent.
  destruct (model_answer E (calls w) req) as [|r]; [done|].
  destruct (has_text r); [|done].
  run_bind. unfold pure, JSON_parse.
  destruct (parsed r) as [v|]; [|done].
  by destruct (mergeProfile v).
Qed.

(** A property without a fallback is the model's or nobody's. *)
Lemma analyzeStyle_passes_through (E : Env) (sampleText : string) (w : world)
    (r : response) (v profile : value) (k : string) :
  apiKey E ≠ EmptyString →
  model_answer E (calls w) (styleRequest sampleText) = Resolved r →
  has_text r = true → parsed r = Some v →
  mergeProfile v = Ok profile →
  k ∈ unfilled →
  analyzeStyle E sampleText w
    = (Ok profile, World (calls w ++ [styleRequest sampleText]) (console w) (alerts w) (draws w))
  ∧ get_prop profile k = Ok (default VUndefined (spread v !! k)).
Proof.
  intros Hkey Hanswer Htext Hparsed Hmerge Hk.
  rewrite analyzeStyle_run by done. cbn zeta. rewrite Hanswer, Htext, Hparsed, Hmerge.
  split; [done|].
  destruct (nullish v) eqn:Hnull.
  { by rewrite mergeProfile_null in Hmerge. }
  destruct (mergeProfile_fields v Hnull) as (props & Hp & Hother & _).
  rewrite Hmerge in Hp. injection Hp as ->. cbn. f_equal. f_equal.
  apply Hother. by apply (proj1 (Forall_forall _ _) unfilled_no_fallback).
Qed.

(** C6, on the code: the model answers with the empty object, and the
    profile [analyzeStyle] returns has no value for [tone],
    [avgSentenceLength], [jargonLevel], [transitionWords], [rawSummary],
    [formalityLevel], [sentenceVariance], [activeVoice], [useIdioms] and
    [useRhetoricalDevices]; the seventeen fields with a fallback are set. *)
Theorem analyzeStyle_leaves_fields_undefined :
  ∃ profile w',
    analyzeStyle emptyRecord excerpt quiet = (Ok profile, w')
    ∧ Forall (λ k, get_prop profile k = Ok VUndefined) unfilled
    ∧ Forall (λ k, ∃ v, get_prop profile k = Ok v ∧ nullish v = false) (fallbacks.*1.*1).
Proof.
  eexists _, _. split; [reflexivity|]. split.
  - repeat constructor.
  - repeat (constructor; [eexists; split; [vm_compute; reflexivity | reflexivity]|]).
    constructor.
Qed.

Lemma result_ok_inj {A} (a b : A) : Ok a = Ok b → a = b.
Proof. by intros [= ->]. Qed.

(** The fields of the error profile are those of the literal. *)
Lemma errorProfile_field (k : string) (v : value) :
  get_prop errorProfile k = Ok v →
  v = VUndefined
  ∨ (k, v) ∈
      [ ("tone", VStr "Error");
        ("avgSentenceLength", VStr "Error");
        ("jargonLevel", VStr "Error");
        ("transitionWords", VArr []);
        ("rawSummary", VStr "Failed to analyze style.");
        ("formalityLevel", VNum 50);
        ("sentenceVariance", VNum 50);
        ("activeVoice", VNum 50);
        ("dialect", VStr "American");
        ("sentenceStructure", VStr "Natural");
        ("sentenceLengthBias", VStr "Varied");
        ("vocabularyStyle", VStr "Literal");
        ("modifierFrequency", VStr "Medium");
        ("connectiveFrequency", VStr "Medium");
        ("writingDomain", VStr "General");
        ("structuralBias", VStr "Default");
        ("useMetaphors", VBool false);
        ("useAnalogies", VBool false);
        ("useAnecdotes", VBool false);
        ("allowContractions", VBool true);
        ("allowSplitInfinitives", VBool true);
        ("allowEndingPrepositions", VBool true);
        ("preferConcreteNouns", VBool true);
        ("useIdioms", VBool false);
        ("useRhetoricalDevices", VBool false);
        ("allowedPunctuation", VArr []);
        ("bannedWords", VArr []) ].
Proof.
  unfold errorProfile, get_prop. intros H%result_ok_inj.
  match type of H with default _ (?m !! k) = _ => remember m as fields eqn:Hfields end.
  destruct (fields !! k) as [x|] eqn:Hk; [right | left; exact (eq_sym H)].
  cbn [default from_option id] in H. subst x fields.
  exact (elem_of_list_to_map_2 _ _ _ Hk).
Qed.

Ltac error_profile_cases Hk :=
  repeat (apply elem_of_cons in Hk as [Hk|Hk];
          [apply pair_equal_spec in Hk as [-> Hk];
           first [discriminate Hk
                 | try (injection Hk as ->); split_and?;
                   first [reflexivity | by repeat constructor]]|]);
  by apply elem_of_nil in Hk.

(** C7, as the code has it.  Whenever [analyzeStyle] has sent its request
    and the call rejects, carries no text, carries text that is not JSON,
    or the JSON [null], [analyzeStyle] does not throw: it returns the
    error profile.  In that profile [tone], [avgSentenceLength] and
    [jargonLevel], and no other field, are the string [Error];
    [rawSummary] is the message [Failed to analyze style.];
    [formalityLevel], [sentenceVariance] and [activeVoice], and no other
    field, are numbers, and they are 50. *)
Theorem analyzeStyle_error_profile (E : Env) (sampleText : string) (w w' : world)
    (r : result value) :
  analyzeStyle E sampleText w = (r, w') →
  calls w' = calls w ++ [styleRequest sampleText] →
  no_profile (model_answer E (calls w) (styleRequest sampleText)) = true →
  r = Ok errorProfile
  ∧ (∀ k, get_prop errorProfile k = Ok (VStr "Error")
          ↔ k ∈ ["tone"; "avgSentenceLength"; "jargonLevel"])
  ∧ (∀ k n, get_prop errorProfile k = Ok (VNum n)
            ↔ k ∈ ["formalityLevel"; "sentenceVariance"; "activeVoice"] ∧ n = 50%Z)
  ∧ get_prop errorProfile "rawSummary" = Ok (VStr "Failed to analyze style.").
Proof.
  intros Hrun Hsent Hfail.
  split; [|split; [|split; [|vm_compute; reflexivity]]].
  - destruct (decide (apiKey E = EmptyString)) as [Hkey|Hkey].
    { rewrite analyzeStyle_no_key in Hrun by done. injection Hrun as _ <-.
      apply (f_equal length) in Hsent. rewrite length_app in Hsent. cbn in Hsent. lia. }
    rewrite analyzeStyle_run in Hrun by done. cbn zeta in Hrun.
    destruct (model_answer _ _ _) as [|resp]; [congruence|].
    cbn in Hfail. destruct (has_text resp); [|congruence].
    destruct (parsed resp) as [v|]; [|congruence].
    cbn in Hfail. rewrite (mergeProfile_null v Hfail) in Hrun. congruence.
  - intros k. split.
    + intros [Hk|Hk]%errorProfile_field; [done|]. error_profile_cases Hk.
    + intros Hk.
      repeat (apply elem_of_cons in Hk as [->|Hk]; [vm_compute; reflexivity|]).
      by apply elem_of_nil in Hk.
  - intros k n. split.
    + intros [Hk|Hk]%errorProfile_field; [done|]. error_profile_cases Hk.
    + intros [Hk ->].
      repeat (apply elem_of_cons in Hk as [->|Hk]; [vm_compute; reflexivity|]).
      by apply elem_of_nil in Hk.
Qed.

Lemma analyzeStyle_error_profile_witness :
  Ok errorProfile = Ok errorProfile
  ∧ (∀ k, get_prop errorProfile k = Ok (VStr "Error")
          ↔ k ∈ ["tone"; "avgSentenceLength"; "jargonLevel"])
  ∧ (∀ k n, get_prop errorProfile k = Ok (VNum n)
            ↔ k ∈ ["formalityLevel"; "sentenceVariance"; "activeVoice"] ∧ n = 50%Z)
  ∧ get_prop errorProfile "rawSummary" = Ok (VStr "Failed to analyze style.").
Proof.
  apply (analyzeStyle_error_profile offline excerpt quiet
           (World [styleRequest excerpt] [("Style Analysis Failed", Rejection)] [] 0)).
  - reflexivity.
  - reflexivity.
  - reflexivity.
Defined.

(** C7, as stated, fails on the summary: the call rejects, and the
    descriptive text field [rawSummary] of the profile returned is not the
    marker [Error] but a message; the eight enumerations hold their
    defaults. *)
Lemma analyzeStyle_summary_is_message :
  ∃ p w',
    analyzeStyle offline excerpt quiet = (Ok p, w')
    ∧ no_profile (model_answer offline (calls quiet) (styleRequest excerpt)) = true
    ∧ get_prop p "rawSummary" = Ok (VStr "Failed to analyze style.")
    ∧ get_prop p "rawSummary" ≠ Ok (VStr "Error")
    ∧ get_prop p "dialect" = Ok (VStr "American").
Proof.
  eexists _, _. split; [reflexivity|]. split; [reflexivity|].
  split; [vm_compute; reflexivity|].
  split; [intros H; vm_compute in H; discriminate H | vm_compute; reflexivity].
Qed.

(** The analysis call rejects: the error profile, one request, one line on
    the console. *)
Example analyzeStyle_offline :
  analyzeStyle offline excerpt quiet
  = (Ok errorProfile,
     World [styleRequest excerpt] [("Style Analysis Failed", Rejection)] [] 0).
Proof. reflexivity. Qed.

(** C8, as the code has it.  On an answer that carries JSON other than
    [null], [analyzeStyle] coalesces each of the seventeen properties of
    [fallbacks] on its own.  A property coalesced with [||] (the eight
    enumerations, [allowedPunctuation], [bannedWords]) holds the supplied
    value when that value is truthy and the default otherwise: when it is
    missing or [null], and also when it is the empty string, zero or
    [false].  A property coalesced with [??] (the seven flags) holds the
    supplied value unless it is missing or [null]. *)
Theorem analyzeStyle_coalesces (E : Env) (sampleText : string) (w : world)
    (r : response) (supplied : value) :
  apiKey E ≠ EmptyString →
  model_answer E (calls w) (styleRequest sampleText) = Resolved r →
  has_text r = true → parsed r = Some supplied → nullish supplied = false →
  ∃ props,
    analyzeStyle E sampleText w
      = (Ok (VObj props),
         World (calls w ++ [styleRequest sampleText]) (console w) (alerts w) (draws w))
    ∧ (∀ k op d, (k, op, d) ∈ fallbacks →
         ∃ v, get_prop supplied k = Ok v
              ∧ props !! k = Some match op with
                                  | OrElse => if truthy v then v else d
                                  | NullishElse => if nullish v then d else v
                                  end).
Proof.
  intros Hkey Hanswer Htext Hparsed Hnull.
  destruct (mergeProfile_fields supplied Hnull) as (props & Hmerge & Hother & Hset).
  exists props. rewrite analyzeStyle_run by done. cbn zeta.
  rewrite Hanswer, Htext, Hparsed, Hmerge. split; [done|].
  intros k op d Hin. destruct (Hset k op d Hin) as (v & Hv & Hk).
  exists v. split; [done|]. rewrite Hk. by destruct op.
Qed.

Lemma analyzeStyle_coalesces_witness :
  ∃ props,
    analyzeStyle british excerpt quiet
      = (Ok (VObj props),
         World (calls quiet ++ [styleRequest excerpt]) (console quiet) (alerts quiet)
               (draws quiet))
    ∧ (∀ k op d, (k, op, d) ∈ fallbacks →
         ∃ v, get_prop (VObj (<["dialect" := VStr "British"]>
                                {["allowContractions" := VBool false]})) k = Ok v
              ∧ props !! k = Some match op with
                                  | OrElse => if truthy v then v else d
                                  | NullishElse => if nullish v then d else v
                                  end).
Proof.
  eapply (analyzeStyle_coalesces british excerpt quiet).
  - discriminate.
  - reflexivity.
  - reflexivity.
  - reflexivity.
  - reflexivity.
Defined.

(** What the merge makes of the [british] answer. *)
Example analyzeStyle_british :
  ∃ props w',
    analyzeStyle british excerpt quiet = (Ok (VObj props), w')
    ∧ props !! "dialect" = Some (VStr "British")
    ∧ props !! "allowContractions" = Some (VBool false)
    ∧ props !! "allowSplitInfinitives" = Some (VBool true)
    ∧ props !! "allowEndingPrepositions" = Some (VBool true)
    ∧ props !! "allowedPunctuation" = Some (VArr [VStr ","; VStr "."])
    ∧ props !! "bannedWords" = Some (VArr []).
Proof. eexists _, _. split; [reflexivity|]. repeat split; vm_compute; reflexivity. Qed.

(** C8, as stated, fails on a value that is present and falsy: the answer
    supplies the empty string as dialect, which is neither [undefined] nor
    [null], and the profile says [American]. *)
Lemma analyzeStyle_replaces_empty_dialect :
  ∃ props w',
    analyzeStyle emptyDialect excerpt quiet = (Ok (VObj props), w')
    ∧ get_prop (VObj {["dialect" := VStr EmptyString]}) "dialect" = Ok (VStr EmptyString)
    ∧ nullish (VStr EmptyString) = false
    ∧ props !! "dialect" = Some (VStr "American").
Proof. eexists _, _. split; [reflexivity|]. repeat split; vm_compute; reflexivity. Qed.

(** ** Calibration from the editor *)

(** C9, as the code has it.  With fewer than 50 code units in the editor
    the handler shows the alert, queues no update and sends no request,
    whatever the configuration.  With 50 or more and a key configured it
    sends the style-analysis request exactly once.  With 50 or more and no
    key it sends nothing and logs the error [analyzeStyle] threw. *)
Theorem calibrate_guard (E : Env) (rendered : App) (w : world) :
  (String.length (content rendered) < 50 →
   handleCalibrateFromEditor E rendered w
   = (Ok (λ a, a),
      World (calls w) (console w)
            (alerts w ++ ["Please write at least 50 characters before calibrating."])
            (draws w)))
  ∧ (50 ≤ String.length (content rendered) → apiKey E ≠ EmptyString →
     ∃ update w',
       handleCalibrateFromEditor E rendered w = (Ok update, w')
       ∧ calls w' = calls w ++ [styleRequest (content rendered)]
       ∧ alerts w' = alerts w)
  ∧ (50 ≤ String.length (content rendered) → apiKey E = EmptyString →
     ∃ update,
       handleCalibrateFromEditor E rendered w
       = (Ok update,
          World (calls w)
                (console w ++ [("Calibration failed", Error "API Key missing")])
                (alerts w) (draws w))).
Proof.
  unfold handleCalibrateFromEditor. split; [|split].
  - intros Hshort. by apply Nat.ltb_lt in Hshort as ->.
  - intros Hlong Hkey. apply Nat.ltb_ge in Hlong as ->.
    run_bind. unfold try_catch. run_bind.
    rewrite analyzeStyle_run by done. cbn zeta.
    destruct (model_answer _ _ _) as [|r]; [by eexists _, _|].
    destruct (has_text r); [|by eexists _, _].
    destruct (parsed r) as [v|]; [|by eexists _, _].
    destruct (mergeProfile v); by eexists _, _.
  - intros Hlong Hkey. apply Nat.ltb_ge in Hlong as ->.
    run_bind. unfold try_catch. run_bind.
    rewrite analyzeStyle_no_key by done. by eexists.
Qed.

Lemma calibrate_guard_witness :
  handleCalibrateFromEditor british tooShort quiet
    = (Ok (λ a, a),
       World [] [] ["Please write at least 50 characters before calibrating."] 0)
  ∧ (∃ update w',
      handleCalibrateFromEditor british sixty quiet = (Ok update, w')
      ∧ calls w' = calls quiet ++ [styleRequest (content sixty)]
      ∧ alerts w' = alerts quiet)
  ∧ ∃ update,
      handleCalibrateFromEditor noKey sixty quiet
      = (Ok update,
         World [] [("Calibration failed", Error "API Key missing")] [] 0).
Proof.
  split; [|split].
  - apply (proj1 (calibrate_guard british tooShort quiet)). vm_compute. lia.
  - apply (proj1 (proj2 (calibrate_guard british sixty quiet))).
    + vm_compute. lia.
    + discriminate.
  - apply (proj2 (proj2 (calibrate_guard noKey sixty quiet))).
    + vm_compute. lia.
    + reflexivity.
Defined.

(** C9, as stated, fails without a key: the editor holds 60 code units, the
    handler runs, and no request is sent. *)
Lemma calibrate_without_key :
  String.length (content sixty) = 60
  ∧ ∃ update w',
      handleCalibrateFromEditor noKey sixty quiet = (Ok update, w')
      ∧ calls w' = []
      ∧ console w' = [("Calibration failed", Error "API Key missing")].
Proof. split; [reflexivity|]. eexists _, _. split; [reflexivity|]. by split. Qed.

(** ** Without a key *)

(** C10, as the code has it.  When the configured key is the empty string,
    [analyzeStyle], [ghostWrite], [rewriteSection], [continueSection],
    [findCitationsForSelection] and [generateStyleSample] throw
    [API Key missing] and leave the world as it was: nothing is sent, logged
    or drawn.  [extractKeywords] does not throw: it returns the empty array,
    also without sending anything. *)
Theorem without_key (E : Env) (w : world) :
  apiKey E = EmptyString →
  (∀ sampleText,
     analyzeStyle E sampleText w = (Throw (Error "API Key missing"), w))
  ∧ (∀ currentText profile researchContext m,
       ghostWrite E currentText profile researchContext m w
       = (Throw (Error "API Key missing"), w))
  ∧ (∀ selection profile m,
       rewriteSection E selection profile m w = (Throw (Error "API Key missing"), w))
  ∧ (∀ selection profile m,
       continueSection E selection profile m w = (Throw (Error "API Key missing"), w))
  ∧ (∀ selection researchDB,
       findCitationsForSelection E selection researchDB w
       = (Throw (Error "API Key missing"), w))
  ∧ (∀ profile,
       generateStyleSample E profile w = (Throw (Error "API Key missing"), w))
  ∧ (∀ text, extractKeywords E text w = (Ok (VArr []), w)).
Proof.
  intros Hkey. repeat split; intros.
  - by apply analyzeStyle_no_key.
  - fail_key_check ghostWrite Hkey.
  - fail_key_check rewriteSection Hkey.
  - fail_key_check continueSection Hkey.
  - by apply findCitations_no_key.
  - fail_key_check generateStyleSample Hkey.
  - apply extractKeywords_skipped. by left.
Qed.

Lemma without_key_witness :
  (∀ sampleText,
     analyzeStyle noKey sampleText quiet = (Throw (Error "API Key missing"), quiet))
  ∧ (∀ currentText profile researchContext m,
       ghostWrite noKey currentText profile researchContext m quiet
       = (Throw (Error "API Key missing"), quiet))
  ∧ (∀ selection profile m,
       rewriteSection noKey selection profile m quiet
       = (Throw (Error "API Key missing"), quiet))
  ∧ (∀ selection profile m,
       continueSection noKey selection profile m quiet
       = (Throw (Error "API Key missing"), quiet))
  ∧ (∀ selection researchDB,
       findCitationsForSelection noKey selection researchDB quiet
       = (Throw (Error "API Key missing"), quiet))
  ∧ (∀ profile,
       generateStyleSample noKey profile quiet = (Throw (Error "API Key missing"), quiet))
  ∧ (∀ text, extractKeywords noKey text quiet = (Ok (VArr []), quiet)).
Proof. apply (without_key noKey quiet). reflexivity. Defined.

(** C10, as stated, fails for one exported operation: without a key
    [extractKeywords] returns the empty array instead of throwing. *)
Lemma extractKeywords_without_key :
  apiKey noKey = EmptyString
  ∧ extractKeywords noKey excerpt quiet = (Ok (VArr []), quiet).
Proof. split; reflexivity. Qed.

(** ** Slices *)

Lemma substring_all (s : string) (n : nat) :
  String.length s ≤ n → String.substring 0 n s = s.
Proof.
  revert n. induction s as [|c s IH]; intros [|n] H; cbn in *; try done; try lia.
  f_equal. apply IH. lia.
Qed.

(** [s.slice(0, n)] is the beginning of [s], [n] code units of it if there
    are that many. *)
Lemma slice_to_prefix (n : nat) (s : string) :
  String.length (slice_to n s) = n `min` String.length s
  ∧ ∃ rest, s = slice_to n s +:+ rest.
Proof.
  unfold slice_to. revert n. induction s as [|c s IH]; intros [|n]; cbn.
  - split; [done | by exists EmptyString].
  - split; [done | by exists EmptyString].
  - split; [done | by exists (String c s)].
  - destruct (IH n) as [Hlen [rest Hrest]]. split; [by rewrite Hlen|].
    exists rest. rewrite app_cons. by rewrite <-Hrest.
Qed.

Lemma substring_skip (k m : nat) (s : string) :
  String.length s - k ≤ m → k ≤ String.length s →
  String.length (String.substring k m s) = String.length s - k
  ∧ ∃ pre, s = pre +:+ String.substring k m s.
Proof.
  revert k. induction s as [|c s IH]; intros k Hm Hk.
  - destruct k, m; cbn; (split; [done | by exists EmptyString]).
  - destruct k as [|k].
    + rewrite substring_all by lia. split; [lia | by exists EmptyString].
    + cbn in *. destruct (IH k) as [Hlen [pre Hpre]]; [lia..|]. split; [done|].
      exists (String c pre). rewrite app_cons. by rewrite <-Hpre.
Qed.

(** [s.slice(-n)] is the end of [s], [n] code units of it if there are that
    many. *)
Lemma slice_last_suffix (n : nat) (s : string) :
  String.length (slice_last n s) = n `min` String.length s
  ∧ ∃ pre, s = pre +:+ slice_last n s.
Proof.
  unfold slice_last.
  destruct (substring_skip (String.length s - n) n s) as [Hlen Hpre]; [lia..|].
  split; [lia | done].
Qed.

(** ** What the service sends *)

(** X1. [extractKeywords] never throws and never writes to the console: it
    returns the empty array or exactly what [JSON.parse] made of the model's
    text, sends at most its one request, and sends none when the key is
    empty or the text has fewer than 50 code units. *)
Theorem extractKeywords_best_effort (E : Env) (text : string) (w : world) :
  ∃ v w',
    extractKeywords E text w = (Ok v, w')
    ∧ console w' = console w ∧ alerts w' = alerts w ∧ draws w' = draws w
    ∧ (calls w' = calls w ∨ calls w' = calls w ++ [keywordRequest text])
    ∧ (v = VArr []
       ∨ ∃ r, model_answer E (calls w) (keywordRequest text) = Resolved r
              ∧ has_text r = true ∧ parsed r = Some v)
    ∧ (apiKey E = EmptyString ∨ String.length text < 50 →
       v = VArr [] ∧ calls w' = calls w).
Proof.
  destruct (decide (apiKey E = EmptyString ∨ String.length text < 50)) as [Hskip|Hrun].
  { rewrite extractKeywords_skipped by done. exists (VArr []), w. by repeat split; auto. }
  unfold extractKeywords.
  assert (empty (apiKey E) || (String.length text <? 50) = false) as ->.
  { apply orb_false_iff. split.
    - apply not_true_is_false. rewrite empty_spec. tauto.
    - apply Nat.ltb_ge. lia. }
  unfold try_catch. run_bind. unfold generateContent, pure.
  destruct (model_answer E (calls w) (keywordRequest text)) as [|r] eqn:Hanswer.
  { eexists _, _. split; [done|]. cbn. repeat split; auto. tauto. }
  destruct (has_text r) eqn:Htext.
  - unfold JSON_parse. destruct (parsed r) as [v|] eqn:Hparsed.
    + eexists _, _. split; [done|]. cbn. repeat split; eauto; tauto.
    + eexists _, _. split; [done|]. cbn. repeat split; auto; tauto.
  - eexists _, _. split; [done|]. cbn. repeat split; auto; tauto.
Qed.

(** X2. The text a request carries is bounded: the keyword request holds
    the last 500 code units of the text, the citation request the first
    1000 of the selection, the style request the first 3000 of the sample,
    and all of it when there is less. *)
Theorem requests_carry_bounded_text (text : string) (needed : nat) :
  (∃ sent, contents (keywordRequest text) = KeywordPrompt sent
           ∧ String.length sent = 500 `min` String.length text
           ∧ ∃ before, text = before +:+ sent)
  ∧ (∃ sent, contents (citationRequest needed text) = CitationPrompt needed sent
             ∧ String.length sent = 1000 `min` String.length text
             ∧ ∃ after, text = sent +:+ after)
  ∧ (∃ sent, contents (styleRequest text) = StyleAnalysisPrompt sent
             ∧ String.length sent = 3000 `min` String.length text
             ∧ ∃ after, text = sent +:+ after).
Proof.
  split; [|split]; eexists; (split; [reflexivity|]).
  - apply slice_last_suffix.
  - apply slice_to_prefix.
  - apply slice_to_prefix.
Qed.

(** The callbacks of the filter throw nothing but [TypeError]. *)
Lemma some_of_throws {A} (cb : A → result bool) (xs : list A) (e : exn) :
  (∀ x e', cb x = Throw e' → e' = TypeError) →
  some_of cb xs = Throw e → e = TypeError.
Proof.
  intros Hcb. induction xs as [|x xs IH]; [done|]. cbn.
  destruct (cb x) as [[]|e'] eqn:Hx; cbn; [done | done |].
  intros [= <-]. by eapply Hcb.
Qed.

Lemma filter_of_throws {A} (cb : A → result bool) (xs : list A) (e : exn) :
  (∀ x e', cb x = Throw e' → e' = TypeError) →
  filter_of cb xs = Throw e → e = TypeError.
Proof.
  intros Hcb. induction xs as [|x xs IH]; [done|]. cbn.
  destruct (cb x) as [b|e'] eqn:Hx; cbn.
  - destruct (filter_of cb xs); cbn; [done|]. intros [= <-]. by apply IH.
  - intros [= <-]. by eapply Hcb.
Qed.

Lemma get_prop_throws (v : value) (k : string) (e : exn) :
  get_prop v k = Throw e → e = TypeError.
Proof. destruct v; cbn; congruence. Qed.

Lemma toLowerCase_of_throws (v : value) (e : exn) :
  toLowerCase_of v = Throw e → e = TypeError.
Proof. destruct v; cbn; congruence. Qed.

Lemma as_array_throws (v : value) (e : exn) : as_array v = Throw e → e = TypeError.
Proof. destruct v; cbn; congruence. Qed.

Lemma keywordHits_throws (item k : value) (e : exn) :
  keywordHits item k = Throw e → e = TypeError.
Proof.
  unfold keywordHits.
  destruct (get_prop item "content") as [c|e1] eqn:H1; cbn;
    [|intros [= <-]; by eapply get_prop_throws].
  destruct (toLowerCase_of c) as [lc|e2] eqn:H2; cbn;
    [|intros [= <-]; by eapply toLowerCase_of_throws].
  destruct (toLowerCase_of k) as [lk|e3] eqn:H3; cbn;
    [|intros [= <-]; by eapply toLowerCase_of_throws].
  destruct (includes lc lk); [done|].
  destruct (get_prop item "tags") as [t|e4] eqn:H4; cbn;
    [|intros [= <-]; by eapply get_prop_throws].
  destruct (as_array t) as [ts|e5] eqn:H5; cbn;
    [|intros [= <-]; by eapply as_array_throws].
  apply some_of_throws. intros x e'.
  destruct (toLowerCase_of x) as [lt|e6] eqn:H6; cbn;
    [|intros [= <-]; by eapply toLowerCase_of_throws].
  done.
Qed.

Lemma matchesKeywords_throws (keywords item : value) (e : exn) :
  matchesKeywords keywords item = Throw e → e = TypeError.
Proof.
  unfold matchesKeywords.
  destruct (as_array keywords) as [ks|e1] eqn:H1; cbn;
    [|intros [= <-]; by eapply as_array_throws].
  apply some_of_throws. intros x e'. apply keywordHits_throws.
Qed.

(** [findCitationsForSelection] shows no alert. *)
Lemma findCitations_no_alert (E : Env) (selection : string)
    (researchDB : list value) (w : world) :
  alerts (findCitationsForSelection E selection researchDB w).2 = alerts w.
Proof.
  destruct (decide (apiKey E = EmptyString)) as [Hkey|Hkey].
  { by rewrite findCitations_no_key. }
  destruct (extractKeywords_runs E selection w) as (kw & w1 & Hkw & _ & Halerts & _ & _).
  destruct (filter_of (matchesKeywords kw) researchDB) as [locals|e] eqn:Hfilter.
  2:{ by rewrite (findCitations_filter_throws E selection researchDB w w1 kw e). }
  destruct (le_lt_dec 3 (length locals)) as [Hlen|Hlen].
  { by rewrite (findCitations_enough E selection researchDB w w1 kw locals). }
  rewrite (findCitations_generation E selection researchDB w w1 kw locals) by done.
  cbn zeta.
  destruct (model_answer _ _ _) as [|r]; [done|].
  destruct (has_text r); [|done].
  destruct (parsed r) as [v|]; [|done].
  by destruct v.
Qed.

(** X3. Whatever the inputs and whatever the model answers, a call of
    [findCitationsForSelection] adds to the log at most one keyword request
    followed by at most one citation request for one, two or three
    citations, and shows no alert.  The only exceptions it lets out are
    [API Key missing], thrown before anything is sent, and a [TypeError]
    from the filter, thrown before any citation request. *)
Theorem findCitations_discipline (E : Env) (selection : string) (researchDB : list value)
    (w : world) :
  let run := findCitationsForSelection E selection researchDB w in
  ∃ keyword citation,
    calls run.2 = calls w ++ keyword ++ citation
    ∧ alerts run.2 = alerts w
    ∧ (keyword = [] ∨ keyword = [keywordRequest selection])
    ∧ (citation = []
       ∨ ∃ needed, 1 ≤ needed ≤ 3 ∧ citation = [citationRequest needed selection])
    ∧ (∀ e, run.1 = Throw e →
         citation = []
         ∧ (e = Error "API Key missing" ∧ run.2 = w ∨ e = TypeError)).
Proof.
  cbn zeta.
  destruct (decide (apiKey E = EmptyString)) as [Hkey|Hkey].
  { rewrite findCitations_no_key by done. exists [], []. cbn.
    rewrite app_nil_r. split; [done|]. split; [done|]. split; [by left|].
    split; [by left|]. intros e [= <-]. split; [done|]. by left. }
  destruct (extractKeywords_runs E selection w)
    as (kw & w1 & Hkw & _ & Halerts & _ & Hcalls).
  assert (∃ keyword, calls w1 = calls w ++ keyword
                     ∧ (keyword = [] ∨ keyword = [keywordRequest selection]))
    as (keyword & Hw1 & Hkeyword).
  { destruct Hcalls as [-> | ->]; [exists []; rewrite app_nil_r | eexists]; auto. }
  destruct (filter_of (matchesKeywords kw) researchDB) as [locals|e] eqn:Hfilter.
  2:{ rewrite (findCitations_filter_throws E selection researchDB w w1 kw e) by done.
      exists keyword, []. cbn. rewrite app_nil_r.
      split; [done|]. split; [done|]. split; [done|]. split; [by left|].
      intros e' [= <-]. split; [done|]. right.
      eapply filter_of_throws; [|exact Hfilter].
      intros x e'. apply matchesKeywords_throws. }
  destruct (le_lt_dec 3 (length locals)) as [Hlen|Hlen].
  { rewrite (findCitations_enough E selection researchDB w w1 kw locals) by done.
    exists keyword, []. cbn. rewrite app_nil_r.
    split; [done|]. split; [done|]. split; [done|]. split; [by left|]. done. }
  rewrite (findCitations_generation E selection researchDB w w1 kw locals) by done.
  cbn zeta.
  exists keyword, [citationRequest (3 - length locals) selection].
  assert (1 ≤ 3 - length locals ≤ 3) as Hneeded by lia.
  destruct (model_answer _ _ _) as [|r]; [|destruct (has_text r);
    [destruct (parsed r) as [v|]; [destruct v|]|]];
    cbn; rewrite Hw1, <-(assoc_L (++));
    (split; [done|]); (split; [done|]); (split; [done|]);
    (split; [right; eauto|]); done.
Qed.

(** ** Profiles and prompts *)

Lemma truthy_not_nullish (v : value) : truthy v = true → nullish v = false.
Proof. by destruct v. Qed.

Lemma mapM_throws {A B} (f : A → result B) (xs : list A) (e : exn) :
  (∀ x e', f x = Throw e' → e' = TypeError) →
  mapM f xs = Throw e → e = TypeError.
Proof.
  intros Hf. induction xs as [|x xs IH]; [done|]. cbn.
  destruct (f x) as [y|e'] eqn:Hx; cbn.
  - destruct (mapM f xs); cbn; [done|]. intros [= <-]. by apply IH.
  - intros [= <-]. by eapply Hf.
Qed.

Lemma mapM_get_prop (p : value) (ks : list string) :
  nullish p = false → ∃ vs, mapM (get_prop p) ks = Ok vs.
Proof.
  intros Hp. induction ks as [|k ks [vs IH]]; [by eexists|]. cbn.
  assert (∃ v, get_prop p k = Ok v) as [v ->] by (destruct p; try discriminate; cbn; eauto).
  rewrite IH. cbn. by eexists.
Qed.

Lemma to_text_throws (v : value) (e : exn) : to_text v = Throw e → e = TypeError.
Proof. unfold to_text. destruct (convertible v); congruence. Qed.

Lemma interpolated_throws (p : value) (k : string) (e : exn) :
  interpolated p k = Throw e → e = TypeError.
Proof.
  unfold interpolated. destruct (get_prop p k) as [v|e'] eqn:Hv; cbn.
  - apply to_text_throws.
  - intros [= <-]. by eapply get_prop_throws.
Qed.

(** The fields of a template are read and converted one after the other:
    all of them, or a [TypeError]. *)
Lemma mapM_interpolated (p : value) (ks : list string) :
  if converts p ks then ∃ vs, mapM (interpolated p) ks = Ok vs
  else mapM (interpolated p) ks = Throw TypeError.
Proof.
  induction ks as [|k ks IH]; [by eexists|].
  cbn [converts forallb mapM]. fold (converts p ks).
  destruct (get_prop p k) as [v|e] eqn:Hk.
  2:{ assert (interpolated p k = Throw TypeError) as ->; [|done].
      unfold interpolated. rewrite Hk. cbn. f_equal. by eapply get_prop_throws. }
  destruct (convertible v) eqn:Hv; cbn [andb].
  - assert (interpolated p k = Ok v) as ->.
    { unfold interpolated, to_text. rewrite Hk. cbn. by rewrite Hv. }
    cbn. destruct (converts p ks); [destruct IH as [vs ->]; cbn; by eexists | by rewrite IH].
  - assert (interpolated p k = Throw TypeError) as ->; [|done].
    unfold interpolated, to_text. rewrite Hk. cbn. by rewrite Hv.
Qed.

Lemma converts_not_nullish (p : value) (k : string) (ks : list string) :
  converts p (k :: ks) = true → nullish p = false.
Proof. by destruct p. Qed.

(** [join] converts the elements one after the other. *)
Lemma mapM_join_element (xs : list value) :
  mapM join_element xs = if joins (VArr xs) then Ok xs else Throw TypeError.
Proof.
  induction xs as [|x xs IH]; [done|]. cbn [mapM joins forallb]. cbn [joins] in IH.
  assert (join_element x = if nullish x || convertible x then Ok x else Throw TypeError) as ->.
  { unfold join_element, to_text. by destruct (nullish x), (convertible x). }
  destruct (nullish x || convertible x); cbn; [|done].
  rewrite IH. by destruct (forallb _ xs).
Qed.

Lemma joined_joins (p : value) (k : string) :
  joined p k
  = match get_prop p k with
    | Ok v => if joins v then Ok v else Throw TypeError
    | Throw e => Throw e
    end.
Proof.
  unfold joined. destruct (get_prop p k) as [v|e]; [|done]. cbn.
  destruct v; try done. cbn [as_array mbind result_bind].
  rewrite mapM_join_element. by destruct (joins _).
Qed.

Lemma joined_throws (p : value) (k : string) (e : exn) :
  joined p k = Throw e → e = TypeError.
Proof.
  rewrite joined_joins. destruct (get_prop p k) as [v|e'] eqn:H.
  - destruct (joins v); congruence.
  - intros [= <-]. by eapply get_prop_throws.
Qed.

Lemma joinable_spec (p : value) :
  joinable p = true ↔
  ∃ b a, joined p "bannedWords" = Ok b ∧ joined p "allowedPunctuation" = Ok a.
Proof.
  unfold joinable. rewrite !joined_joins. split.
  - destruct (get_prop p "bannedWords") as [b|]; [|done].
    destruct (get_prop p "allowedPunctuation") as [a|]; [|done].
    intros [-> ->]%andb_true_iff. by eexists _, _.
  - intros (b & a & Hb & Ha).
    destruct (get_prop p "bannedWords") as [b'|]; [|done].
    destruct (get_prop p "allowedPunctuation") as [a'|]; [|done].
    destruct (joins b'); [|done]. by destruct (joins a').
Qed.

Lemma joinable_not_nullish (p : value) : joinable p = true → nullish p = false.
Proof. by destruct p. Qed.

Lemma not_joinable (p : value) :
  joinable p = false →
  nullish p = true
  ∨ joined p "bannedWords" = Throw TypeError
  ∨ (∃ b, joined p "bannedWords" = Ok b)
    ∧ joined p "allowedPunctuation" = Throw TypeError.
Proof.
  intros Hj. destruct (nullish p) eqn:Hp; [by left | right].
  unfold joinable in Hj. rewrite !joined_joins.
  assert (∃ b, get_prop p "bannedWords" = Ok b) as [b Hb]
    by (destruct p; try discriminate; cbn; eauto).
  assert (∃ a, get_prop p "allowedPunctuation" = Ok a) as [a Ha]
    by (destruct p; try discriminate; cbn; eauto).
  rewrite Hb, Ha in *.
  destruct (joins b); [right | by left]. split; [by eexists|]. by destruct (joins a).
Qed.

(** [constructSystemPrompt] makes a prompt of the profiles whose fields
    can be converted and whose lists can be joined, and throws a
    [TypeError] on the others. *)
Lemma constructSystemPrompt_promptable (p : value) :
  if promptable p
  then ∃ fields, ∀ mode ctx, constructSystemPrompt p mode ctx = Ok (SystemPrompt mode ctx fields)
  else ∀ mode ctx, constructSystemPrompt p mode ctx = Throw TypeError.
Proof.
  unfold promptable, constructSystemPrompt. fold promptFields.
  pose proof (mapM_interpolated p promptFields) as Hfields.
  destruct (converts p promptFields) eqn:Hc; cbn [andb].
  2:{ intros mode ctx. by rewrite Hfields. }
  destruct Hfields as [vs ->].
  pose proof (converts_not_nullish _ _ _ Hc) as Hp.
  destruct (mapM_get_prop p ["useMetaphors"; "useAnalogies"; "useAnecdotes"] Hp) as [fs ->].
  cbn [mbind result_bind].
  destruct (joinable p) eqn:Hj.
  - apply joinable_spec in Hj as (b & a & -> & ->). by eexists.
  - intros mode ctx.
    destruct (not_joinable p Hj) as [Hn | [-> | [[b ->] ->]]]; [congruence | done | done].
Qed.

Lemma constructSystemPrompt_throws (p : value) (mode : EditorMode)
    (ctx : list (list value)) (e : exn) :
  constructSystemPrompt p mode ctx = Throw e → e = TypeError.
Proof.
  pose proof (constructSystemPrompt_promptable p) as Hp.
  destruct (promptable p); [destruct Hp as [fields Hp]|]; rewrite Hp; congruence.
Qed.

Lemma not_promptable (p : value) : joinable p = false → promptable p = false.
Proof. unfold promptable. intros ->. apply andb_false_r. Qed.

Lemma sourceLine_throws (r : value) (e : exn) : sourceLine r = Throw e → e = TypeError.
Proof. apply mapM_throws. intros k e'. apply interpolated_throws. Qed.

(** ** What [analyzeStyle] hands to the other operations *)

Lemma errorProfile_defined : forallb (field_defined errorProfile) fallbacks = true.
Proof. vm_compute. reflexivity. Qed.

Lemma errorProfile_joinable : joinable errorProfile = true.
Proof. vm_compute. reflexivity. Qed.

(** Every fallback value is itself defined in that sense. *)
Lemma fallbacks_defined :
  forallb (λ f : string * coalesce * value,
             match f.1.2 with
             | OrElse => truthy f.2
             | NullishElse => negb (nullish f.2)
             end) fallbacks = true.
Proof. vm_compute. reflexivity. Qed.

Lemma coalesced_defined (k : string) (op : coalesce) (v d : value) (props : gmap string value) :
  (k, op, d) ∈ fallbacks →
  props !! k = Some (coalesced op v d) →
  field_defined (VObj props) (k, op, d) = true.
Proof.
  intros Hin Hk. unfold field_defined. cbn. rewrite Hk. cbn.
  pose proof fallbacks_defined as Hd. rewrite forallb_forall in Hd.
  specialize (Hd _ (proj1 (list_elem_of_In _ _) Hin)).
  cbn in Hd. destruct op; cbn in *.
  - unfold or_else. by destruct (truthy v) eqn:Hv.
  - unfold nullish_else. by destruct (nullish v) eqn:Hv; [|rewrite Hv].
Qed.

(** The two outcomes of [analyzeStyle] with a key. *)
Lemma analyzeStyle_outcomes (E : Env) (sampleText : string) (w : world) :
  apiKey E ≠ EmptyString →
  ∃ p w',
    analyzeStyle E sampleText w = (Ok p, w')
    ∧ calls w' = calls w ++ [styleRequest sampleText]
    ∧ alerts w' = alerts w ∧ draws w' = draws w
    ∧ (console w' = console w
       ∧ (∃ r v, model_answer E (calls w) (styleRequest sampleText) = Resolved r
                 ∧ has_text r = true ∧ parsed r = Some v ∧ mergeProfile v = Ok p)
       ∨ ∃ e, console w' = console w ++ [("Style Analysis Failed", e)] ∧ p = errorProfile).
Proof.
  intros Hkey. rewrite analyzeStyle_run by done. cbn zeta.
  destruct (model_answer _ _ _) as [|r]; [by eexists _, _; repeat split; eauto|].
  destruct (has_text r) eqn:Htext; [|by eexists _, _; repeat split; eauto].
  destruct (parsed r) as [v|] eqn:Hparsed; [|by eexists _, _; repeat split; eauto].
  destruct (mergeProfile v) as [p|e] eqn:Hmerge; [|by eexists _, _; repeat split; eauto].
  eexists _, _. split; [done|]. cbn. repeat split; eauto 10.
Qed.

(** X4. With a key, [analyzeStyle] always returns a profile: it sends
    exactly one request, shows no alert and throws nothing.  Either the
    console is untouched and the profile is the merge of the JSON the model
    returned, or one line was logged and the profile is the error
    profile. *)
Theorem analyzeStyle_always_answers (E : Env) (sampleText : string) (w : world) :
  apiKey E ≠ EmptyString →
  ∃ p w',
    analyzeStyle E sampleText w = (Ok p, w')
    ∧ calls w' = calls w ++ [styleRequest sampleText]
    ∧ alerts w' = alerts w ∧ draws w' = draws w
    ∧ (console w' = console w
       ∧ (∃ r v, model_answer E (calls w) (styleRequest sampleText) = Resolved r
                 ∧ has_text r = true ∧ parsed r = Some v ∧ mergeProfile v = Ok p)
       ∨ ∃ e, console w' = console w ++ [("Style Analysis Failed", e)] ∧ p = errorProfile).
Proof. apply analyzeStyle_outcomes. Qed.

Lemma analyzeStyle_always_answers_witness :
  ∃ p w',
    analyzeStyle british excerpt quiet = (Ok p, w')
    ∧ calls w' = calls quiet ++ [styleRequest excerpt]
    ∧ alerts w' = alerts quiet ∧ draws w' = draws quiet
    ∧ (console w' = console quiet
       ∧ (∃ r v, model_answer british (calls quiet) (styleRequest excerpt) = Resolved r
                 ∧ has_text r = true ∧ parsed r = Some v ∧ mergeProfile v = Ok p)
       ∨ ∃ e, console w' = console quiet ++ [("Style Analysis Failed", e)]
              ∧ p = errorProfile).
Proof. apply (analyzeStyle_always_answers british excerpt quiet). discriminate. Defined.

(** X5. In every profile [analyzeStyle] returns, merged or not, the
    seventeen fields that have a fallback are defined: none is [undefined]
    or [null], and the ten coalesced with [||] are truthy. *)
Theorem analyzeStyle_fields_defined (E : Env) (sampleText : string) (w w' : world)
    (p : value) :
  analyzeStyle E sampleText w = (Ok p, w') →
  ∀ k op d, (k, op, d) ∈ fallbacks →
    ∃ v, get_prop p k = Ok v
         ∧ nullish v = false
         ∧ (op = OrElse → truthy v = true).
Proof.
  intros Hrun k op d Hin.
  assert (field_defined p (k, op, d) = true) as Hdef.
  { destruct (decide (apiKey E = EmptyString)) as [Hkey|Hkey].
    { by rewrite analyzeStyle_no_key in Hrun. }
    destruct (analyzeStyle_outcomes E sampleText w Hkey)
      as (p' & w'' & Hrun' & _ & _ & _ & Hp).
    rewrite Hrun in Hrun'. injection Hrun' as <- <-.
    destruct Hp as [[_ (r & v & _ & _ & _ & Hmerge)] | (e & _ & ->)].
    - destruct (nullish v) eqn:Hnull; [by rewrite mergeProfile_null in Hmerge|].
      destruct (mergeProfile_fields v Hnull) as (props & Hp & _ & Hset).
      rewrite Hmerge in Hp. injection Hp as ->.
      destruct (Hset k op d Hin) as (x & _ & Hk). by eapply coalesced_defined.
    - pose proof errorProfile_defined as Hd. rewrite forallb_forall in Hd.
      apply Hd. by apply list_elem_of_In. }
  unfold field_defined in Hdef. cbn in Hdef.
  destruct (get_prop p k) as [v|]; [|done]. exists v. split; [done|].
  destruct op.
  - split; [by apply truthy_not_nullish | done].
  - split; [by apply negb_true_iff | done].
Qed.

Lemma analyzeStyle_fields_defined_witness :
  ∃ p w',
    analyzeStyle emptyRecord excerpt quiet = (Ok p, w')
    ∧ ∀ k op d, (k, op, d) ∈ fallbacks →
        ∃ v, get_prop p k = Ok v
             ∧ nullish v = false
             ∧ (op = OrElse → truthy v = true).
Proof.
  eexists _, _. split; [vm_compute; reflexivity|].
  apply (analyzeStyle_fields_defined emptyRecord excerpt quiet
           (World [styleRequest excerpt] [] [] 0)).
  vm_compute. reflexivity.
Defined.

Lemma joins_or_else (x d : value) :
  joins d = true → joins (or_else x d) = negb (truthy x && negb (joins x)).
Proof.
  intros Hd. unfold or_else.
  destruct (truthy x) eqn:Hx; cbn; [by rewrite negb_involutive | done].
Qed.

Lemma joinable_false (p : value) :
  joinable p = false ↔
  (∃ e, joined p "bannedWords" = Throw e) ∨ (∃ e, joined p "allowedPunctuation" = Throw e).
Proof.
  split.
  - intros Hj. destruct (joined p "bannedWords") as [b|e] eqn:Hb; [|by eauto].
    destruct (joined p "allowedPunctuation") as [a|e] eqn:Ha; [|by eauto].
    assert (joinable p = true) by (apply joinable_spec; eauto). congruence.
  - intros Hthrows. destruct (joinable p) eqn:Hj; [|done].
    apply joinable_spec in Hj as (b & a & Hb & Ha).
    destruct Hthrows as [[e He] | [e He]]; congruence.
Qed.

(** The profile [analyzeStyle] returns cannot be joined exactly when the
    model's JSON carries, under [bannedWords] or [allowedPunctuation], a
    truthy value that cannot be. *)
Lemma analyzeStyle_joinable (E : Env) (sampleText : string) (w w' : world) (p : value) :
  analyzeStyle E sampleText w = (Ok p, w') →
  joinable p = false ↔
  ∃ r v, model_answer E (calls w) (styleRequest sampleText) = Resolved r
         ∧ has_text r = true ∧ parsed r = Some v
         ∧ unjoined v "bannedWords" || unjoined v "allowedPunctuation" = true.
Proof.
  intros Hrun.
  destruct (decide (apiKey E = EmptyString)) as [Hkey|Hkey].
  { by rewrite analyzeStyle_no_key in Hrun. }
  rewrite analyzeStyle_run in Hrun by done. cbn zeta in Hrun.
  destruct (model_answer _ _ _) as [|r].
  { injection Hrun as <- <-. rewrite errorProfile_joinable.
    split; [done | by intros (? & ? & ? & _)]. }
  destruct (has_text r) eqn:Htext.
  2:{ injection Hrun as <- <-. rewrite errorProfile_joinable.
      split; [done | intros (? & ? & [= <-] & ? & _); congruence]. }
  destruct (parsed r) as [v|] eqn:Hparsed.
  2:{ injection Hrun as <- <-. rewrite errorProfile_joinable.
      split; [done | intros (? & ? & [= <-] & ? & ? & _); congruence]. }
  destruct (nullish v) eqn:Hnull.
  { rewrite mergeProfile_null in Hrun by done. injection Hrun as <- <-.
    rewrite errorProfile_joinable.
    split; [done | intros (? & v' & [= <-] & _ & Hv & Hbad)].
    rewrite Hparsed in Hv. injection Hv as <-. by destruct v. }
  destruct (mergeProfile_fields v Hnull) as (props & Hmerge & _ & Hset).
  rewrite Hmerge in Hrun. injection Hrun as <- <-.
  destruct (Hset "bannedWords" OrElse (VArr [])) as (b & Hb & Hpb); [repeat constructor|].
  destruct (Hset "allowedPunctuation" OrElse (VArr [VStr ","; VStr "."]))
    as (a & Ha & Hpa); [repeat constructor|].
  assert (joinable (VObj props)
          = negb (unjoined v "bannedWords" || unjoined v "allowedPunctuation")) as ->.
  { unfold joinable, unjoined. cbn [get_prop]. rewrite Hpb, Hpa, Hb, Ha.
    cbn [default from_option id coalesced].
    rewrite !joins_or_else by done. by rewrite negb_orb. }
  rewrite negb_false_iff. split.
  - intros Hbad. by exists r, v.
  - intros (? & v' & [= <-] & _ & Hv & Hbad). rewrite Hparsed in Hv. by injection Hv as <-.
Qed.

(** X6. One of the two [join]s of the prompt builders, of
    [bannedWords] or of [allowedPunctuation], throws on the profile
    [analyzeStyle] returns exactly when the model's JSON carries under
    that name or the other a truthy value that cannot be joined: a value
    that is not an array, or an array with an element, other than
    [undefined] and [null], that cannot be converted to a string.  The
    merge keeps such a value as it is. *)
Theorem analyzeStyle_profile_joinable (E : Env) (sampleText : string) (w w' : world)
    (p : value) :
  analyzeStyle E sampleText w = (Ok p, w') →
  (∃ e, joined p "bannedWords" = Throw e) ∨ (∃ e, joined p "allowedPunctuation" = Throw e)
  ↔ ∃ r v, model_answer E (calls w) (styleRequest sampleText) = Resolved r
           ∧ has_text r = true ∧ parsed r = Some v
           ∧ unjoined v "bannedWords" || unjoined v "allowedPunctuation" = true.
Proof.
  intros Hrun. rewrite <-joinable_false. by eapply analyzeStyle_joinable.
Qed.

Lemma analyzeStyle_profile_joinable_witness :
  ∃ p w',
    analyzeStyle unprintable excerpt quiet = (Ok p, w')
    ∧ ((∃ e, joined p "bannedWords" = Throw e)
       ∨ (∃ e, joined p "allowedPunctuation" = Throw e)
       ↔ ∃ r v, model_answer unprintable (calls quiet) (styleRequest excerpt) = Resolved r
                ∧ has_text r = true ∧ parsed r = Some v
                ∧ unjoined v "bannedWords" || unjoined v "allowedPunctuation" = true).
Proof.
  eexists _, _. split; [vm_compute; reflexivity|].
  apply (analyzeStyle_profile_joinable unprintable excerpt quiet
           (World [styleRequest excerpt] [] [] 0)).
  vm_compute. reflexivity.
Defined.

(** A banned word that is an object with a property [toString] stops the
    [join], and so does a string in the place of the list. *)
Example analyzeStyle_unprintable :
  (∃ p w', analyzeStyle unprintable excerpt quiet = (Ok p, w')
           ∧ joined p "bannedWords" = Throw TypeError
           ∧ joinable p = false)
  ∧ ∃ p w', analyzeStyle oneBannedWord excerpt quiet = (Ok p, w')
            ∧ joined p "bannedWords" = Throw TypeError.
Proof.
  split; eexists _, _; (split; [vm_compute; reflexivity|]); by vm_compute.
Qed.

(** The profile of that scenario cannot be joined. *)
Example analyzeStyle_oneBannedWord :
  ∃ p w', analyzeStyle oneBannedWord excerpt quiet = (Ok p, w')
          ∧ get_prop p "bannedWords" = Ok (VStr "delve")
          ∧ joinable p = false.
Proof. eexists _, _. split; [vm_compute; reflexivity|]. by vm_compute. Qed.

Lemma has_text_nonempty (r : response) : has_text r = true → text r ≠ EmptyString.
Proof.
  unfold has_text. intros H Hempty. apply negb_true_iff in H.
  apply not_true_iff_false in H. apply H. by apply empty_spec.
Qed.

Lemma converts_interpolated (p : value) (ks : list string) :
  converts p ks = true ↔ ∃ vs, mapM (interpolated p) ks = Ok vs.
Proof.
  pose proof (mapM_interpolated p ks) as H. destruct (converts p ks).
  - split; [done | done].
  - rewrite H. split; [done | by intros [vs ?]].
Qed.

Lemma converts_app (p : value) (ks ks' : list string) :
  converts p (ks ++ ks') = converts p ks && converts p ks'.
Proof. apply forallb_app. Qed.

(** With a key, [generateStyleSample] sends its request and returns a
    string when it can build its prompt, and throws a [TypeError] with
    nothing sent when it cannot. *)
Lemma generateStyleSample_cases (E : Env) (p : value) (w : world) :
  apiKey E ≠ EmptyString →
  if sampleable p then
    ∃ s fields,
      let req := styleSampleRequest fields in
      generateStyleSample E p w
      = (Ok s, World (calls w ++ [req]) (console w) (alerts w) (draws w))
      ∧ s ≠ EmptyString
      ∧ match model_answer E (calls w) req with
        | Rejected => s = "Error generating sample."
        | Resolved r => s = if has_text r then text r else "Failed to generate sample."
        end
  else generateStyleSample E p w = (Throw TypeError, w).
Proof.
  intros Hkey. unfold sampleable.
  change sampleFields
    with ([ "writingDomain"; "structuralBias"; "dialect"; "sentenceStructure";
            "vocabularyStyle"; "modifierFrequency"; "connectiveFrequency";
            "allowContractions"; "allowSplitInfinitives"; "allowEndingPrepositions";
            "useMetaphors"; "useAnalogies" ] ++ ["activeVoice"]).
  rewrite converts_app.
  pass_key_check generateStyleSample Hkey. run_bind. unfold pure at 1.
  match goal with |- context [mapM (interpolated p) ?ks] =>
    pose proof (mapM_interpolated p ks) as Hfields; destruct (converts p ks) eqn:Hc end.
  2:{ by rewrite Hfields. }
  destruct Hfields as [vs ->]. cbn [andb].
  pose proof (converts_not_nullish _ _ _ Hc) as Hp.
  assert (∃ v, get_prop p "activeVoice" = Ok v) as [v Hv]
    by (destruct p; try discriminate; cbn; eauto).
  assert (converts p ["activeVoice"] = convertible v) as ->.
  { cbn. rewrite Hv. apply andb_true_r. }
  assert (interpolated p "activeVoice"
          = if convertible v then Ok v else Throw TypeError) as Hvoice.
  { unfold interpolated, to_text. by rewrite Hv. }
  run_bind. unfold pure at 1.
  destruct (joinable p) eqn:Hj.
  - apply joinable_spec in Hj as (b & a & Hb & Ha). rewrite Hb.
    run_bind. unfold pure at 1. rewrite Hvoice.
    destruct (convertible v); cbn [andb]; [|done].
    run_bind. unfold pure at 1. rewrite Ha.
    unfold try_catch. run_bind. unfold generateContent.
    destruct (model_answer _ _ _) as [|r] eqn:Hanswer.
    + eexists _, _. cbn zeta. rewrite Hanswer. by repeat split.
    + eexists _, _. cbn zeta. rewrite Hanswer. split; [reflexivity|]. split; [|done].
      destruct (has_text r) eqn:Htext; [by apply has_text_nonempty | done].
  - rewrite andb_false_r.
    destruct (not_joinable p Hj) as [Hn | [-> | [[b ->] Ha]]]; [congruence | done |].
    run_bind. unfold pure at 1. rewrite Hvoice.
    destruct (convertible v); [|done].
    run_bind. unfold pure at 1. by rewrite Ha.
Qed.

Lemma not_sampleable (p : value) : joinable p = false → sampleable p = false.
Proof. unfold sampleable. intros ->. apply andb_false_r. Qed.

(** The operations on a profile that cannot be joined. *)
Lemma unusable_profile (E : Env) (p : value) (w : world) :
  apiKey E ≠ EmptyString →
  joinable p = false →
  (∀ currentText researchContext mode,
     ghostWrite E currentText p researchContext mode w = (Throw TypeError, w))
  ∧ (∀ selection mode, rewriteSection E selection p mode w = (Throw TypeError, w))
  ∧ (∀ selection mode, continueSection E selection p mode w = (Throw TypeError, w))
  ∧ generateStyleSample E p w = (Throw TypeError, w).
Proof.
  intros Hkey Hj.
  pose proof (constructSystemPrompt_promptable p) as Hsp.
  rewrite (not_promptable p Hj) in Hsp.
  split; [|split; [|split]].
  - intros currentText researchContext mode. pass_key_check ghostWrite Hkey.
    run_bind. unfold pure at 1.
    destruct (mapM sourceLine researchContext) as [ctx|e] eqn:Hctx.
    + run_bind. unfold pure at 1. by rewrite Hsp.
    + f_equal. f_equal. eapply mapM_throws; [|exact Hctx].
      intros x e'. apply sourceLine_throws.
  - intros selection mode. pass_key_check rewriteSection Hkey.
    run_bind. unfold pure. by rewrite Hsp.
  - intros selection mode. pass_key_check continueSection Hkey.
    run_bind. unfold pure. by rewrite Hsp.
  - pose proof (generateStyleSample_cases E p w Hkey) as Hrun.
    by rewrite (not_sampleable p Hj) in Hrun.
Qed.

(** X7. With a key, a profile that cannot be joined stops every operation
    that builds a prompt from it: [ghostWrite], [rewriteSection],
    [continueSection] and [generateStyleSample] throw a [TypeError] before
    any request is sent, and the [try] of [generateStyleSample] does not
    cover it. *)
Theorem unusable_profile_blocks (E : Env) (p : value) (w : world) :
  apiKey E ≠ EmptyString →
  joinable p = false →
  (∀ currentText researchContext mode,
     ghostWrite E currentText p researchContext mode w = (Throw TypeError, w))
  ∧ (∀ selection mode, rewriteSection E selection p mode w = (Throw TypeError, w))
  ∧ (∀ selection mode, continueSection E selection p mode w = (Throw TypeError, w))
  ∧ generateStyleSample E p w = (Throw TypeError, w).
Proof. apply unusable_profile. Qed.

Lemma unusable_profile_blocks_witness :
  let p := VObj {["bannedWords" := VStr "delve"]} in
  (∀ currentText researchContext mode,
     ghostWrite oneBannedWord currentText p researchContext mode quiet
     = (Throw TypeError, quiet))
  ∧ (∀ selection mode,
       rewriteSection oneBannedWord selection p mode quiet = (Throw TypeError, quiet))
  ∧ (∀ selection mode,
       continueSection oneBannedWord selection p mode quiet = (Throw TypeError, quiet))
  ∧ generateStyleSample oneBannedWord p quiet = (Throw TypeError, quiet).
Proof.
  apply (unusable_profile_blocks oneBannedWord (VObj {["bannedWords" := VStr "delve"]}) quiet).
  - discriminate.
  - vm_compute. reflexivity.
Defined.

(** ** [ghostWrite] *)

(** With a key and a prompt, [ghostWrite] is its one request and what it
    makes of the answer. *)
Lemma ghostWrite_run (E : Env) (currentText : string) (p : value)
    (researchContext : list value) (mode : EditorMode) (w : world)
    (ctx : list (list value)) (sp : system_prompt) :
  apiKey E ≠ EmptyString →
  mapM sourceLine researchContext = Ok ctx →
  constructSystemPrompt p mode ctx = Ok sp →
  let req := ghostWriteRequest (recent currentText) sp in
  let sent := World (calls w ++ [req]) (console w) (alerts w) (draws w) in
  ghostWrite E currentText p researchContext mode w =
    match model_answer E (calls w) req with
    | Rejected => (Throw Rejection, sent)
    | Resolved r =>
        if has_text r then
          match parsed r with
          | Some (VObj data) =>
              match data !! "newReferences" with
              | Some (VArr refs) =>
                  (Ok (VObj (<["newReferences" := VArr (stamped E (draws w) refs)]> data)),
                   World (calls w ++ [req]) (console w) (alerts w) (draws w + length refs))
              | _ => (Throw TypeError, sent)
              end
          | Some _ => (Throw TypeError, sent)
          | None => (Throw SyntaxError, sent)
          end
        else (Throw (Error "Failed to generate content"), sent)
    end.
Proof.
  intros Hkey Hctx Hsp req sent. pass_key_check ghostWrite Hkey.
  run_bind. unfold pure at 1. rewrite Hctx.
  run_bind. unfold pure at 1. rewrite Hsp.
  fold (recent currentText). fold req.
  run_bind. unfold generateContent.
  destruct (model_answer E (calls w) req) as [|r]; [done|].
  destruct (has_text r); [|done].
  run_bind. unfold pure at 1, JSON_parse.
  destruct (parsed r) as [v|]; [|done].
  run_bind. unfold pure at 1.
  destruct v as [| | | | | |data]; try done.
  cbn [get_prop mbind result_bind].
  destruct (data !! "newReferences") as [[]|]; try done.
  cbn [from_option id as_array spread]. run_bind. by rewrite mapM_newSnippet.
Qed.

(** The shape of what [ghostWrite] returns. *)
Lemma ghostWrite_shape (E : Env) (currentText : string) (p : value)
    (researchContext : list value) (mode : EditorMode) (w w' : world) (v : value) :
  ghostWrite E currentText p researchContext mode w = (Ok v, w') →
  ∃ sp r data refs,
    calls w' = calls w ++ [ghostWriteRequest (recent currentText) sp]
    ∧ console w' = console w ∧ alerts w' = alerts w
    ∧ draws w' = draws w + length refs
    ∧ model_answer E (calls w) (ghostWriteRequest (recent currentText) sp) = Resolved r
    ∧ parsed r = Some (VObj data)
    ∧ data !! "newReferences" = Some (VArr refs)
    ∧ get_prop v "newReferences" = Ok (VArr (stamped E (draws w) refs))
    ∧ (∀ k, k ≠ "newReferences" → get_prop v k = get_prop (VObj data) k).
Proof.
  intros Hrun.
  destruct (decide (apiKey E = EmptyString)) as [Hkey|Hkey].
  { unfold ghostWrite in Hrun. by rewrite (key_missing _ Hkey) in Hrun. }
  destruct (mapM sourceLine researchContext) as [ctx|e] eqn:Hctx.
  2:{ unfold ghostWrite in Hrun. rewrite (key_configured _ Hkey) in Hrun.
      unfold mbind at 1, M_bind, pure at 1 in Hrun. by rewrite Hctx in Hrun. }
  destruct (constructSystemPrompt p mode ctx) as [sp|e] eqn:Hsp.
  2:{ unfold ghostWrite in Hrun. rewrite (key_configured _ Hkey) in Hrun.
      unfold mbind at 1, M_bind, pure at 1 in Hrun. rewrite Hctx in Hrun.
      unfold mbind at 1, M_bind, pure at 1 in Hrun. by rewrite Hsp in Hrun. }
  rewrite (ghostWrite_run E currentText p researchContext mode w ctx sp) in Hrun by done.
  cbn zeta in Hrun. exists sp.
  destruct (model_answer _ _ _) as [|r] eqn:Hanswer; [done|].
  destruct (has_text r); [|done].
  destruct (parsed r) as [[| | | | | |data]|] eqn:Hparsed; try done.
  destruct (data !! "newReferences") as [[| | | | |refs|]|] eqn:Hrefs; try done.
  injection Hrun as <- <-. exists r, data, refs. cbn.
  do 7 (split; [done|]). split.
  - by rewrite lookup_insert_eq.
  - intros k Hk. by rewrite lookup_insert_ne.
Qed.

(** X8. What [ghostWrite] returns when it returns: it has sent exactly one
    request, which carries the last 300 words of the draft; the model's
    answer parsed to an object whose [newReferences] is an array; the
    result is that object with every reference re-stamped with a fresh
    [gen_] id, one per reference and in the same order, and every other
    property, the paragraph among them, as the model gave it. *)
Theorem ghostWrite_returns (E : Env) (currentText : string) (p : value)
    (researchContext : list value) (mode : EditorMode) (w w' : world) (v : value) :
  ghostWrite E currentText p researchContext mode w = (Ok v, w') →
  ∃ sp r data refs,
    calls w' = calls w ++ [ghostWriteRequest (recent currentText) sp]
    ∧ console w' = console w ∧ alerts w' = alerts w
    ∧ draws w' = draws w + length refs
    ∧ model_answer E (calls w) (ghostWriteRequest (recent currentText) sp) = Resolved r
    ∧ parsed r = Some (VObj data)
    ∧ data !! "newReferences" = Some (VArr refs)
    ∧ get_prop v "newReferences" = Ok (VArr (stamped E (draws w) refs))
    ∧ (∀ k, k ≠ "newReferences" → get_prop v k = get_prop (VObj data) k).
Proof. apply ghostWrite_shape. Qed.

Lemma ghostWrite_returns_witness :
  ∃ v w',
    ghostWrite writing excerpt errorProfile [] markdown quiet = (Ok v, w')
    ∧ ∃ sp r data refs,
        calls w' = calls quiet ++ [ghostWriteRequest (recent excerpt) sp]
        ∧ console w' = console quiet ∧ alerts w' = alerts quiet
        ∧ draws w' = draws quiet + length refs
        ∧ model_answer writing (calls quiet) (ghostWriteRequest (recent excerpt) sp)
          = Resolved r
        ∧ parsed r = Some (VObj data)
        ∧ data !! "newReferences" = Some (VArr refs)
        ∧ get_prop v "newReferences" = Ok (VArr (stamped writing (draws quiet) refs))
        ∧ (∀ k, k ≠ "newReferences" → get_prop v k = get_prop (VObj data) k).
Proof.
  eexists _, _. split; [vm_compute; reflexivity|].
  apply (ghostWrite_returns writing excerpt errorProfile [] markdown quiet).
  vm_compute. reflexivity.
Defined.

(** The paragraph and the id of the reference in that scenario. *)
Example ghostWrite_writing :
  ∃ v w',
    ghostWrite writing excerpt errorProfile [] markdown quiet = (Ok v, w')
    ∧ get_prop v "paragraph" = Ok (VStr "Decoherence sets in within femtoseconds.")
    ∧ (get_prop v "newReferences" ≫= as_array) ≫= mapM (λ r, get_prop r "id")
      = Ok [VStr "gen_1700000000000_4fzyo82mv"].
Proof. eexists _, _. split; [vm_compute; reflexivity|]. by vm_compute. Qed.

(** The ways in which [ghostWrite] fails. *)
Lemma ghostWrite_failure (E : Env) (currentText : string) (p : value)
    (researchContext : list value) (mode : EditorMode) (w w' : world) (e : exn) :
  ghostWrite E currentText p researchContext mode w = (Throw e, w') →
  console w' = console w ∧ alerts w' = alerts w ∧ draws w' = draws w
  ∧ (w' = w ∧ (e = Error "API Key missing" ∧ apiKey E = EmptyString ∨ e = TypeError)
     ∨ ∃ sp,
         let req := ghostWriteRequest (recent currentText) sp in
         calls w' = calls w ++ [req]
         ∧ match model_answer E (calls w) req with
           | Rejected => e = Rejection
           | Resolved r =>
               if has_text r then
                 match parsed r with
                 | Some _ => e = TypeError
                 | None => e = SyntaxError
                 end
               else e = Error "Failed to generate content"
           end).
Proof.
  intros Hrun.
  destruct (decide (apiKey E = EmptyString)) as [Hkey|Hkey].
  { unfold ghostWrite in Hrun. rewrite (key_missing _ Hkey) in Hrun.
    injection Hrun as <- <-. repeat split; auto. }
  destruct (mapM sourceLine researchContext) as [ctx|e'] eqn:Hctx.
  2:{ unfold ghostWrite in Hrun. rewrite (key_configured _ Hkey) in Hrun.
      unfold mbind at 1, M_bind, pure at 1 in Hrun. rewrite Hctx in Hrun.
      injection Hrun as <- <-. repeat split; try done. left. split; [done|]. right.
      eapply mapM_throws; [|exact Hctx].
      intros x e''. apply sourceLine_throws. }
  destruct (constructSystemPrompt p mode ctx) as [sp|e'] eqn:Hsp.
  2:{ unfold ghostWrite in Hrun. rewrite (key_configured _ Hkey) in Hrun.
      unfold mbind at 1, M_bind, pure at 1 in Hrun. rewrite Hctx in Hrun.
      unfold mbind at 1, M_bind, pure at 1 in Hrun. rewrite Hsp in Hrun.
      injection Hrun as <- <-. repeat split; try done. left. split; [done|]. right.
      by eapply constructSystemPrompt_throws. }
  rewrite (ghostWrite_run E currentText p researchContext mode w ctx sp) in Hrun by done.
  cbn zeta in Hrun.
  assert (∀ e0, (Throw e0 : result value,
                 World (calls w ++ [ghostWriteRequest (recent currentText) sp])
                       (console w) (alerts w) (draws w)) = (Throw e, w') →
          console w' = console w ∧ alerts w' = alerts w ∧ draws w' = draws w
          ∧ calls w' = calls w ++ [ghostWriteRequest (recent currentText) sp] ∧ e0 = e)
    as Hsent.
  { by intros e0 [= <- <-]. }
  cut (console w' = console w ∧ alerts w' = alerts w ∧ draws w' = draws w
       ∧ calls w' = calls w ++ [ghostWriteRequest (recent currentText) sp]
       ∧ match model_answer E (calls w) (ghostWriteRequest (recent currentText) sp) with
         | Rejected => e = Rejection
         | Resolved r =>
             if has_text r then
               match parsed r with
               | Some _ => e = TypeError
               | None => e = SyntaxError
               end
             else e = Error "Failed to generate content"
         end).
  { intros (? & ? & ? & ? & ?). repeat split; try done. right. by exists sp. }
  destruct (model_answer _ _ _) as [|r].
  { by destruct (Hsent _ Hrun) as (? & ? & ? & ? & <-). }
  destruct (has_text r).
  2:{ by destruct (Hsent _ Hrun) as (? & ? & ? & ? & <-). }
  destruct (parsed r) as [v|].
  2:{ by destruct (Hsent _ Hrun) as (? & ? & ? & ? & <-). }
  destruct v as [| | | | | |data];
    try by destruct (Hsent _ Hrun) as (? & ? & ? & ? & <-).
  destruct (data !! "newReferences") as [[]|];
    try done; by destruct (Hsent _ Hrun) as (? & ? & ? & ? & <-).
Qed.

(** X9. What [ghostWrite] lets out when it fails, and nothing of it is
    logged or shown: [API Key missing] or a [TypeError] from the profile or
    the research context, before anything is sent; after its one request,
    the rejection of the call, [Failed to generate content] for an answer
    without text, a [SyntaxError] for text that is not JSON, or a
    [TypeError] for JSON without an array of new references. *)
Theorem ghostWrite_throws (E : Env) (currentText : string) (p : value)
    (researchContext : list value) (mode : EditorMode) (w w' : world) (e : exn) :
  ghostWrite E currentText p researchContext mode w = (Throw e, w') →
  console w' = console w ∧ alerts w' = alerts w ∧ draws w' = draws w
  ∧ (w' = w ∧ (e = Error "API Key missing" ∧ apiKey E = EmptyString ∨ e = TypeError)
     ∨ ∃ sp,
         let req := ghostWriteRequest (recent currentText) sp in
         calls w' = calls w ++ [req]
         ∧ match model_answer E (calls w) req with
           | Rejected => e = Rejection
           | Resolved r =>
               if has_text r then
                 match parsed r with
                 | Some _ => e = TypeError
                 | None => e = SyntaxError
                 end
               else e = Error "Failed to generate content"
           end).
Proof. apply ghostWrite_failure. Qed.

Lemma ghostWrite_throws_witness :
  ∃ e w',
    ghostWrite offline excerpt errorProfile [] markdown quiet = (Throw e, w')
    ∧ console w' = console quiet ∧ alerts w' = alerts quiet ∧ draws w' = draws quiet
    ∧ (w' = quiet
       ∧ (e = Error "API Key missing" ∧ apiKey offline = EmptyString ∨ e = TypeError)
       ∨ ∃ sp,
           let req := ghostWriteRequest (recent excerpt) sp in
           calls w' = calls quiet ++ [req]
           ∧ match model_answer offline (calls quiet) req with
             | Rejected => e = Rejection
             | Resolved r =>
                 if has_text r then
                   match parsed r with
                   | Some _ => e = TypeError
                   | None => e = SyntaxError
                   end
                 else e = Error "Failed to generate content"
             end).
Proof.
  eexists _, _. split; [vm_compute; reflexivity|].
  apply (ghostWrite_throws offline excerpt errorProfile [] markdown quiet).
  vm_compute. reflexivity.
Defined.

(** ** [rewriteSection], [continueSection] and [generateStyleSample] *)





(** In that scenario the model rewrites the excerpt and has nothing to
    continue it with. *)
Example rewriting_and_continuing :
  (rewriteSection writing excerpt errorProfile markdown quiet).1 = Ok "Coherence is fragile."
  ∧ (continueSection writing excerpt errorProfile markdown quiet).1 = Ok EmptyString
  ∧ (rewriteSection offline excerpt errorProfile markdown quiet).1 = Throw Rejection.
Proof. by vm_compute. Qed.

(** X11. With a key, [generateStyleSample] returns exactly when it can
    build its prompt: the thirteen fields of its template can be converted
    to a string and the two lists can be joined.  It then sends exactly
    one request, logs nothing, the rejection included, and returns a
    string that is not empty: the model's text, or
    [Failed to generate sample.] when the answer has none, or
    [Error generating sample.] when the call was rejected.  Otherwise it
    throws a [TypeError], which its [try] does not cover, and sends
    nothing. *)
Theorem generateStyleSample_answers (E : Env) (p : value) (w : world) :
  apiKey E ≠ EmptyString →
  (sampleable p = true →
   ∃ s fields,
     let req := styleSampleRequest fields in
     generateStyleSample E p w
     = (Ok s, World (calls w ++ [req]) (console w) (alerts w) (draws w))
     ∧ s ≠ EmptyString
     ∧ match model_answer E (calls w) req with
       | Rejected => s = "Error generating sample."
       | Resolved r => s = if has_text r then text r else "Failed to generate sample."
       end)
  ∧ (sampleable p = false → generateStyleSample E p w = (Throw TypeError, w)).
Proof.
  intros Hkey. pose proof (generateStyleSample_cases E p w Hkey) as Hrun.
  destruct (sampleable p); split; done.
Qed.

Lemma generateStyleSample_answers_witness :
  (∃ s fields,
     let req := styleSampleRequest fields in
     generateStyleSample writing errorProfile quiet
     = (Ok s, World (calls quiet ++ [req]) (console quiet) (alerts quiet) (draws quiet))
     ∧ s ≠ EmptyString
     ∧ match model_answer writing (calls quiet) req with
       | Rejected => s = "Error generating sample."
       | Resolved r => s = if has_text r then text r else "Failed to generate sample."
       end)
  ∧ generateStyleSample writing (VObj (<["writingDomain" := noString]> twoBanned)) quiet
    = (Throw TypeError, quiet).
Proof.
  split.
  - apply (proj1 (generateStyleSample_answers writing errorProfile quiet ltac:(discriminate))).
    vm_compute. reflexivity.
  - apply (proj2 (generateStyleSample_answers writing
                    (VObj (<["writingDomain" := noString]> twoBanned)) quiet
                    ltac:(discriminate))).
    vm_compute. reflexivity.
Defined.

(** ** Writing into the document *)

Lemma length_app (a b : string) :
  String.length (a +:+ b) = String.length a + String.length b.
Proof. induction a as [|c a IH]; [done|]. rewrite app_cons. cbn. by rewrite IH. Qed.

Lemma substring_two_way (s : string) (n : nat) :
  n ≤ String.length s →
  String.substring 0 n s +:+ String.substring n (String.length s - n) s = s
  ∧ String.length (String.substring 0 n s) = n.
Proof.
  revert n. induction s as [|c s IH]; intros [|n] Hn; cbn in *; try lia.
  - done.
  - rewrite app_empty. split; [|done]. f_equal. apply substring_all. lia.
  - destruct (IH n) as [Heq Hlen]; [lia|]. rewrite app_cons, Heq, Hlen. done.
Qed.

Lemma substring_three_way (s : string) (start stop : nat) :
  in_range start stop s →
  substring_to start s +:+ substring2 start stop s +:+ substring_from stop s = s
  ∧ String.length (substring_to start s) = start
  ∧ String.length (substring2 start stop s) = stop - start.
Proof.
  unfold in_range, substring_to, substring_from, substring2. intros [Hss Hsl].
  rewrite !Nat.min_l, Nat.max_r by lia.
  revert start stop Hss Hsl. induction s as [|c s IH]; intros start stop Hss Hsl.
  - cbn in Hsl. assert (stop = 0) as -> by lia. assert (start = 0) as -> by lia. done.
  - destruct start as [|start].
    + assert (String.substring 0 0 (String c s) = EmptyString) as -> by done.
      rewrite app_empty, Nat.sub_0_r.
      destruct (substring_two_way (String c s) stop Hsl) as [-> ->]. done.
    + destruct stop as [|stop]; [lia|]. cbn in Hsl.
      destruct (IH start stop) as (Heq & Hl1 & Hl2); [lia..|].
      cbn. rewrite app_cons, Heq, Hl1, Hl2. done.
Qed.

(** What a splice does to a text whose selection is in range. *)
Lemma spliced_spec (val : string) (start stop : nat) :
  in_range start stop val →
  ∃ before after,
    val = before +:+ substring2 start stop val +:+ after
    ∧ String.length before = start
    ∧ ∀ text, spliced val start stop text = before +:+ text +:+ after.
Proof.
  intros Hr. destruct (substring_three_way val start stop Hr) as (Heq & Hlen & _).
  exists (substring_to start val), (substring_from stop val). by rewrite Heq.
Qed.

(** X12. [handleInsertCitation], [insertText] and the [Tab] key replace
    exactly the selected code units of the text area by the inserted text:
    what stood before and after the selection is kept, the new length is
    the old one less the selection plus the insertion, and no other cell
    of the state changes.  Without a text area nothing changes. *)
Theorem insertion_replaces_selection (textarea : Textarea.t) (text : string) :
  in_range (Textarea.selectionStart textarea) (Textarea.selectionEnd textarea)
           (Textarea.value textarea) →
  ∃ before selected after,
    Textarea.value textarea = before +:+ selected +:+ after
    ∧ String.length before = Textarea.selectionStart textarea
    ∧ String.length selected
      = Textarea.selectionEnd textarea - Textarea.selectionStart textarea
    ∧ ∀ a,
        handleInsertCitation text (Some textarea) a = setContent (before +:+ text +:+ after) a
        ∧ insertText text (Some textarea) a = setContent (before +:+ text +:+ after) a
        ∧ handleTab textarea a = setContent (before +:+ "    " +:+ after) a
        ∧ handleInsertCitation text None a = a
        ∧ insertText text None a = a
        ∧ String.length (content (insertText text (Some textarea) a))
          = String.length (Textarea.value textarea) - String.length selected
            + String.length text.
Proof.
  intros Hr. destruct (spliced_spec _ _ _ Hr) as (before & after & Hval & Hlen & Hsplice).
  destruct (substring_three_way _ _ _ Hr) as (_ & _ & Hsel).
  exists before, (substring2 (Textarea.selectionStart textarea)
                             (Textarea.selectionEnd textarea) (Textarea.value textarea)), after.
  split; [done|]. split; [done|]. split; [done|]. intros a.
  unfold handleInsertCitation, insertText, handleTab. rewrite !Hsplice.
  do 5 (split; [done|]). cbn [content setContent].
  remember (substring2 (Textarea.selectionStart textarea) (Textarea.selectionEnd textarea)
              (Textarea.value textarea)) as selected.
  rewrite Hval, !length_app. lia.
Qed.

Lemma insertion_replaces_selection_witness :
  ∃ before selected after,
    Textarea.value twoWords = before +:+ selected +:+ after
    ∧ String.length before = Textarea.selectionStart twoWords
    ∧ String.length selected
      = Textarea.selectionEnd twoWords - Textarea.selectionStart twoWords
    ∧ ∀ a,
        handleInsertCitation "\cite{Engel2020}" (Some twoWords) a
        = setContent (before +:+ "\cite{Engel2020}" +:+ after) a
        ∧ insertText "\cite{Engel2020}" (Some twoWords) a
          = setContent (before +:+ "\cite{Engel2020}" +:+ after) a
        ∧ handleTab twoWords a = setContent (before +:+ "    " +:+ after) a
        ∧ handleInsertCitation "\cite{Engel2020}" None a = a
        ∧ insertText "\cite{Engel2020}" None a = a
        ∧ String.length (content (insertText "\cite{Engel2020}" (Some twoWords) a))
          = String.length (Textarea.value twoWords) - String.length selected
            + String.length "\cite{Engel2020}".
Proof.
  apply (insertion_replaces_selection twoWords "\cite{Engel2020}").
  unfold in_range. vm_compute. lia.
Defined.

(** The citation replaces the two selected words of the excerpt. *)
Example insertText_twoWords :
  content (insertText "\cite{Engel2020}" (Some twoWords) drafting)
  = "\cite{Engel2020} in warm biological systems is fragile.".
Proof. reflexivity. Qed.

(** ** The handlers that write what the model returned *)

Lemma length_zero (s : string) : String.length s = 0 → s = EmptyString.
Proof. by destruct s. Qed.

(** X13. [handleRewrite] never throws.  When the selection passed to it is
    the selected range of the rendered content, a rewrite that arrives
    replaces exactly that range of the rendered content, whatever the
    content is by then, and touches no other cell; a failure is logged and
    leaves the content alone.  Either way the busy flag ends up off. *)
Theorem handleRewrite_replaces_selection (E : Env) (selection : string)
    (textarea : Textarea.t) (rendered : App) (w : world) :
  in_range (Textarea.selectionStart textarea) (Textarea.selectionEnd textarea)
           (content rendered) →
  selection = substring2 (Textarea.selectionStart textarea) (Textarea.selectionEnd textarea)
                         (content rendered) →
  ∃ before after update w',
    content rendered = before +:+ selection +:+ after
    ∧ String.length before = Textarea.selectionStart textarea
    ∧ handleRewrite E selection (Some textarea) rendered w = (Ok update, w')
    ∧ (∀ s w1,
         rewriteSection E selection (styleProfile rendered) (mode rendered) w = (Ok s, w1) →
         w' = w1
         ∧ ∀ a, update a = setIsGhostWriting false (setContent (before +:+ s +:+ after) a))
    ∧ (∀ e w1,
         rewriteSection E selection (styleProfile rendered) (mode rendered) w = (Throw e, w1) →
         w' = World (calls w1) (console w1 ++ [(EmptyString, e)]) (alerts w1) (draws w1)
         ∧ ∀ a, update a = setIsGhostWriting false a).
Proof.
  intros Hr ->. destruct (spliced_spec _ _ _ Hr) as (before & after & Hval & Hlen & Hsplice).
  exists before, after. unfold handleRewrite. run_bind. unfold try_catch. run_bind.
  destruct (rewriteSection E _ (styleProfile rendered) (mode rendered) w) as [[s|e] w1].
  - eexists _, _. split; [done|]. split; [done|]. split; [reflexivity|]. split.
    + intros ? ? [= <- <-]. split; [done|]. intros a. by rewrite Hsplice.
    + intros ? ? ?. discriminate.
  - eexists _, _. split; [done|]. split; [done|]. split; [reflexivity|]. split.
    + intros ? ? ?. discriminate.
    + by intros ? ? [= <- <-].
Qed.

Lemma handleRewrite_replaces_selection_witness :
  ∃ before after update w',
    content drafting = before +:+ "Quantum coherence" +:+ after
    ∧ String.length before = Textarea.selectionStart twoWords
    ∧ handleRewrite writing "Quantum coherence" (Some twoWords) drafting quiet
      = (Ok update, w')
    ∧ (∀ s w1,
         rewriteSection writing "Quantum coherence" (styleProfile drafting) (mode drafting)
                        quiet = (Ok s, w1) →
         w' = w1
         ∧ ∀ a, update a = setIsGhostWriting false (setContent (before +:+ s +:+ after) a))
    ∧ (∀ e w1,
         rewriteSection writing "Quantum coherence" (styleProfile drafting) (mode drafting)
                        quiet = (Throw e, w1) →
         w' = World (calls w1) (console w1 ++ [(EmptyString, e)]) (alerts w1) (draws w1)
         ∧ ∀ a, update a = setIsGhostWriting false a).
Proof.
  apply (handleRewrite_replaces_selection writing "Quantum coherence" twoWords drafting quiet).
  - unfold in_range. vm_compute. lia.
  - vm_compute. reflexivity.
Defined.

(** The two selected words of the excerpt are rewritten; what was typed
    while the model was busy is gone. *)
Example handleRewrite_drafting :
  ∃ update w',
    handleRewrite writing "Quantum coherence" (Some twoWords) drafting quiet = (Ok update, w')
    ∧ content (update (setContent (excerpt +:+ " More.") drafting))
      = "Coherence is fragile. in warm biological systems is fragile.".
Proof. eexists _, _. split; [reflexivity|]. vm_compute. reflexivity. Qed.

(** X14. [handleContinue] never throws.  With the caret of the text area
    in the range of the rendered content, a continuation that arrives is
    inserted behind the caret after one space, into the rendered content;
    when the model had no text the space alone is inserted.  A failure is
    logged and leaves the content alone. *)
Theorem handleContinue_inserts_after (E : Env) (selection : string)
    (textarea : Textarea.t) (rendered : App) (w : world) :
  Textarea.selectionEnd textarea ≤ String.length (content rendered) →
  ∃ before after update w',
    content rendered = before +:+ after
    ∧ String.length before = Textarea.selectionEnd textarea
    ∧ handleContinue E selection (Some textarea) rendered w = (Ok update, w')
    ∧ (∀ s w1,
         continueSection E selection (styleProfile rendered) (mode rendered) w = (Ok s, w1) →
         w' = w1
         ∧ ∀ a, update a
                = setIsGhostWriting false (setContent (before +:+ " " +:+ s +:+ after) a))
    ∧ (∀ e w1,
         continueSection E selection (styleProfile rendered) (mode rendered) w = (Throw e, w1) →
         w' = World (calls w1) (console w1 ++ [(EmptyString, e)]) (alerts w1) (draws w1)
         ∧ ∀ a, update a = setIsGhostWriting false a).
Proof.
  intros Hr.
  assert (in_range (Textarea.selectionEnd textarea) (Textarea.selectionEnd textarea)
                   (content rendered)) as Hrange by (unfold in_range; lia).
  destruct (spliced_spec _ _ _ Hrange) as (before & after & Hval & Hlen & Hsplice).
  destruct (substring_three_way _ _ _ Hrange) as (_ & _ & Hsel).
  rewrite Nat.sub_diag in Hsel. apply length_zero in Hsel. rewrite Hsel, app_empty in Hval.
  exists before, after. unfold handleContinue. run_bind. unfold try_catch. run_bind.
  destruct (continueSection E _ (styleProfile rendered) (mode rendered) w) as [[s|e] w1].
  - eexists _, _. split; [done|]. split; [done|]. split; [reflexivity|]. split.
    + intros ? ? [= <- <-]. split; [done|]. intros a.
      by rewrite Hsplice, string_app_assoc.
    + intros ? ? ?. discriminate.
  - eexists _, _. split; [done|]. split; [done|]. split; [reflexivity|]. split.
    + intros ? ? ?. discriminate.
    + by intros ? ? [= <- <-].
Qed.

Lemma handleContinue_inserts_after_witness :
  ∃ before after update w',
    content drafting = before +:+ after
    ∧ String.length before = Textarea.selectionEnd afterTwoWords
    ∧ handleContinue writing "Quantum coherence" (Some afterTwoWords) drafting quiet
      = (Ok update, w')
    ∧ (∀ s w1,
         continueSection writing "Quantum coherence" (styleProfile drafting) (mode drafting)
                         quiet = (Ok s, w1) →
         w' = w1
         ∧ ∀ a, update a
                = setIsGhostWriting false (setContent (before +:+ " " +:+ s +:+ after) a))
    ∧ (∀ e w1,
         continueSection writing "Quantum coherence" (styleProfile drafting) (mode drafting)
                         quiet = (Throw e, w1) →
         w' = World (calls w1) (console w1 ++ [(EmptyString, e)]) (alerts w1) (draws w1)
         ∧ ∀ a, update a = setIsGhostWriting false a).
Proof.
  apply (handleContinue_inserts_after writing "Quantum coherence" afterTwoWords drafting quiet).
  vm_compute. lia.
Defined.

(** The model of [writing] has no continuation: a second space appears
    behind the caret. *)
Example handleContinue_drafting :
  ∃ update w',
    handleContinue writing "Quantum coherence" (Some afterTwoWords) drafting quiet
    = (Ok update, w')
    ∧ content (update drafting)
      = "Quantum coherence  in warm biological systems is fragile.".
Proof. eexists _, _. split; [reflexivity|]. vm_compute. reflexivity. Qed.

Lemma endsWith_spec (s t : string) :
  endsWith s t = true → s = slice_off (String.length t) s +:+ t.
Proof.
  unfold endsWith, slice_off, slice_last.
  intros [Hlen Heq]%andb_true_iff. apply Nat.leb_le in Hlen. apply String.eqb_eq in Heq.
  destruct (substring_two_way s (String.length s - String.length t)) as [Hs _]; [lia|].
  replace (String.length s - (String.length s - String.length t))
    with (String.length t) in Hs by lia.
  by rewrite Heq in Hs.
Qed.

Lemma to_string_throws (String_of : value → string) (v : value) (e : exn) :
  to_string String_of v = Throw e → e = TypeError.
Proof. destruct v; cbn; try congruence; destruct (forallb _ _) || destruct (_ !! _); congruence. Qed.

(** X15. [handleGhostWrite] never throws and shows no alert.  While a
    ghost write is under way it does nothing at all.  Otherwise it calls
    [ghostWrite] on the rendered content less a final [+++].  When that
    returns, the new references are put in front of the library and, when
    there are any, the first three of them and of the former suggestions
    are shown; then, if the paragraph is a string or can be converted to
    one, the content becomes the text sent, an empty line and the
    paragraph, whatever the content is by then, and if it cannot, the
    [TypeError] is logged and the content is left alone, with the
    references already in the library.  When [ghostWrite] throws, one line
    is logged and only the busy flag is written. *)
Theorem handleGhostWrite_outcome (E : Env) (String_of : value → string) (rendered : App)
    (w : world) :
  ∃ clean update w',
    (content rendered = clean +:+ "+++"
     ∨ content rendered = clean ∧ endsWith clean "+++" = false)
    ∧ handleGhostWrite E String_of rendered w = (Ok update, w')
    ∧ alerts w' = alerts w
    ∧ (isGhostWriting rendered = true → w' = w ∧ ∀ a, update a = a)
    ∧ (isGhostWriting rendered = false →
       (∀ v w1,
          ghostWrite E clean (styleProfile rendered) (researchData rendered) (mode rendered) w
          = (Ok v, w1) →
          ∃ refs paragraph,
            get_prop v "newReferences" = Ok (VArr refs)
            ∧ get_prop v "paragraph" = Ok paragraph
            ∧ (∀ a,
                 researchData (update a) = refs ++ researchData a
                 ∧ liveSuggestions (update a)
                   = (if decide (refs = []) then liveSuggestions a
                      else take 3 (refs ++ liveSuggestions a))
                 ∧ isGhostWriting (update a) = false
                 ∧ mode (update a) = mode a
                 ∧ styleProfile (update a) = styleProfile a
                 ∧ isCalibrating (update a) = isCalibrating a)
            ∧ match to_string String_of paragraph with
              | Ok appended =>
                  w' = w1
                  ∧ ∀ a, content (update a) = clean +:+ nl +:+ nl +:+ appended
              | Throw e =>
                  e = TypeError
                  ∧ w' = World (calls w1) (console w1 ++ [("Ghost write failed", e)])
                               (alerts w1) (draws w1)
                  ∧ ∀ a, content (update a) = content a
              end)
       ∧ (∀ e w1,
            ghostWrite E clean (styleProfile rendered) (researchData rendered) (mode rendered) w
            = (Throw e, w1) →
            w' = World (calls w1) (console w1 ++ [("Ghost write failed", e)])
                       (alerts w1) (draws w1)
            ∧ ∀ a, update a = setIsGhostWriting false a)).
Proof.
  set (clean := if endsWith (content rendered) "+++" then slice_off 3 (content rendered)
                else content rendered).
  assert (content rendered = clean +:+ "+++"
          ∨ content rendered = clean ∧ endsWith clean "+++" = false) as Hclean.
  { unfold clean. destruct (endsWith (content rendered) "+++") eqn:Hends.
    - left. by apply endsWith_spec in Hends.
    - by right. }
  exists clean. unfold handleGhostWrite. fold clean.
  destruct (isGhostWriting rendered) eqn:Hbusy.
  { eexists _, _. split; [done|]. split; [reflexivity|]. split; [done|]. split; [done|].
    intros ?. discriminate. }
  run_bind. unfold try_catch at 1. run_bind.
  destruct (ghostWrite E clean (styleProfile rendered) (researchData rendered)
                       (mode rendered) w) as [[v|e] w1] eqn:Hrun.
  - destruct (ghostWrite_shape _ _ _ _ _ _ _ _ Hrun)
      as (sp & r & data & refs & _ & _ & Halerts & _ & _ & _ & _ & Hrefs & _).
    assert (∃ paragraph, get_prop v "paragraph" = Ok paragraph) as [paragraph Hpar].
    { destruct v; try discriminate; cbn; eauto. }
    remember (stamped E (draws w) refs) as news eqn:Hnews. clear Hnews.
    run_bind. unfold pure at 1. rewrite Hrefs.
    unfold try_catch. run_bind. unfold pure at 1. rewrite Hpar.
    run_bind. unfold pure at 1.
    destruct (to_string String_of paragraph) as [appended|e] eqn:Htext.
    + eexists _, _. split; [done|]. split; [reflexivity|]. split; [done|].
      split; [intros ?; discriminate|]. intros _. split.
      * intros ? ? [= <- <-]. exists news, paragraph.
        split; [done|]. split; [done|]. rewrite Htext. split; [|done].
        intros a. destruct news as [|ref news]; [done|].
        rewrite decide_False by done. done.
      * intros ? ? ?. discriminate.
    + eexists _, _. split; [done|]. split; [reflexivity|]. split; [done|].
      split; [intros ?; discriminate|]. intros _. split.
      * intros ? ? [= <- <-]. exists news, paragraph.
        split; [done|]. split; [done|]. rewrite Htext. split.
        -- intros a. destruct news as [|ref news]; [done|].
           rewrite decide_False by done. done.
        -- split; [by eapply to_string_throws|]. split; [done|].
           intros a. by destruct news.
      * intros ? ? ?. discriminate.
  - eexists _, _. split; [done|]. split; [reflexivity|].
    split.
    { cbn. by destruct (ghostWrite_failure _ _ _ _ _ _ _ _ Hrun) as (_ & -> & _). }
    split; [intros ?; discriminate|]. intros _. split.
    + intros ? ? ?. discriminate.
    + by intros ? ? [= <- <-].
Qed.

(** The editor holds the excerpt and the trigger: the paragraph is
    appended to the excerpt, the new reference is the only entry of the
    library and the only suggestion. *)
Example handleGhostWrite_triggered :
  ∃ update w',
    handleGhostWrite writing unused (setContent (excerpt +:+ "+++") drafting) quiet
    = (Ok update, w')
    ∧ content (update drafting)
      = excerpt +:+ nl +:+ nl +:+ "Decoherence sets in within femtoseconds."
    ∧ id_of <$> researchData (update drafting)
      = [VStr "gen_1700000000000_4fzyo82mv"; VStr "1"]
    ∧ id_of <$> liveSuggestions (update drafting) = [VStr "gen_1700000000000_4fzyo82mv"].
Proof. eexists _, _. split; [vm_compute; reflexivity|]. by vm_compute. Qed.

(** The model's paragraph is an object that cannot be converted: the
    reference is in the library, the failure on the console, and the
    content as it was. *)
Example handleGhostWrite_unprintable :
  ∃ update w',
    handleGhostWrite noParagraph unused (setContent (excerpt +:+ "+++") drafting) quiet
    = (Ok update, w')
    ∧ console w' = [("Ghost write failed", TypeError)]
    ∧ content (update drafting) = excerpt
    ∧ id_of <$> researchData (update drafting)
      = [VStr "gen_1700000000000_4fzyo82mv"; VStr "1"].
Proof. eexists _, _. split; [vm_compute; reflexivity|]. by vm_compute. Qed.

Lemma app_inj_last (a b : string) (c : ascii) :
  a +:+ String c EmptyString = b +:+ String c EmptyString → a = b.
Proof.
  revert b. induction a as [|x a IH]; intros [|y b]; rewrite ?app_cons, ?app_empty.
  - done.
  - intros [= _ H]. by destruct b.
  - intros [= _ H]. by destruct a.
  - intros [= -> H]. f_equal. by apply IH.
Qed.

(** X16. When the text typed at the end of the document completes the
    trigger [+++] and no ghost write is under way, [handleChange] starts
    one with the handler of the render, which still holds the text before
    the keystroke: [ghostWrite] is given that text, nothing is stripped
    from it, and when it returns a paragraph that is a string or can be
    converted to one, the document becomes that text, an empty line and
    the paragraph.  When the keystroke is the third plus sign, the two
    typed before it stay in the document.  When [ghostWrite] throws or
    the paragraph cannot be converted, the document is the typed text. *)
Theorem typed_trigger_is_kept (E : Env) (String_of : value → string) (rendered : App)
    (typed : string) (w : world) :
  isGhostWriting rendered = false →
  endsWith (content rendered +:+ typed) "+++" = true →
  endsWith (content rendered) "+++" = false →
  ∃ update w',
    handleChange E String_of (content rendered +:+ typed) rendered w = (Ok update, w')
    ∧ (typed = "+" → ∃ base, content rendered = base +:+ "++")
    ∧ (∀ v w1,
         ghostWrite E (content rendered) (styleProfile rendered) (researchData rendered)
                    (mode rendered) w = (Ok v, w1) →
         ∃ paragraph,
           get_prop v "paragraph" = Ok paragraph
           ∧ match to_string String_of paragraph with
             | Ok appended =>
                 w' = w1
                 ∧ ∀ a, content (update a) = content rendered +:+ nl +:+ nl +:+ appended
             | Throw e =>
                 w' = World (calls w1) (console w1 ++ [("Ghost write failed", e)])
                            (alerts w1) (draws w1)
                 ∧ ∀ a, content (update a) = content rendered +:+ typed
             end)
    ∧ (∀ e w1,
         ghostWrite E (content rendered) (styleProfile rendered) (researchData rendered)
                    (mode rendered) w = (Throw e, w1) →
         w' = World (calls w1) (console w1 ++ [("Ghost write failed", e)])
                    (alerts w1) (draws w1)
         ∧ ∀ a, content (update a) = content rendered +:+ typed).
Proof.
  intros Hidle Htyped Hrendered.
  assert (typed = "+" → ∃ base, content rendered = base +:+ "++") as Hkept.
  { intros ->. apply endsWith_spec in Htyped. cbn [String.length] in Htyped.
    exists (slice_off 3 (content rendered +:+ "+")).
    apply (app_inj_last _ _ "+"). rewrite Htyped at 1.
    by rewrite string_app_assoc. }
  unfold handleChange. rewrite Htyped, Hidle. cbn [negb andb].
  run_bind. unfold handleGhostWrite. rewrite Hidle, Hrendered.
  run_bind. unfold try_catch at 1. run_bind.
  destruct (ghostWrite E (content rendered) (styleProfile rendered) (researchData rendered)
                       (mode rendered) w) as [[v|e] w1] eqn:Hrun.
  - destruct (ghostWrite_shape _ _ _ _ _ _ _ _ Hrun)
      as (sp & r & data & refs & _ & _ & _ & _ & _ & _ & _ & Hrefs & _).
    assert (∃ paragraph, get_prop v "paragraph" = Ok paragraph) as [paragraph Hpar].
    { destruct v; try discriminate; cbn; eauto. }
    remember (stamped E (draws w) refs) as news eqn:Hnews. clear Hnews.
    run_bind. unfold pure at 1. rewrite Hrefs.
    unfold try_catch. run_bind. unfold pure at 1. rewrite Hpar.
    run_bind. unfold pure at 1.
    destruct (to_string String_of paragraph) as [appended|e] eqn:Htext.
    + eexists _, _. split; [reflexivity|]. split; [done|]. split.
      * intros ? ? [= <- <-]. exists paragraph. split; [done|]. by rewrite Htext.
      * intros ? ? ?. discriminate.
    + eexists _, _. split; [reflexivity|]. split; [done|]. split.
      * intros ? ? [= <- <-]. exists paragraph. split; [done|]. rewrite Htext.
        split; [done|]. intros a. destruct news as [|ref news]; [done|].
        by destruct (0 <? length (ref :: news))%nat.
      * intros ? ? ?. discriminate.
  - eexists _, _. split; [reflexivity|]. split; [done|]. split.
    + intros ? ? ?. discriminate.
    + by intros ? ? [= <- <-].
Qed.

Lemma typed_trigger_is_kept_witness :
  ∃ update w',
    handleChange writing unused (content twoPlus +:+ "+") twoPlus quiet = (Ok update, w')
    ∧ ("+" = "+" → ∃ base, content twoPlus = base +:+ "++")
    ∧ (∀ v w1,
         ghostWrite writing (content twoPlus) (styleProfile twoPlus) (researchData twoPlus)
                    (mode twoPlus) quiet = (Ok v, w1) →
         ∃ paragraph,
           get_prop v "paragraph" = Ok paragraph
           ∧ match to_string unused paragraph with
             | Ok appended =>
                 w' = w1
                 ∧ ∀ a, content (update a) = content twoPlus +:+ nl +:+ nl +:+ appended
             | Throw e =>
                 w' = World (calls w1) (console w1 ++ [("Ghost write failed", e)])
                            (alerts w1) (draws w1)
                 ∧ ∀ a, content (update a) = content twoPlus +:+ "+"
             end)
    ∧ (∀ e w1,
         ghostWrite writing (content twoPlus) (styleProfile twoPlus) (researchData twoPlus)
                    (mode twoPlus) quiet = (Throw e, w1) →
         w' = World (calls w1) (console w1 ++ [("Ghost write failed", e)])
                    (alerts w1) (draws w1)
         ∧ ∀ a, content (update a) = content twoPlus +:+ "+").
Proof.
  apply (typed_trigger_is_kept writing unused twoPlus "+" quiet).
  - reflexivity.
  - vm_compute. reflexivity.
  - vm_compute. reflexivity.
Defined.

(** The document after the third plus sign was typed behind the excerpt. *)
Example handleChange_twoPlus :
  ∃ update w',
    handleChange writing unused (excerpt +:+ "+++") twoPlus quiet = (Ok update, w')
    ∧ content (update twoPlus)
      = excerpt +:+ "++" +:+ nl +:+ nl +:+ "Decoherence sets in within femtoseconds.".
Proof. eexists _, _. split; [vm_compute; reflexivity|]. by vm_compute. Qed.

(** ** The live context *)

(** X17. The timer of the live context does nothing for a text of fewer
    than 50 code units, although it looks at every text of more than 20,
    and nothing without a key: no request, no update of the suggestions. *)
Theorem liveContext_needs_fifty (E : Env) (exceeds_zero : value → bool) (rendered : App)
    (w : world) :
  apiKey E = EmptyString ∨ String.length (content rendered) < 50 →
  liveContext E exceeds_zero rendered w = (Ok (λ a, a), w).
Proof.
  intros Hskip. unfold liveContext.
  destruct (20 <? String.length (content rendered))%nat; [|done].
  run_bind. by rewrite extractKeywords_skipped.
Qed.

Lemma liveContext_needs_fifty_witness :
  liveContext british (λ _, true) thirtyEight quiet = (Ok (λ a, a), quiet).
Proof.
  apply (liveContext_needs_fifty british (λ _, true) thirtyEight quiet).
  right. vm_compute. lia.
Defined.

Lemma length_of_throws (v : value) (e : exn) : length_of v = Throw e → e = TypeError.
Proof. destruct v; cbn; congruence. Qed.

Lemma gt_zero_throws (exceeds_zero : value → bool) (v : value) (e : exn) :
  gt_zero exceeds_zero v = Throw e → e = TypeError.
Proof.
  destruct v; unfold gt_zero; try congruence;
    match goal with |- context [convertible ?x] => destruct (convertible x) end; congruence.
Qed.

(** X18. Whatever the model answers, the timer of the live context sends
    at most the keyword request, logs nothing and shows no alert.  When it
    returns it has left the state alone or replaced the suggestions by at
    most three entries of the rendered library, in the order of the
    library; the only exception it lets out is a [TypeError], which
    nothing catches. *)
Theorem liveContext_outcome (E : Env) (exceeds_zero : value → bool) (rendered : App)
    (w : world) :
  ∃ r w',
    liveContext E exceeds_zero rendered w = (r, w')
    ∧ console w' = console w ∧ alerts w' = alerts w ∧ draws w' = draws w
    ∧ (calls w' = calls w ∨ calls w' = calls w ++ [keywordRequest (content rendered)])
    ∧ match r with
      | Ok update =>
          (∀ a, update a = a)
          ∨ ∃ relevant,
              sublist relevant (researchData rendered)
              ∧ length relevant ≤ 3
              ∧ ∀ a, update a = setLiveSuggestions relevant a
      | Throw e => e = TypeError
      end.
Proof.
  unfold liveContext.
  destruct (20 <? String.length (content rendered))%nat.
  2:{ eexists _, _. split; [reflexivity|]. repeat split; auto. }
  destruct (extractKeywords_runs E (content rendered) w)
    as (kw & w1 & Hkw & Hconsole & Halerts & Hdraws & Hcalls).
  run_bind. rewrite Hkw. run_bind. unfold pure at 1.
  destruct (length_of kw) as [n|e] eqn:Hn.
  2:{ eexists _, _. split; [reflexivity|]. do 4 (split; [done|]). by eapply length_of_throws. }
  run_bind. unfold pure at 1.
  destruct (gt_zero exceeds_zero n) as [[]|e] eqn:Hpositive.
  2:{ eexists _, _. split; [reflexivity|]. do 4 (split; [done|]). by left. }
  2:{ eexists _, _. split; [reflexivity|]. do 4 (split; [done|]). by eapply gt_zero_throws. }
  run_bind. unfold pure at 1.
  destruct (filter_of (matchesKeywords kw) (researchData rendered)) as [relevant|e] eqn:Hfilter.
  - eexists _, _. split; [reflexivity|]. do 4 (split; [done|]). right.
    exists (take 3 relevant). split; [|split; [|done]].
    + etrans; [apply sublist_take|]. by eapply filter_of_sublist.
    + rewrite length_take. lia.
  - eexists _, _. split; [reflexivity|]. do 4 (split; [done|]).
    eapply filter_of_throws; [|exact Hfilter]. intros x e'. apply matchesKeywords_throws.
Qed.

(** On the excerpt the three entries on quantum physics are suggested. *)
Example liveContext_library :
  ∃ update w',
    liveContext twoCitations (λ _, true)
                (mkApp excerpt markdown (snippet_obj <$> library) [] errorProfile false false)
                quiet = (Ok update, w')
    ∧ id_of <$> liveSuggestions (update drafting) = [VStr "1"; VStr "2"; VStr "5"].
Proof. eexists _, _. split; [vm_compute; reflexivity|]. by vm_compute. Qed.

(** ** The banned words of the settings panel *)

Lemma split_on_nonempty (c : ascii) (s : string) : split_on c s ≠ [].
Proof.
  destruct s as [|x s]; [done|]. cbn.
  destruct (Ascii.eqb x c); [done|]. by destruct (split_on c s).
Qed.

Lemma split_on_free (c : ascii) (s : string) : Forall (free_of c) (split_on c s).
Proof.
  induction s as [|x s IH]; [by repeat constructor|]. cbn.
  destruct (Ascii.eqb x c) eqn:Hx; [by constructor|].
  apply Ascii.eqb_neq in Hx.
  destruct (split_on c s) as [|first others]; [by repeat constructor|].
  apply Forall_cons in IH as [Hfirst Hothers]. by constructor.
Qed.

Lemma split_on_whole (c : ascii) (s : string) : free_of c s → split_on c s = [s].
Proof.
  induction s as [|x s IH]; [done|]. cbn. intros [Hx Hs].
  apply Ascii.eqb_neq in Hx as ->. by rewrite IH.
Qed.

Lemma split_on_app (c : ascii) (a b : string) :
  free_of c a → split_on c (a +:+ String c b) = a :: split_on c b.
Proof.
  induction a as [|x a IH]; intros Ha.
  - rewrite app_empty. cbn. by rewrite Ascii.eqb_refl.
  - destruct Ha as [Hx Ha]. rewrite app_cons. cbn.
    apply Ascii.eqb_neq in Hx as ->. by rewrite IH.
Qed.

Lemma trimStart_free (c : ascii) (s : string) : free_of c s → free_of c (trimStart s).
Proof.
  induction s as [|x s IH]; [done|]. cbn. intros [Hx Hs].
  destruct (is_space x); [by apply IH | done].
Qed.

Lemma trimEnd_free (c : ascii) (s : string) : free_of c s → free_of c (trimEnd s).
Proof.
  induction s as [|x s IH]; [done|]. cbn. intros [Hx Hs].
  destruct (trimEnd s) as [|y rest]; [by destruct (is_space x)|].
  split; [done | by apply IH].
Qed.

Lemma trimEnd_idem (s : string) : trimEnd (trimEnd s) = trimEnd s.
Proof.
  induction s as [|x s IH]; [done|]. cbn.
  destruct (trimEnd s) as [|y rest] eqn:Hs.
  - destruct (is_space x) eqn:Hx; [done|]. cbn. by rewrite Hx.
  - change (trimEnd (String x (String y rest)))
      with (match trimEnd (String y rest) with
            | EmptyString => if is_space x then EmptyString else String x EmptyString
            | r => String x r
            end).
    by rewrite IH.
Qed.

(** What [trimStart] leaves does not start with white space, and [trimEnd]
    keeps such a start. *)
Lemma trimStart_trimEnd (s : string) : trimStart (trimEnd (trimStart s)) = trimEnd (trimStart s).
Proof.
  induction s as [|x s IH]; [done|]. cbn [trimStart].
  destruct (is_space x) eqn:Hx; [done|].
  cbn [trimEnd]. destruct (trimEnd s) as [|y rest]; rewrite ?Hx; cbn; by rewrite Hx.
Qed.

Lemma trim_idem (s : string) : trim (trim s) = trim s.
Proof. unfold trim. by rewrite trimStart_trimEnd, trimEnd_idem. Qed.

(** X19. Whatever stands in the input field, the banned words that
    [saveSettings] and [handleGenerateSample] make of it are not empty,
    hold no comma and neither start nor end with white space. *)
Theorem bannedArray_clean (input : string) : Forall clean_word (bannedArray input).
Proof.
  unfold bannedArray. apply Forall_forall. intros w Hw.
  apply list_elem_of_In, filter_In in Hw as [Hw Hlen].
  apply list_elem_of_In, list_elem_of_fmap in Hw as (piece & -> & Hpiece).
  split; [|split].
  - intros Hempty. rewrite Hempty in Hlen. done.
  - apply trimEnd_free, trimStart_free.
    by apply (proj1 (Forall_forall _ _) (split_on_free "," input)).
  - apply trim_idem.
Qed.

(** Two words, an empty piece and the white space around them. *)
Example bannedArray_pieces :
  bannedArray " delve ,, in terms of,tapestry, " = ["delve"; "in terms of"; "tapestry"].
Proof. reflexivity. Qed.

Lemma trim_after_space (w : string) : trim (" " +:+ w) = trim w.
Proof. reflexivity. Qed.

Lemma free_of_comma_space (w : string) : free_of "," w → free_of "," (" " +:+ w).
Proof. intros H. rewrite app_cons, app_empty. by split. Qed.

(** Parsing the joined words gives the words back when they are clean. *)
Lemma bannedArray_join (ws : list string) :
  Forall clean_word ws → bannedArray (join ", " ws) = ws.
Proof.
  assert (∀ pre, (pre = EmptyString ∨ pre = " ") → ∀ ws, ws ≠ [] → Forall clean_word ws →
    bannedArray (pre +:+ join ", " ws) = ws) as Hgen.
  { intros pre Hpre ws'. revert pre Hpre.
    induction ws' as [|w ws' IH]; intros pre Hpre Hne Hws; [done|].
    apply Forall_cons in Hws as [(Hw & Hfree & Htrim) Hws'].
    assert (free_of "," (pre +:+ w)) as Hpw.
    { destruct Hpre as [-> | ->]; [by rewrite app_empty | by apply free_of_comma_space]. }
    assert (trim (pre +:+ w) = w) as Hpt.
    { destruct Hpre as [-> | ->]; [by rewrite app_empty | by rewrite trim_after_space]. }
    assert ((0 <? String.length w)%nat = true) as Hlen.
    { apply Nat.ltb_lt. destruct w; [done | cbn; lia]. }
    destruct ws' as [|w' ws'].
    - cbn [join]. unfold bannedArray. rewrite split_on_whole by done.
      change (trim <$> [pre +:+ w]) with [trim (pre +:+ w)].
      rewrite Hpt. cbn [List.filter]. by rewrite Hlen.
    - change (join ", " (w :: w' :: ws')) with (w +:+ ", " +:+ join ", " (w' :: ws')).
      rewrite <-string_app_assoc.
      change (", " +:+ join ", " (w' :: ws'))
        with (String "," (" " +:+ join ", " (w' :: ws'))).
      unfold bannedArray. rewrite split_on_app by done.
      rewrite fmap_cons. cbn [List.filter]. rewrite Hpt, Hlen. f_equal.
      apply (IH " "); auto. }
  intros Hws. destruct ws as [|w ws]; [done|].
  rewrite <-(app_empty (join ", " (w :: ws))). apply Hgen; auto.
Qed.

Lemma join_item_strings (String_of : value → string) (ws : list string) :
  mapM (join_item String_of) (VStr <$> ws) = Ok ws.
Proof. induction ws as [|w ws IH]; [done|]. rewrite fmap_cons. cbn. by rewrite IH. Qed.

(** X20. Opening the settings of a profile whose banned words are clean
    and saving them untouched gives the profile back: the words are joined
    into the input field, parsed again, and every other field is copied. *)
Theorem settings_round_trip (String_of : value → string) (props : gmap string value)
    (ws : list string) :
  props !! "bannedWords" = Some (strings ws) →
  Forall clean_word ws →
  ∃ opened,
    openSettings String_of (VObj props) = (opened, None)
    ∧ ∀ d,
        showAdvancedSettings (opened d) = true
        ∧ bannedWordInput (opened d) = join ", " ws
        ∧ editingProfile (opened d) = VObj props
        ∧ ∀ a, (saveSettings (opened d)).1 a = setStyleProfile (VObj props) a.
Proof.
  intros Hwords Hclean. unfold openSettings. cbn [get_prop]. rewrite Hwords.
  cbn [default from_option id mbind result_bind truthy strings as_array].
  rewrite join_item_strings. cbn [mbind result_bind].
  eexists. split; [reflexivity|]. intros d. do 3 (split; [done|]). intros a.
  unfold saveSettings. cbn [fst editingProfile bannedWordInput setShowAdvancedSettings
                                setBannedWordInput setEditingProfile spread].
  rewrite bannedArray_join by done. unfold with_prop. cbn [spread].
  by rewrite insert_id.
Qed.

Lemma settings_round_trip_witness :
  ∃ opened,
    openSettings unused (VObj twoBanned) = (opened, None)
    ∧ ∀ d,
        showAdvancedSettings (opened d) = true
        ∧ bannedWordInput (opened d) = join ", " ["delve"; "tapestry"]
        ∧ editingProfile (opened d) = VObj twoBanned
        ∧ ∀ a, (saveSettings (opened d)).1 a = setStyleProfile (VObj twoBanned) a.
Proof.
  apply (settings_round_trip unused twoBanned ["delve"; "tapestry"]).
  - vm_compute. reflexivity.
  - unfold clean_word. repeat constructor; try discriminate; vm_compute; auto.
Defined.

(** A banned phrase with a comma does not survive the panel. *)
Example settings_split_phrase :
  ∃ opened,
    openSettings unused (VObj {["bannedWords" := strings ["first, and foremost"]]})
    = (opened, None)
    ∧ get_prop (styleProfile ((saveSettings (opened closed)).1 drafting)) "bannedWords"
      = Ok (strings ["first"; "and foremost"]).
Proof. eexists. split; [reflexivity|]. by vm_compute. Qed.

(** ** The punctuation marks of the settings panel *)

Lemma existsb_mark (mark : string) (marks : list string) :
  existsb (λ m, strict_eq m (VStr mark)) (VStr <$> marks) = true ↔ mark ∈ marks.
Proof.
  induction marks as [|m marks IH]; [by rewrite elem_of_nil|].
  rewrite fmap_cons, elem_of_cons. cbn. rewrite orb_true_iff, IH, String.eqb_eq.
  split; intros [?|?]; auto.
Qed.

Lemma filter_mark (mark : string) (marks : list string) :
  List.filter (λ m, negb (strict_eq m (VStr mark))) (VStr <$> marks)
  = VStr <$> List.filter (λ m, negb (String.eqb m mark)) marks.
Proof.
  induction marks as [|m marks IH]; [done|]. rewrite fmap_cons. cbn.
  destruct (String.eqb m mark); cbn; by rewrite IH.
Qed.

Lemma elem_of_filter_mark (mark m : string) (marks : list string) :
  m ∈ List.filter (λ m, negb (String.eqb m mark)) marks ↔ m ≠ mark ∧ m ∈ marks.
Proof.
  rewrite !list_elem_of_In, filter_In, negb_true_iff, String.eqb_neq. tauto.
Qed.

(** X21. On a profile whose allowed punctuation is a list of strings,
    [togglePunctuation] flips the membership of the mark and of no other:
    a mark that is present loses all its occurrences, one that is absent
    is appended; the other fields are copied.  Toggling an absent mark
    twice gives the profile back. *)
Theorem togglePunctuation_flips (mark : string) (rendered : Deck) (marks : list string) :
  get_prop (editingProfile rendered) "allowedPunctuation" = Ok (strings marks) →
  ∃ marks',
    togglePunctuation mark rendered
    = (setEditingProfile
         (with_prop (editingProfile rendered) "allowedPunctuation" (strings marks')), None)
    ∧ (mark ∈ marks' ↔ mark ∉ marks)
    ∧ (∀ m, m ≠ mark → m ∈ marks' ↔ m ∈ marks)
    ∧ (mark ∉ marks →
       marks' = marks ++ [mark]
       ∧ ∀ d, let once := (togglePunctuation mark rendered).1 d in
              editingProfile ((togglePunctuation mark once).1 once) = editingProfile rendered).
Proof.
  intros Hcur.
  assert (∀ ep ms, get_prop ep "allowedPunctuation" = Ok (strings ms) →
    ∀ d, editingProfile d = ep →
    togglePunctuation mark d
    = (setEditingProfile
         (with_prop ep "allowedPunctuation"
            (strings (if bool_decide (mark ∈ ms)
                      then List.filter (λ m, negb (String.eqb m mark)) ms
                      else ms ++ [mark]))), None)) as Hrun.
  { intros ep ms Hep d <-. unfold togglePunctuation. rewrite Hep.
    cbn [mbind result_bind or_else strings truthy toggled].
    destruct (existsb _ _) eqn:Hin.
    - apply existsb_mark in Hin. rewrite bool_decide_eq_true_2 by done.
      by rewrite filter_mark.
    - rewrite bool_decide_eq_false_2.
      2:{ intros Hmark. apply existsb_mark in Hmark. congruence. }
      unfold strings. by rewrite fmap_app. }
  eexists. split; [by apply Hrun|].
  destruct (decide (mark ∈ marks)) as [Hin|Hout].
  - rewrite bool_decide_eq_true_2 by done. split; [|split].
    + rewrite elem_of_filter_mark. tauto.
    + intros m Hm. rewrite elem_of_filter_mark. tauto.
    + done.
  - rewrite bool_decide_eq_false_2 by done. split; [|split].
    + rewrite elem_of_app, list_elem_of_singleton. tauto.
    + intros m Hm. rewrite elem_of_app, list_elem_of_singleton. tauto.
    + intros _. split; [done|]. intros d. cbn zeta.
      rewrite (Hrun _ _ Hcur rendered eq_refl). rewrite bool_decide_eq_false_2 by done.
      cbn [fst]. 
      assert (∃ props, editingProfile rendered = VObj props
                       ∧ props !! "allowedPunctuation" = Some (strings marks))
        as (props & Hep & Hprops).
      { destruct (editingProfile rendered) as [| | | | | |props]; try discriminate.
        exists props. split; [done|]. unfold get_prop in Hcur.
        destruct (props !! "allowedPunctuation") as [v|];
          [injection Hcur as Hv; cbn in Hv; by rewrite Hv | discriminate]. }
      rewrite Hep.
      rewrite (Hrun (with_prop (VObj props) "allowedPunctuation" (strings (marks ++ [mark])))
                    (marks ++ [mark]));
        [|by unfold with_prop, get_prop; cbn [spread]; rewrite lookup_insert_eq|reflexivity].
      rewrite bool_decide_eq_true_2 by (rewrite elem_of_app, list_elem_of_singleton; tauto).
      cbn [fst editingProfile setEditingProfile]. unfold with_prop. cbn [spread].
      rewrite insert_insert_eq. f_equal.
      rewrite <-(insert_id props "allowedPunctuation" (strings marks)) at 2 by done.
      f_equal. f_equal.
      rewrite List.filter_app. cbn. rewrite String.eqb_refl. cbn. rewrite app_nil_r.
      apply forallb_filter_id, forallb_forall. intros m Hm.
      apply negb_true_iff, String.eqb_neq. intros ->. by apply Hout, list_elem_of_In.
Qed.

Lemma togglePunctuation_flips_witness :
  ∃ marks',
    togglePunctuation ";" (setEditingProfile (VObj twoBanned) closed)
    = (setEditingProfile
         (with_prop (VObj twoBanned) "allowedPunctuation" (strings marks')), None)
    ∧ (";" ∈ marks' ↔ ";" ∉ [","; "."])
    ∧ (∀ m, m ≠ ";" → m ∈ marks' ↔ m ∈ [","; "."])
    ∧ (";" ∉ [","; "."] →
       marks' = [","; "."] ++ [";"]
       ∧ ∀ d, let once :=
                (togglePunctuation ";" (setEditingProfile (VObj twoBanned) closed)).1 d in
              editingProfile ((togglePunctuation ";" once).1 once) = VObj twoBanned).
Proof.
  apply (togglePunctuation_flips ";" (setEditingProfile (VObj twoBanned) closed) [","; "."]).
  vm_compute. reflexivity.
Defined.

(** ** The sample and the uploads of the settings panel *)

Lemma joins_strings (ws : list string) : joins (strings ws) = true.
Proof. induction ws as [|w ws IH]; [done|]. exact IH. Qed.

Lemma joinable_tempProfile (rendered : Deck) :
  joinable (tempProfile rendered)
  = match get_prop (tempProfile rendered) "allowedPunctuation" with
    | Ok marks => joins marks
    | Throw _ => false
    end.
Proof.
  unfold joinable, tempProfile, with_prop, get_prop.
  rewrite lookup_insert_eq. cbn [default from_option id]. by rewrite joins_strings.
Qed.

(** X22. [handleGenerateSample] builds its profile from the editing
    profile and the banned words of the input field, which are strings
    and never stand in the way of the [join].  With a key, when the
    thirteen fields of the template can be converted to a string and the
    allowed punctuation can be joined, it always ends with the busy flag
    off and a sample that is not empty on display, after exactly one
    request.  With a key and any other profile, or without a key,
    [generateStyleSample] throws, nothing catches it, nothing is sent and
    the busy flag stays on. *)
Theorem handleGenerateSample_outcome (E : Env) (rendered : Deck) (w : world) :
  sampleable (tempProfile rendered)
  = converts (tempProfile rendered) sampleFields
    && match get_prop (tempProfile rendered) "allowedPunctuation" with
       | Ok marks => joins marks
       | Throw _ => false
       end
  ∧ (apiKey E ≠ EmptyString → sampleable (tempProfile rendered) = true →
     ∃ text fields update,
       handleGenerateSample E rendered w
       = (Ok (update, None),
          World (calls w ++ [styleSampleRequest fields]) (console w) (alerts w) (draws w))
       ∧ text ≠ EmptyString
       ∧ ∀ d, isGeneratingSample (update d) = false
              ∧ showTestSample (update d) = true
              ∧ testSampleText (update d) = text
              ∧ editingProfile (update d) = editingProfile d
              ∧ bannedWordInput (update d) = bannedWordInput d)
  ∧ (apiKey E ≠ EmptyString → sampleable (tempProfile rendered) = false →
     handleGenerateSample E rendered w = (Ok (setIsGeneratingSample true, Some TypeError), w))
  ∧ (apiKey E = EmptyString →
     handleGenerateSample E rendered w
     = (Ok (setIsGeneratingSample true, Some (Error "API Key missing")), w)).
Proof.
  split; [unfold sampleable; by rewrite joinable_tempProfile|].
  unfold handleGenerateSample. split; [|split].
  - intros Hkey Hp.
    pose proof (generateStyleSample_cases E (tempProfile rendered) w Hkey) as Hrun.
    rewrite Hp in Hrun. destruct Hrun as (text & fields & Hrun & Htext & _).
    cbn zeta in Hrun. rewrite Hrun. exists text, fields. eexists.
    split; [reflexivity|]. split; [done|]. done.
  - intros Hkey Hp.
    pose proof (generateStyleSample_cases E (tempProfile rendered) w Hkey) as Hrun.
    rewrite Hp in Hrun. by rewrite Hrun.
  - intros Hkey. unfold generateStyleSample. by rewrite (key_missing _ Hkey).
Qed.

Lemma handleGenerateSample_outcome_witness :
  (∃ text fields update,
     handleGenerateSample writing editing quiet
     = (Ok (update, None),
        World (calls quiet ++ [styleSampleRequest fields]) (console quiet) (alerts quiet)
              (draws quiet))
     ∧ text ≠ EmptyString
     ∧ ∀ d, isGeneratingSample (update d) = false
            ∧ showTestSample (update d) = true
            ∧ testSampleText (update d) = text
            ∧ editingProfile (update d) = editingProfile d
            ∧ bannedWordInput (update d) = bannedWordInput d)
  ∧ handleGenerateSample writing
      (setEditingProfile (VObj (<["writingDomain" := noString]> twoBanned)) editing) quiet
    = (Ok (setIsGeneratingSample true, Some TypeError), quiet)
  ∧ handleGenerateSample noKey editing quiet
    = (Ok (setIsGeneratingSample true, Some (Error "API Key missing")), quiet).
Proof.
  split; [|split].
  - apply (proj1 (proj2 (handleGenerateSample_outcome writing editing quiet))).
    + discriminate.
    + vm_compute. reflexivity.
  - apply (proj1 (proj2 (proj2 (handleGenerateSample_outcome writing
             (setEditingProfile (VObj (<["writingDomain" := noString]> twoBanned)) editing)
             quiet)))).
    + discriminate.
    + vm_compute. reflexivity.
  - apply (proj2 (proj2 (proj2 (handleGenerateSample_outcome noKey editing quiet)))).
    reflexivity.
Defined.

(** With a key, an analysis that fails is answered with the error
    profile and one line on the console. *)
Lemma analyzeStyle_no_profile (E : Env) (sampleText : string) (w : world) :
  apiKey E ≠ EmptyString →
  no_profile (model_answer E (calls w) (styleRequest sampleText)) = true →
  ∃ e, analyzeStyle E sampleText w
       = (Ok errorProfile,
          World (calls w ++ [styleRequest sampleText])
                (console w ++ [("Style Analysis Failed", e)]) (alerts w) (draws w)).
Proof.
  intros Hkey Hfail. rewrite analyzeStyle_run by done. cbn zeta. unfold no_profile in Hfail.
  destruct (model_answer _ _ _) as [|r]; [by eexists|].
  destruct (has_text r); [|by eexists].
  destruct (parsed r) as [v|]; [|by eexists].
  cbn in Hfail. rewrite mergeProfile_null by done. by eexists.
Qed.

(** X23. [handleFileUpload] does nothing when no file was chosen.  With a
    key it always completes: one analysis request for the text of the
    file, then the same profile in the application and in the panel and
    the busy flag off.  Without a key [analyzeStyle] throws, nothing
    catches it, and the busy flag of the panel stays on. *)
Theorem handleFileUpload_outcome (E : Env) (w : world) :
  handleFileUpload E None w = (Ok (λ a, a, λ d, d, None), w)
  ∧ (∀ text, apiKey E ≠ EmptyString →
       ∃ p update w',
         handleFileUpload E (Some text) w = (Ok (setStyleProfile p, update, None), w')
         ∧ calls w' = calls w ++ [styleRequest text]
         ∧ alerts w' = alerts w
         ∧ ∀ d, isAnalyzingFile (update d) = false
                ∧ editingProfile (update d) = p
                ∧ bannedWordInput (update d) = bannedWordInput d)
  ∧ (∀ text, apiKey E = EmptyString →
       handleFileUpload E (Some text) w
       = (Ok (λ a, a, setIsAnalyzingFile true, Some (Error "API Key missing")), w)).
Proof.
  split; [done|]. split.
  - intros text Hkey. unfold handleFileUpload.
    destruct (analyzeStyle_outcomes E text w Hkey)
      as (p & w' & -> & Hcalls & Halerts & _).
    exists p. eexists _, w'. split; [reflexivity|]. done.
  - intros text Hkey. unfold handleFileUpload. by rewrite analyzeStyle_no_key.
Qed.

Lemma handleFileUpload_outcome_witness :
  handleFileUpload british None quiet = (Ok (λ a, a, λ d, d, None), quiet)
  ∧ (∃ p update w',
       handleFileUpload british (Some excerpt) quiet
       = (Ok (setStyleProfile p, update, None), w')
       ∧ calls w' = calls quiet ++ [styleRequest excerpt]
       ∧ alerts w' = alerts quiet
       ∧ ∀ d, isAnalyzingFile (update d) = false
              ∧ editingProfile (update d) = p
              ∧ bannedWordInput (update d) = bannedWordInput d)
  ∧ handleFileUpload noKey (Some excerpt) quiet
    = (Ok (λ a, a, setIsAnalyzingFile true, Some (Error "API Key missing")), quiet).
Proof.
  split; [|split].
  - apply (proj1 (handleFileUpload_outcome british quiet)).
  - apply (proj1 (proj2 (handleFileUpload_outcome british quiet)) excerpt). discriminate.
  - apply (proj2 (proj2 (handleFileUpload_outcome noKey quiet)) excerpt). reflexivity.
Defined.

(** X24. With a key, an analysis that fails costs the user the profile:
    [handleCalibrateFromEditor] and [handleFileUpload] both install the
    error profile in place of the one in use, whatever it was, and the
    upload installs it in the panel as well.  The failure is logged by
    [analyzeStyle] alone: the [catch] of the calibration is not reached. *)
Theorem failed_analysis_replaces_profile (E : Env) (rendered : App) (text : string)
    (w : world) :
  apiKey E ≠ EmptyString →
  (50 ≤ String.length (content rendered) →
   no_profile (model_answer E (calls w) (styleRequest (content rendered))) = true →
   ∃ update e,
     handleCalibrateFromEditor E rendered w
     = (Ok update,
        World (calls w ++ [styleRequest (content rendered)])
              (console w ++ [("Style Analysis Failed", e)]) (alerts w) (draws w))
     ∧ ∀ a, update a = setIsCalibrating false (setStyleProfile errorProfile a))
  ∧ (no_profile (model_answer E (calls w) (styleRequest text)) = true →
     ∃ update e,
       handleFileUpload E (Some text) w
       = (Ok (setStyleProfile errorProfile, update, None),
          World (calls w ++ [styleRequest text])
                (console w ++ [("Style Analysis Failed", e)]) (alerts w) (draws w))
       ∧ ∀ d, update d = setIsAnalyzingFile false (setEditingProfile errorProfile d)).
Proof.
  intros Hkey. split.
  - intros Hlong Hfail. unfold handleCalibrateFromEditor.
    apply Nat.ltb_ge in Hlong as ->.
    destruct (analyzeStyle_no_profile E (content rendered) w Hkey Hfail) as [e Hrun].
    run_bind. unfold try_catch. run_bind. rewrite Hrun.
    eexists _, e. split; [reflexivity|]. done.
  - intros Hfail. unfold handleFileUpload.
    destruct (analyzeStyle_no_profile E text w Hkey Hfail) as [e ->].
    eexists _, e. split; [reflexivity|]. done.
Qed.

Lemma failed_analysis_replaces_profile_witness :
  (∃ update e,
     handleCalibrateFromEditor offline sixty quiet
     = (Ok update,
        World (calls quiet ++ [styleRequest (content sixty)])
              (console quiet ++ [("Style Analysis Failed", e)]) (alerts quiet) (draws quiet))
     ∧ ∀ a, update a = setIsCalibrating false (setStyleProfile errorProfile a))
  ∧ ∃ update e,
      handleFileUpload offline (Some excerpt) quiet
      = (Ok (setStyleProfile errorProfile, update, None),
         World (calls quiet ++ [styleRequest excerpt])
               (console quiet ++ [("Style Analysis Failed", e)]) (alerts quiet) (draws quiet))
      ∧ ∀ d, update d = setIsAnalyzingFile false (setEditingProfile errorProfile d).
Proof.
  destruct (failed_analysis_replaces_profile offline sixty excerpt quiet) as [Hcal Hup].
  { discriminate. }
  split.
  - apply Hcal.
    + vm_compute. lia.
    + vm_compute. reflexivity.
  - apply Hup. vm_compute. reflexivity.
Defined.

(** X25. [handleResearchUpload] puts exactly one entry in front of the
    library and touches nothing else; without a file it does nothing.
    The entry holds the first 200 code units of the text followed by three
    dots, also when the text is shorter, and its id, the clock in decimal
    digits, is the id of no generated entry. *)
Theorem handleResearchUpload_entry (name text : string) (now : N) (fullYear : Z) (a : App) :
  let after := handleResearchUpload (Some (name, text)) now fullYear a in
  handleResearchUpload None now fullYear a = a
  ∧ after = setResearchData (λ prev, uploaded name text now fullYear :: prev) a
  ∧ researchData after = uploaded name text now fullYear :: researchData a
  ∧ id_of (uploaded name text now fullYear) = VStr (pretty now)
  ∧ (∀ t r, pretty now ≠ gen_id t r)
  ∧ ∃ shown rest,
      get_prop (uploaded name text now fullYear) "content" = Ok (VStr (shown +:+ "..."))
      ∧ text = shown +:+ rest
      ∧ String.length shown = 200 `min` String.length text.
Proof.
  cbn zeta. split; [done|]. split; [done|]. split; [done|]. split; [done|]. split.
  - intros t r Heq. pose proof (pretty_N_digits now) as Hfree.
    rewrite Heq in Hfree. unfold gen_id in Hfree.
    rewrite !app_cons in Hfree. cbn [free_of] in Hfree.
    by destruct Hfree as (_ & _ & _ & Hbad & _).
  - destruct (slice_to_prefix 200 text) as [Hlen [rest Hrest]].
    exists (slice_to 200 text), rest. split; [reflexivity|]. done.
Qed.

(** ** The context menu and the citation handler *)

Lemma trimStart_length (s : string) : String.length (trimStart s) ≤ String.length s.
Proof.
  induction s as [|c s IH]; [done|]. cbn. destruct (is_space c); cbn; lia.
Qed.

Lemma trimEnd_length (s : string) : String.length (trimEnd s) ≤ String.length s.
Proof.
  induction s as [|c s IH]; [done|]. cbn.
  destruct (trimEnd s); [destruct (is_space c)|]; cbn in *; lia.
Qed.

(** X26. With the selection in the range of the text area, [handleMouseUp]
    opens the context menu exactly when the selected text has more than
    five code units once the white space at its ends is removed, and the
    selection the menu passes on to the rewrite, the continuation and the
    citation search is the selected text itself, white space included. *)
Theorem handleMouseUp_menu (target : Textarea.t) :
  in_range (Textarea.selectionStart target) (Textarea.selectionEnd target)
           (Textarea.value target) →
  ∃ before selected after,
    Textarea.value target = before +:+ selected +:+ after
    ∧ String.length before = Textarea.selectionStart target
    ∧ String.length selected = Textarea.selectionEnd target - Textarea.selectionStart target
    ∧ handleMouseUp target
      = (if (5 <? String.length (trim selected))%nat then Some selected else None)
    ∧ (∀ selection, handleMouseUp target = Some selection →
         selection = selected
         ∧ 5 < Textarea.selectionEnd target - Textarea.selectionStart target).
Proof.
  intros Hr. destruct (substring_three_way _ _ _ Hr) as (Hval & Hlen & Hsel).
  set (selected := substring2 (Textarea.selectionStart target) (Textarea.selectionEnd target)
                              (Textarea.value target)) in *.
  exists (substring_to (Textarea.selectionStart target) (Textarea.value target)), selected,
         (substring_from (Textarea.selectionEnd target) (Textarea.value target)).
  split; [done|]. split; [done|]. split; [done|].
  assert (String.length (trim selected) ≤ String.length selected) as Htrim.
  { unfold trim. etrans; [apply trimEnd_length | apply trimStart_length]. }
  assert (handleMouseUp target
          = if (5 <? String.length (trim selected))%nat then Some selected else None) as Hmenu.
  { unfold handleMouseUp. fold selected.
    destruct (Nat.eqb_spec (Textarea.selectionStart target) (Textarea.selectionEnd target))
      as [Heq|Hne]; [|done].
    cbn [negb]. rewrite Heq, Nat.sub_diag in Hsel.
    destruct (Nat.ltb_spec 5 (String.length (trim selected))); [lia | done]. }
  split; [done|]. intros selection. rewrite Hmenu.
  destruct (Nat.ltb_spec 5 (String.length (trim selected))); [|done].
  intros [= <-]. split; [done | lia].
Qed.

Lemma handleMouseUp_menu_witness :
  ∃ before selected after,
    Textarea.value twoWords = before +:+ selected +:+ after
    ∧ String.length before = Textarea.selectionStart twoWords
    ∧ String.length selected = Textarea.selectionEnd twoWords - Textarea.selectionStart twoWords
    ∧ handleMouseUp twoWords
      = (if (5 <? String.length (trim selected))%nat then Some selected else None)
    ∧ (∀ selection, handleMouseUp twoWords = Some selection →
         selection = selected
         ∧ 5 < Textarea.selectionEnd twoWords - Textarea.selectionStart twoWords).
Proof.
  apply (handleMouseUp_menu twoWords). unfold in_range. vm_compute. lia.
Defined.

(** The menu opens on the two words, and not on five letters between
    spaces. *)
Example handleMouseUp_twoWords :
  handleMouseUp twoWords = Some "Quantum coherence"
  ∧ handleMouseUp (Textarea.make "so   warm   it is" 2 12) = None.
Proof. by vm_compute. Qed.

(** X27. [handleFindCitations] never throws and shows no alert.  It never
    writes the content, the mode, the profile or the calibration flag, and
    the busy flag ends up off.  When the search returns and the filter
    against the library returns the new citations, nothing is logged, the
    suggestions become exactly what the search returned, whatever they
    were, and the new citations are put in front of the library.  When
    the search throws, or the filter does, the exception is logged and
    only the busy flag is written. *)
Theorem handleFindCitations_shows (E : Env) (selection : string) (rendered : App)
    (w : world) :
  ∃ update w',
    handleFindCitations E selection rendered w = (Ok update, w')
    ∧ alerts w' = alerts w
    ∧ (∀ a, isGhostWriting (update a) = false
            ∧ content (update a) = content a
            ∧ mode (update a) = mode a
            ∧ styleProfile (update a) = styleProfile a
            ∧ isCalibrating (update a) = isCalibrating a)
    ∧ (∀ citations w1,
         findCitationsForSelection E selection (researchData rendered) w
         = (Ok citations, w1) →
         match filter_of (notInLibrary (researchData rendered)) citations with
         | Ok newCitations =>
             w' = w1
             ∧ ∀ a, liveSuggestions (update a) = citations
                    ∧ researchData (update a) = newCitations ++ researchData a
         | Throw e =>
             w' = World (calls w1) (console w1 ++ [(EmptyString, e)]) (alerts w1) (draws w1)
             ∧ ∀ a, update a = setIsGhostWriting false a
         end)
    ∧ (∀ e w1,
         findCitationsForSelection E selection (researchData rendered) w = (Throw e, w1) →
         w' = World (calls w1) (console w1 ++ [(EmptyString, e)]) (alerts w1) (draws w1)
         ∧ ∀ a, update a = setIsGhostWriting false a).
Proof.
  pose proof (findCitations_no_alert E selection (researchData rendered) w) as Halerts.
  unfold handleFindCitations. run_bind. unfold try_catch. run_bind.
  destruct (findCitationsForSelection E selection (researchData rendered) w)
    as [[citations|e] w1] eqn:Hrun; cbn [snd] in Halerts.
  - run_bind. unfold pure.
    destruct (filter_of (notInLibrary (researchData rendered)) citations)
      as [news|e] eqn:Hfilter.
    + eexists _, _. split; [reflexivity|]. split; [done|]. split.
      { intros a. by destruct (0 <? length news)%nat. }
      split.
      * intros ? ? [= <- <-]. rewrite Hfilter. split; [done|].
        intros a. by destruct news.
      * intros ? ? ?. discriminate.
    + eexists _, _. split; [reflexivity|]. split; [done|]. split; [done|]. split.
      * intros ? ? [= <- <-]. by rewrite Hfilter.
      * intros ? ? ?. discriminate.
  - eexists _, _. split; [reflexivity|]. split; [done|]. split; [done|]. split.
    + intros ? ? ?. discriminate.
    + by intros ? ? [= <- <-].
Qed.

(** On the excerpt, with one entry in the library, the two generated
    citations and the entry are suggested, and the two are added. *)
Example handleFindCitations_suggested :
  ∃ update w',
    handleFindCitations ticking excerpt drafting quiet = (Ok update, w')
    ∧ id_of <$> liveSuggestions (update drafting)
      = [VStr "1"; VStr "gen_1700000000000_4fzyo82mv"; VStr "gen_1700000000001_4fzyo82mv"]
    ∧ length (researchData (update drafting)) = 3.
Proof. eexists _, _. split; [vm_compute; reflexivity|]. by vm_compute. Qed.

(** ** The system prompt *)

(** X28. [constructSystemPrompt] returns a prompt exactly for the profiles
    of which the fifteen fields its template interpolates can be converted
    to a string and of which the banned words and the allowed punctuation
    can be joined: arrays whose elements are [undefined], [null] or can be
    converted.  On every other profile it throws a [TypeError].  A field
    that is absent is [undefined] and converts, and the three rhetorical
    flags are only tested.  The mode and the research context go into the
    prompt as they are given, and the fields read from the profile do not
    depend on them. *)
Theorem constructSystemPrompt_accepts (p : value) :
  ((∃ mode ctx sp, constructSystemPrompt p mode ctx = Ok sp) ↔ promptable p = true)
  ∧ (promptable p = true →
     ∃ fields, ∀ mode ctx,
       constructSystemPrompt p mode ctx = Ok (SystemPrompt mode ctx fields))
  ∧ (promptable p = false → ∀ mode ctx, constructSystemPrompt p mode ctx = Throw TypeError)
  ∧ (promptable p = true ↔
     (∀ k, k ∈ promptFields → ∃ v, get_prop p k = Ok v ∧ convertible v = true)
     ∧ (∃ b, get_prop p "bannedWords" = Ok b ∧ joins b = true)
     ∧ (∃ a, get_prop p "allowedPunctuation" = Ok a ∧ joins a = true)).
Proof.
  pose proof (constructSystemPrompt_promptable p) as Hsp.
  split; [|split; [|split]].
  - destruct (promptable p) eqn:Hj.
    + split; [done|]. intros _. destruct Hsp as [fields Hsp].
      exists markdown, []. eexists. apply Hsp.
    + split; [|done]. intros (mode & ctx & sp & Hok). by rewrite Hsp in Hok.
  - intros Hp. by rewrite Hp in Hsp.
  - intros Hp. by rewrite Hp in Hsp.
  - unfold promptable, converts, joinable.
    rewrite andb_true_iff, forallb_forall. split.
    + intros [Hfields Hjoin]. split; [|].
      * intros k Hk%list_elem_of_In. specialize (Hfields k Hk).
        destruct (get_prop p k) as [v|]; [by exists v | done].
      * destruct (get_prop p "bannedWords") as [b|]; [|done].
        destruct (get_prop p "allowedPunctuation") as [a|]; [|done].
        apply andb_true_iff in Hjoin as [Hb Ha]. split; by eexists.
    + intros (Hfields & (b & -> & Hb) & (a & -> & Ha)). split.
      * intros k Hk%list_elem_of_In. by destruct (Hfields k Hk) as (v & -> & Hv).
      * by rewrite Hb, Ha.
Qed.

Lemma constructSystemPrompt_accepts_witness :
  ((∃ mode ctx sp, constructSystemPrompt errorProfile mode ctx = Ok sp)
   ↔ promptable errorProfile = true)
  ∧ (∃ fields, ∀ mode ctx,
       constructSystemPrompt errorProfile mode ctx = Ok (SystemPrompt mode ctx fields))
  ∧ (∀ mode ctx,
       constructSystemPrompt (VObj (<["writingDomain" := noString]> twoBanned)) mode ctx
       = Throw TypeError)
  ∧ (promptable errorProfile = true ↔
     (∀ k, k ∈ promptFields → ∃ v, get_prop errorProfile k = Ok v ∧ convertible v = true)
     ∧ (∃ b, get_prop errorProfile "bannedWords" = Ok b ∧ joins b = true)
     ∧ (∃ a, get_prop errorProfile "allowedPunctuation" = Ok a ∧ joins a = true)).
Proof.
  split; [|split; [|split]].
  - apply (proj1 (constructSystemPrompt_accepts errorProfile)).
  - apply (proj1 (proj2 (constructSystemPrompt_accepts errorProfile))).
    vm_compute. reflexivity.
  - apply (proj1 (proj2 (proj2 (constructSystemPrompt_accepts
                                  (VObj (<["writingDomain" := noString]> twoBanned)))))).
    vm_compute. reflexivity.
  - apply (proj2 (proj2 (proj2 (constructSystemPrompt_accepts errorProfile)))).
Defined.
